(** * Etabs_Project: the structural-model builder, embedded and verified

    The Python sources are embedded function by function.  Numbers are
    modelled in two ways, chosen by what the code does with them:

    - the response spectrum and the geometry generators compute with
      [float] through [+ - * /], [**], [min], [max] and [int()]; they are
      read over the real numbers [R] (rounding is not modelled);
    - the story-drift extraction only multiplies by [1000.0], takes [abs]
      and compares; it is embedded over the kernel's binary64 floats, so
      that its arithmetic is the interpreter's, bit for bit.

    A call ends in [Done v] (it returned [v]), [Raised e] (it raised [e]) or
    [Exited] ([sys.exit], reached through [check_ret]).  What the external
    application answers is an argument of the embedded function. *)

From Stdlib Require Import Reals Lra Lia ZArith List String Ascii Bool.
From Stdlib Require Import DecimalString.
From Stdlib Require Import DecimalNat.
From Stdlib Require Import Floats.
Import ListNotations.

Set Warnings "-inexact-float,-register-all".

(** ** utils/helpers.py *)

Module Helpers.
Local Open Scope string_scope.
Local Open Scope Z_scope.

(** The values an automation call hands back: a bare status code, or a tuple
    whose first element is the status code. *)
Inductive pyval : Type :=
| PInt (z : Z)
| PStr (s : string)
| PNone
| PTuple (items : list pyval).

(** [kw in func_name] on strings. *)
Fixpoint contains (kw s : string) : bool :=
  if String.prefix kw s then true
  else match s with
       | EmptyString => false
       | String _ rest => contains kw rest
       end.

(** Lines 35-46: the names for which a return code of 1 is let through. *)
Definition benign_keywords : list string :=
  [ "SetNumberModes"; "SetMaterial"; "SetWall"; "SetSlab";
    "SetRectangle"; "SetCase"; "Add("; "AddByCoord"; "SetDiaphragm";
    "SetPier"; "SetSpandrel"; "SetSelfWTMultiplier"; "SetLoadUniform";
    "SetRunCaseFlag"; "DeselectAllCasesAndCombosForOutput";
    "SetCaseSelectedForOutput"; "Drift"; "SetModifiers";
    "Results.ModalPeriod"; "Results.ModalParticipatingMassRatios";
    "Results.StoryDrifts"; "Results."; "ModalPeriod";
    "ModalParticipatingMassRatios"; "StoryDrifts"; "GetNameList";
    "RefreshView" ].

(** Line 49: the names whose message is the "no result data" one. *)
Definition result_keywords : list string :=
  [ "ModalPeriod"; "StoryDrifts"; "ModalParticipatingMassRatios" ].

(** What the function prints (the texts themselves are not modelled). *)
Inductive log_line : Type :=
| InfoNoResultData (func_name : string)
| InfoAlreadyExists (func_name : string)
| ErrorReturnCode (func_name : string) (code : pyval) (ok_codes : list Z)
                  (ret_val : pyval).

(** A call either returns, or ends the process through [sys.exit]. *)
Inductive outcome (A : Type) : Type :=
| Returns (a : A) (printed : list log_line)
| Exits (printed : list log_line).
Arguments Returns {A} a printed.
Arguments Exits {A} printed.

(** Line 30: [ret_val[0] if isinstance(ret_val, tuple) and len(ret_val) > 0
    else ret_val]. *)
Definition code_of (ret_val : pyval) : pyval :=
  match ret_val with
  | PTuple (first :: _) => first
  | _ => ret_val
  end.

(** [code == 1]. *)
Definition is_one (code : pyval) : bool :=
  match code with
  | PInt z => Z.eqb z 1
  | _ => false
  end.

(** [code in ok_codes], for a tuple of integer codes. *)
Definition in_ok_codes (code : pyval) (ok_codes : list Z) : bool :=
  match code with
  | PInt z => existsb (Z.eqb z) ok_codes
  | _ => false
  end.

Definition default_ok_codes : list Z := [0].

(** [check_ret(ret_val, func_name, ok_codes)], lines 13-64.
    [system_loaded] is the module-level handle [System] being set. *)
Definition check_ret (system_loaded : bool) (ret_val : pyval)
    (func_name : string) (ok_codes : list Z) : outcome pyval :=
  if negb system_loaded then Exits []
  else
    let code := code_of ret_val in
    if is_one code && existsb (fun kw => contains kw func_name) benign_keywords
    then
      if contains "Results." func_name
         || existsb (fun x => contains x func_name) result_keywords
      then Returns code [InfoNoResultData func_name]
      else Returns code [InfoAlreadyExists func_name]
    else if negb (in_ok_codes code ok_codes)
    then Exits [ErrorReturnCode func_name code ok_codes ret_val]
    else Returns code [].

End Helpers.

(** ** Results of calls that may raise or exit *)

Module Py.
Import Helpers.

(** How a call ends: a returned value, a raised exception, or [sys.exit]
    from inside [check_ret]. *)
Inductive exception : Type :=
| RuntimeError
| IndexError
| ZeroDivisionError
| AttributeError
| OtherError.

Inductive run (A : Type) : Type :=
| Done (a : A)
| Raised (e : exception)
| Exited.
Arguments Done {A} a.
Arguments Raised {A} e.
Arguments Exited {A}.

Definition bind {A B : Type} (m : run A) (k : A -> run B) : run B :=
  match m with
  | Done a => k a
  | Raised e => Raised e
  | Exited => Exited
  end.

Notation "x <- m ;; k" := (bind m (fun x => k))
  (at level 61, m at next level, right associativity).

(** A [check_ret] call whose returned code is not used. *)
Definition checked (o : outcome pyval) : run unit :=
  match o with
  | Returns _ _ => Done tt
  | Exits _ => Exited
  end.

(** [str.upper()] and [str.strip()] on ASCII text. *)
Definition upper_char (c : ascii) : ascii :=
  let n := nat_of_ascii c in
  if Nat.leb 97 n && Nat.leb n 122 then ascii_of_nat (n - 32) else c.

Fixpoint upper (s : string) : string :=
  match s with
  | EmptyString => EmptyString
  | String c rest => String (upper_char c) (upper rest)
  end.

Definition is_space (c : ascii) : bool :=
  let n := nat_of_ascii c in
  (Nat.leb 9 n && Nat.leb n 13) || (Nat.leb 28 n && Nat.leb n 32).

Fixpoint lstrip (s : string) : string :=
  match s with
  | EmptyString => EmptyString
  | String c rest => if is_space c then lstrip rest else s
  end.

Fixpoint rstrip (s : string) : string :=
  match s with
  | EmptyString => EmptyString
  | String c rest =>
      match rstrip rest with
      | EmptyString => if is_space c then EmptyString else String c EmptyString
      | kept => String c kept
      end
  end.

Definition strip (s : string) : string := rstrip (lstrip s).

(** [str(n)] in an f-string, for a non-negative integer. *)
Definition str_nat (n : nat) : string :=
  NilZero.string_of_uint (Nat.to_uint n).

(** [enumerate(l)]. *)
Definition enumerate {A : Type} (l : list A) : list (nat * A) :=
  combine (seq 0 (List.length l)) l.

End Py.

(** ** loads/response_spectrum.py *)

Module ResponseSpectrum.
Import Py.
Local Open Scope R_scope.

(** [GRAVITY_ACCEL] of the configuration bundles. *)
Definition GRAVITY_ACCEL : R := 9.80665.

(** Line 29: [gamma = 0.9 + (0.05 - zeta) / (0.3 + 6.0 * zeta)]. *)
Definition gamma (zeta : R) : R :=
  0.9 + (0.05 - zeta) / (0.3 + 6.0 * zeta).

(** Line 30: [eta1 = max(0.0, 0.02 + (0.05 - zeta) / (4.0 + 32.0 * zeta))]. *)
Definition eta1 (zeta : R) : R :=
  Rmax 0.0 (0.02 + (0.05 - zeta) / (4.0 + 32.0 * zeta)).

(** Line 31: [eta2 = max(0.55, 1.0 + (0.05 - zeta) / (0.08 + 1.6 * zeta))]. *)
Definition eta2 (zeta : R) : R :=
  Rmax 0.55 (1.0 + (0.05 - zeta) / (0.08 + 1.6 * zeta)).

(** The three divisors of lines 29-31; Python raises [ZeroDivisionError]
    when one of them is zero. *)
Definition divisors_nonzero (zeta : R) : Prop :=
  0.3 + 6.0 * zeta <> 0 /\ 4.0 + 32.0 * zeta <> 0 /\ 0.08 + 1.6 * zeta <> 0.

Definition divisors_nonzero_dec (zeta : R) :
  {divisors_nonzero zeta} + {~ divisors_nonzero zeta}.
Proof.
  unfold divisors_nonzero.
  destruct (Req_dec_T (0.3 + 6.0 * zeta) 0);
    destruct (Req_dec_T (4.0 + 32.0 * zeta) 0);
    destruct (Req_dec_T (0.08 + 1.6 * zeta) 0);
    solve [ left; tauto | right; tauto ].
Defined.

(** [x ** y] for a positive base, the only case the function reaches:
    [0.2 ** gamma], and [(Tg / T) ** gamma] under [0.1 < T <= 5 * Tg]. *)
Definition py_pow (x y : R) : R := Rpower x y.

(** Lines 35-50: the [if]/[elif] chain that sets [current_alpha_coeff]. *)
Definition branch_alpha_coeff (T zeta alpha_max Tg : R) : R :=
  if Rlt_dec T 0 then 0.0
  else if Req_dec_T T 0.0 then 0.45 * alpha_max
  else if Rle_dec T 0.1 then
    Rmin ((0.45 + 10.0 * (eta2 zeta - 0.45) * T) * alpha_max)
         (eta2 zeta * alpha_max)
  else if Rle_dec T Tg then eta2 zeta * alpha_max
  else if Rle_dec T (5.0 * Tg) then
    py_pow (Tg / T) (gamma zeta) * eta2 zeta * alpha_max
  else if Rle_dec T 6.0 then
    (py_pow 0.2 (gamma zeta) * eta2 zeta - eta1 zeta * (T - 5.0 * Tg))
    * alpha_max
  else
    (py_pow 0.2 (gamma zeta) * eta2 zeta - eta1 zeta * (6.0 - 5.0 * Tg))
    * alpha_max.

(** Lines 52-53: the two floors applied to every branch. *)
Definition alpha_coeff (T zeta alpha_max Tg : R) : R :=
  Rmax 0.0 (Rmax (branch_alpha_coeff T zeta alpha_max Tg) (0.20 * alpha_max)).

(** [china_response_spectrum(T, zeta, alpha_max, Tg, g)]: line 55 returns
    [current_alpha_coeff * g]. *)
Definition china_response_spectrum (T zeta alpha_max Tg g : R) : run R :=
  if divisors_nonzero_dec zeta
  then Done (alpha_coeff T zeta alpha_max Tg * g)
  else Raised ZeroDivisionError.


End ResponseSpectrum.

(** ** results/drift_results.py *)

Module DriftResults.
Import Helpers.
Export Py.
Local Open Scope string_scope.

(** The tuple [StoryDrifts] hands back: [ret[0]] the status, [ret[1]] the
    number of rows, [ret[2..11]] the column arrays (a null array is [None]). *)
Record story_drifts_ret : Type := {
  ret_status : pyval;
  ret_num_results : Z;
  ret_story : option (list string);
  ret_case : option (list string);
  ret_steptype : option (list string);
  ret_stepnum : option (list float);
  ret_direction : option (list string);
  ret_drift : option (list float);
  ret_label : option (list string);
  ret_x : option (list float);
  ret_y : option (list float);
  ret_z : option (list float)
}.

(** What one [StoryDrifts] call does: answer (possibly with [None]), reject
    the argument list with [TypeError], or raise something else. *)
Inductive api_call : Type :=
| Answers (ret : option story_drifts_ret)
| RaisesTypeError
| RaisesOther.

(** The external model, as far as this function talks to it. *)
Record sap_model : Type := {
  Results_available : bool;
  DeselectAllCasesAndCombosForOutput : pyval;
  SetCaseSelectedForOutput : string -> pyval;
  Drift : option pyval;
  StoryDrifts_with_item_type : api_call;
  StoryDrifts_plain : api_call
}.

(** Lines 141-147: the direction bucket of a row. *)
Inductive dir_key : Type := DirX | DirY | DirUnknown.

Definition classify_direction (raw : string) : dir_key :=
  let dir_raw := strip (upper raw) in
  if existsb (String.eqb dir_raw) ["U1"; "UX"; "X"] then DirX
  else if existsb (String.eqb dir_raw) ["U2"; "UY"; "Y"] then DirY
  else DirUnknown.

(** Line 138: [drift_permil = drift_rad * 1000.0]. *)
Definition to_permil (drift_rad : float) : float :=
  PrimFloat.mul drift_rad 1000%float.

(** Lines 149-161: one row of ["records"]. *)
Record drift_record : Type := {
  story : string;
  load_case : string;
  direction : dir_key;
  drift_permil : float;
  drift_rad : float;
  step_type : string;
  step_num : float;
  label : string;
  x : float;
  y : float;
  z : float
}.

(** Line 134: [max_drift = {"X": (0.0, None), "Y": (0.0, None)}]. *)
Record max_drift : Type := {
  max_X : float * option nat;
  max_Y : float * option nat
}.

Definition max_drift_init : max_drift :=
  {| max_X := (0%float, None); max_Y := (0%float, None) |}.

(** Lines 165-169 for one key that is in [max_drift]. *)
Definition bump (stored : float * option nat) (permil : float) (i : nat)
  : float * option nat :=
  if PrimFloat.ltb (PrimFloat.abs (fst stored)) (PrimFloat.abs permil)
  then (permil, Some i)
  else stored.

Definition update_max (md : max_drift) (k : dir_key) (permil : float)
    (i : nat) : max_drift :=
  match k with
  | DirX => {| max_X := bump (max_X md) permil i; max_Y := max_Y md |}
  | DirY => {| max_X := max_X md; max_Y := bump (max_Y md) permil i |}
  | DirUnknown => md
  end.

(** Lines 200-207: the entry reported for one direction. *)
Record max_info : Type := {
  value_permil : float;
  abs_value_permil : float;
  info_story : string;
  info_load_case : string;
  is_ok : bool;
  info_limit_permil : float
}.

(** Line 224: ["满足规范要求"] is [MeetsCode], ["存在超限"] is [ExceedsLimit]. *)
Inductive overall : Type := MeetsCode | ExceedsLimit.

(** What the function returns: the "no data" dictionary of lines 122-128, or
    the full dictionary of lines 211-224. *)
Inductive drift_result : Type :=
| NoData (limit_permil : float)
| Summary (records : list drift_record) (total_records : Z)
          (load_cases : list string) (limit_permil : float)
          (max_drift_X max_drift_Y : option max_info)
          (overall_status : overall).

(** Lines 29-30: [load_cases] defaults to [["RS-X", "RS-Y"]]. *)
Definition requested (load_cases : option (list string)) : list string :=
  match load_cases with
  | Some l => l
  | None => ["RS-X"; "RS-Y"]
  end.

Section Extraction.

(** [DRIFT_LIMIT_PERMIL] of the configuration, and [round(_, 4)], which only
    feeds the printed column ["drift_permil"]. *)
Variable DRIFT_LIMIT_PERMIL : float.
Variable round4 : float -> float.

(** [list(ret[k]) if ret[k] is not None else []]. *)
Definition column {A : Type} (c : option (list A)) : list A :=
  match c with
  | Some l => l
  | None => []
  end.

(** Indexing a column; [None] is the [IndexError]. *)
Definition at_index {A : Type} (l : list A) (i : nat) : run A :=
  match nth_error l i with
  | Some a => Done a
  | None => Raised IndexError
  end.

(** Lines 137-169: the body of the loop over [range(num_results)]. *)
Definition loop_body (ret : story_drifts_ret) (i : nat)
    (st : list drift_record * max_drift)
  : run (list drift_record * max_drift) :=
  d <- at_index (column (ret_drift ret)) i ;;
  let permil := to_permil d in
  raw <- at_index (column (ret_direction ret)) i ;;
  let key := classify_direction raw in
  s <- at_index (column (ret_story ret)) i ;;
  c <- at_index (column (ret_case ret)) i ;;
  tp <- at_index (column (ret_steptype ret)) i ;;
  no <- at_index (column (ret_stepnum ret)) i ;;
  lb <- at_index (column (ret_label ret)) i ;;
  vx <- at_index (column (ret_x ret)) i ;;
  vy <- at_index (column (ret_y ret)) i ;;
  vz <- at_index (column (ret_z ret)) i ;;
  let rec :=
    {| story := s; load_case := c; direction := key;
       drift_permil := round4 permil; drift_rad := d;
       step_type := tp; step_num := no; label := lb;
       x := vx; y := vy; z := vz |} in
  Done ((fst st ++ [rec])%list, update_max (snd st) key permil i).

(** [for i in range(...)], from index [i], [count] iterations. *)
Fixpoint loop (ret : story_drifts_ret) (i count : nat)
    (st : list drift_record * max_drift)
  : run (list drift_record * max_drift) :=
  match count with
  | O => Done st
  | S count' =>
      st' <- loop_body ret i st ;;
      loop ret (S i) count' st'
  end.

(** Lines 183-207, for one [axis]. *)
Definition axis_summary (records : list drift_record)
    (stored : float * option nat) : run (option max_info) :=
  match snd stored with
  | None => Done None
  | Some idx =>
      let val := fst stored in
      if PrimFloat.eqb (PrimFloat.abs val) 0%float then Done None
      else
        let abs_val := PrimFloat.abs val in
        info <- at_index records idx ;;
        Done (Some {| value_permil := val;
                      abs_value_permil := abs_val;
                      info_story := story info;
                      info_load_case := load_case info;
                      is_ok := PrimFloat.leb abs_val DRIFT_LIMIT_PERMIL;
                      info_limit_permil := DRIFT_LIMIT_PERMIL |})
  end.

(** Lines 220-223: [all(info["is_ok"] for info in ... if info is not None)]. *)
Definition all_ok (entries : list (option max_info)) : bool :=
  forallb (fun e => match e with
                    | Some info => is_ok info
                    | None => true
                    end) entries.

(** Lines 103-229: from the returned tuple to the result dictionary. *)
Definition tabulate (ret : story_drifts_ret) (load_cases : list string)
  : run drift_result :=
  let num_results := ret_num_results ret in
  if Z.eqb num_results 0 then Done (NoData DRIFT_LIMIT_PERMIL)
  else
    st <- loop ret 0 (Z.to_nat num_results) ([], max_drift_init) ;;
    let records := fst st in
    ex <- axis_summary records (max_X (snd st)) ;;
    ey <- axis_summary records (max_Y (snd st)) ;;
    Done (Summary records num_results load_cases DRIFT_LIMIT_PERMIL ex ey
            (if all_ok [ex; ey] then MeetsCode else ExceedsLimit)).

(** Lines 46-48: one [check_ret] per requested case. *)
Fixpoint select_cases (system_loaded : bool) (m : sap_model)
    (load_cases : list string) : run unit :=
  match load_cases with
  | [] => Done tt
  | case :: rest =>
      _ <- checked (check_ret system_loaded (SetCaseSelectedForOutput m case)
                      ("Setup.SetCaseSelectedForOutput(" ++ case ++ ")")
                      [0; 1]%Z) ;;
      select_cases system_loaded m rest
  end.

(** Lines 78-99: the two call shapes of [StoryDrifts]. *)
Definition call_StoryDrifts (m : sap_model) : run story_drifts_ret :=
  let answered (r : option story_drifts_ret) :=
    match r with
    | Some ret => Done ret
    | None => Raised RuntimeError
    end in
  match StoryDrifts_with_item_type m with
  | Answers r => answered r
  | RaisesOther => Raised OtherError
  | RaisesTypeError =>
      match StoryDrifts_plain m with
      | Answers r => answered r
      | _ => Raised RuntimeError
      end
  end.

(** [extract_story_drifts(sap_model, load_cases)]. *)
Definition extract_story_drifts (system_loaded : bool) (m : sap_model)
    (load_cases : option (list string)) : run drift_result :=
  let load_cases := requested load_cases in
  if negb (Results_available m) then Raised RuntimeError
  else
    _ <- checked (check_ret system_loaded
                    (DeselectAllCasesAndCombosForOutput m)
                    "Setup.DeselectAllCasesAndCombosForOutput" [0; 1]%Z) ;;
    _ <- select_cases system_loaded m load_cases ;;
    _ <- match Drift m with
         | Some r => checked (check_ret system_loaded r
                                "Setup.Drift(Relative)" [0; 1]%Z)
         | None => Done tt
         end ;;
    ret <- call_StoryDrifts m ;;
    _ <- checked (check_ret system_loaded (ret_status ret)
                    "Results.StoryDrifts" [0; 1]%Z) ;;
    tabulate ret load_cases.

End Extraction.

End DriftResults.

(** ** Vocabulary for the statements about [extract_story_drifts] *)

Module DriftSpec.
Import DriftResults.

(** [r] is the record the loop builds from row [i] of the returned tuple. *)
Definition row_of (round4 : float -> float) (ret : story_drifts_ret)
    (i : nat) (r : drift_record) : Prop :=
  nth_error (column (ret_drift ret)) i = Some (drift_rad r)
  /\ (exists raw, nth_error (column (ret_direction ret)) i = Some raw
                  /\ direction r = classify_direction raw)
  /\ nth_error (column (ret_story ret)) i = Some (story r)
  /\ nth_error (column (ret_case ret)) i = Some (load_case r)
  /\ drift_permil r = round4 (to_permil (drift_rad r)).

(** A stored maximum [(value, index)] points at a row of its own direction
    and holds that row's per-mille value. *)
Definition tracked (axis : dir_key) (records : list drift_record)
    (stored : float * option nat) : Prop :=
  forall idx, snd stored = Some idx ->
    exists r, nth_error records idx = Some r
              /\ fst stored = to_permil (drift_rad r)
              /\ direction r = axis.

(** What the loop keeps true of [(records, max_drift)] when it is about to
    run iteration [i]. *)
Definition loop_inv (round4 : float -> float) (ret : story_drifts_ret)
    (i : nat) (st : list drift_record * max_drift) : Prop :=
  List.length (fst st) = i
  /\ (forall j r, nth_error (fst st) j = Some r -> row_of round4 ret j r)
  /\ tracked DirX (fst st) (max_X (snd st))
  /\ tracked DirY (fst st) (max_Y (snd st)).

(** Every column of the returned tuple has [num_results] entries. *)
Definition well_formed (ret : story_drifts_ret) : Prop :=
  let n := Z.to_nat (ret_num_results ret) in
  List.length (column (ret_story ret)) = n
  /\ List.length (column (ret_case ret)) = n
  /\ List.length (column (ret_steptype ret)) = n
  /\ List.length (column (ret_stepnum ret)) = n
  /\ List.length (column (ret_direction ret)) = n
  /\ List.length (column (ret_drift ret)) = n
  /\ List.length (column (ret_label ret)) = n
  /\ List.length (column (ret_x ret)) = n
  /\ List.length (column (ret_y ret)) = n
  /\ List.length (column (ret_z ret)) = n.

(** Two returned tuples with the same direction column that differ at most
    in rows whose direction token is neither X nor Y: on every X or Y row
    they report the same drift, story and load case. *)
Definition same_up_to_unknown_rows (ret1 ret2 : story_drifts_ret) : Prop :=
  ret_num_results ret1 = ret_num_results ret2
  /\ column (ret_direction ret1) = column (ret_direction ret2)
  /\ forall i raw,
       nth_error (column (ret_direction ret1)) i = Some raw ->
       classify_direction raw <> DirUnknown ->
       nth_error (column (ret_drift ret1)) i
       = nth_error (column (ret_drift ret2)) i
       /\ nth_error (column (ret_story ret1)) i
          = nth_error (column (ret_story ret2)) i
       /\ nth_error (column (ret_case ret1)) i
          = nth_error (column (ret_case ret2)) i.

(** No row classified X or Y carries a non-zero drift: its value is one of
    the two floating-point zeros. *)
Definition no_nonzero_XY_row (ret : story_drifts_ret) : Prop :=
  forall i raw d,
    nth_error (column (ret_direction ret)) i = Some raw ->
    classify_direction raw <> DirUnknown ->
    nth_error (column (ret_drift ret)) i = Some d ->
    d = 0%float \/ d = (-0)%float.


(** The same with two rows. *)
Definition two_row_ret (d0 : float) (dir0 : string) (d1 : float)
    (dir1 : string) : story_drifts_ret :=
  {| ret_status := Helpers.PInt 0;
     ret_num_results := 2;
     ret_story := Some ["Story1"%string; "Story2"%string];
     ret_case := Some ["RS-X"%string; "RS-X"%string];
     ret_steptype := Some ["Max"%string; "Max"%string];
     ret_stepnum := Some [0%float; 0%float];
     ret_direction := Some [dir0; dir1];
     ret_drift := Some [d0; d1];
     ret_label := Some ["1"%string; "2"%string];
     ret_x := Some [0%float; 0%float];
     ret_y := Some [0%float; 0%float];
     ret_z := Some [3%float; 6%float] |}.

Definition model_answering (ret : story_drifts_ret) : sap_model :=
  {| Results_available := true;
     DeselectAllCasesAndCombosForOutput := Helpers.PInt 0;
     SetCaseSelectedForOutput := fun _ => Helpers.PInt 0;
     Drift := Some (Helpers.PInt 0);
     StoryDrifts_with_item_type := Answers (Some ret);
     StoryDrifts_plain := RaisesTypeError |}.

End DriftSpec.

(** ** config/: the parameters the geometry generators read *)

Module Config.

Record config : Type := {
  NUM_GRID_LINES_X : nat;
  NUM_GRID_LINES_Y : nat;
  SPACING_X : R;
  SPACING_Y : R;
  NUM_STORIES : nat;
  TYPICAL_STORY_HEIGHT : R;
  WALL_SECTION_NAME : string;
  COUPLING_BEAM_SECTION_NAME : string;
  FRAME_COLUMN_SECTION_NAME : string;
  FRAME_BEAM_SECTION_NAME : string;
  SECONDARY_BEAM_SECTION_NAME : string;
  ENABLE_FRAME_COLUMNS : bool;
  ENABLE_FRAME_BEAMS : bool;
  COLUMN_GRID_PATTERN : string;
  BEAM_LAYOUT : list (string * bool);
  MAIN_BEAM_DIRECTION : string;
  SECONDARY_BEAM_SPACING : R;
  SECONDARY_BEAM_DIRECTION : string
}.

(** [d.get(key, False)] on a dictionary of flags. *)
Fixpoint dict_get (d : list (string * bool)) (key : string) : bool :=
  match d with
  | [] => false
  | (k, v) :: rest => if String.eqb k key then v else dict_get rest key
  end.

(** The values of config/config_frame.py. *)
Definition config_frame : config :=
  {| NUM_GRID_LINES_X := 5;
     NUM_GRID_LINES_Y := 3;
     SPACING_X := 6.0;
     SPACING_Y := 6.0;
     NUM_STORIES := 10;
     TYPICAL_STORY_HEIGHT := 3.0;
     WALL_SECTION_NAME := "";
     COUPLING_BEAM_SECTION_NAME := "";
     FRAME_COLUMN_SECTION_NAME := "COL600X600";
     FRAME_BEAM_SECTION_NAME := "BEAM250X600";
     SECONDARY_BEAM_SECTION_NAME := "BEAM250X400";
     ENABLE_FRAME_COLUMNS := true;
     ENABLE_FRAME_BEAMS := true;
     COLUMN_GRID_PATTERN := "ALL_INTERSECTIONS";
     BEAM_LAYOUT := [ ("MAIN_BEAMS_X"%string, true);
                      ("MAIN_BEAMS_Y"%string, true);
                      ("SECONDARY_BEAMS"%string, true);
                      ("EDGE_BEAMS"%string, true) ];
     MAIN_BEAM_DIRECTION := "BOTH";
     SECONDARY_BEAM_SPACING := 3.0;
     SECONDARY_BEAM_DIRECTION := "Y" |}.

End Config.

(** ** geometry/common.py *)

Module GeometryCommon.
Import Config Py.
Local Open Scope R_scope.

(** [StructuralElementPlan]. *)
Record StructuralElementPlan : Type := {
  x_coords : list R;
  y_coords : list R;
  section_name : string;
  base_name_template : string;
  is_coupling_beam : bool;
  element_type_prefix : string
}.

(** [generate_grid_coordinates()]:
    [[i * SPACING_X for i in range(NUM_GRID_LINES_X)]], and the same in Y. *)
Definition generate_grid_coordinates (cfg : config) : list R * list R :=
  (map (fun i => INR i * SPACING_X cfg) (seq 0 (NUM_GRID_LINES_X cfg)),
   map (fun i => INR i * SPACING_Y cfg) (seq 0 (NUM_GRID_LINES_Y cfg))).

(** [l[i]]; every index the generators use is inside the list. *)
Definition item (l : list R) (i : nat) : R := nth i l 0.

End GeometryCommon.

(** ** geometry/shear_wall_geometry.py *)

Module ShearWallGeometry.
Import Config Py GeometryCommon.
Local Open Scope R_scope.
Local Open Scope string_scope.

(** Line 37: [seg_f = 1 / 3.0]. *)
Definition seg_f : R := 1 / 3.0.

(** Lines 42-61: the three elements of the bay between X grid lines [ix] and
    [ix + 1] on the Y grid line [iy]. *)
Definition horizontal_bay (cfg : config) (grid_x : list R) (iy : nat)
    (y_c : R) (ix : nat) : list StructuralElementPlan :=
  let xs := item grid_x ix in
  let xe := item grid_x (ix + 1) in
  let sx := SPACING_X cfg in
  let tag := "_X" ++ str_nat ix ++ "_Y" ++ str_nat iy in
  [ {| x_coords := [xs; xs + sx * seg_f; xs + sx * seg_f; xs];
       y_coords := [y_c; y_c; y_c; y_c];
       section_name := WALL_SECTION_NAME cfg;
       base_name_template := "HWL" ++ tag;
       is_coupling_beam := false;
       element_type_prefix := "P" |};
    {| x_coords := [xs + sx * seg_f; xs + sx * 2 * seg_f;
                    xs + sx * 2 * seg_f; xs + sx * seg_f];
       y_coords := [y_c; y_c; y_c; y_c];
       section_name := COUPLING_BEAM_SECTION_NAME cfg;
       base_name_template := "HCB" ++ tag;
       is_coupling_beam := true;
       element_type_prefix := "S" |};
    {| x_coords := [xs + sx * 2 * seg_f; xe; xe; xs + sx * 2 * seg_f];
       y_coords := [y_c; y_c; y_c; y_c];
       section_name := WALL_SECTION_NAME cfg;
       base_name_template := "HWR" ++ tag;
       is_coupling_beam := false;
       element_type_prefix := "P" |} ].

(** Lines 66-85: the three elements of the bay between Y grid lines [iy] and
    [iy + 1] on the X grid line [ix]. *)
Definition vertical_bay (cfg : config) (grid_y : list R) (ix : nat)
    (x_c : R) (iy : nat) : list StructuralElementPlan :=
  let ys := item grid_y iy in
  let ye := item grid_y (iy + 1) in
  let sy := SPACING_Y cfg in
  let tag := "_X" ++ str_nat ix ++ "_Y" ++ str_nat iy in
  [ {| x_coords := [x_c; x_c; x_c; x_c];
       y_coords := [ys; ys + sy * seg_f; ys + sy * seg_f; ys];
       section_name := WALL_SECTION_NAME cfg;
       base_name_template := "VWB" ++ tag;
       is_coupling_beam := false;
       element_type_prefix := "P" |};
    {| x_coords := [x_c; x_c; x_c; x_c];
       y_coords := [ys + sy * seg_f; ys + sy * 2 * seg_f;
                    ys + sy * 2 * seg_f; ys + sy * seg_f];
       section_name := COUPLING_BEAM_SECTION_NAME cfg;
       base_name_template := "VCB" ++ tag;
       is_coupling_beam := true;
       element_type_prefix := "S" |};
    {| x_coords := [x_c; x_c; x_c; x_c];
       y_coords := [ys + sy * 2 * seg_f; ye; ye; ys + sy * 2 * seg_f];
       section_name := WALL_SECTION_NAME cfg;
       base_name_template := "VWT" ++ tag;
       is_coupling_beam := false;
       element_type_prefix := "P" |} ].

(** [generate_shear_wall_planar_layout()]: the two nested loops, lines 40-61
    and 64-85, appending to [elements] in this order. *)
Definition generate_shear_wall_planar_layout (cfg : config)
  : list StructuralElementPlan :=
  let '(grid_x, grid_y) := generate_grid_coordinates cfg in
  (flat_map (fun '(iy, y_c) =>
              flat_map (horizontal_bay cfg grid_x iy y_c)
                       (seq 0 (NUM_GRID_LINES_X cfg - 1)))
           (enumerate grid_y)
   ++
   flat_map (fun '(ix, x_c) =>
              flat_map (vertical_bay cfg grid_y ix x_c)
                       (seq 0 (NUM_GRID_LINES_Y cfg - 1)))
           (enumerate grid_x))%list.

End ShearWallGeometry.

(** ** geometry/mesh_utils.py *)

Module MeshUtils.
Import Py.
Local Open Scope R_scope.

(** One mesh element: [(mesh_x, mesh_y, mesh_z)]. *)
Definition mesh_element : Type := (list R * list R * list R)%type.

(** Lines 41-50: the element of column [i] and row [j] of an X-direction
    member. *)
Definition x_element (x_min y_coord z_min dx dz : R) (i j : nat)
  : mesh_element :=
  let x0 := x_min + INR i * dx in
  let x1 := x_min + INR (i + 1) * dx in
  let z0 := z_min + INR j * dz in
  let z1 := z_min + INR (j + 1) * dz in
  ([x0; x1; x1; x0], [y_coord; y_coord; y_coord; y_coord], [z0; z0; z1; z1]).

(** Lines 61-70: the same for a Y-direction member. *)
Definition y_element (x_coord y_min z_min dy dz : R) (i j : nat)
  : mesh_element :=
  let y0 := y_min + INR i * dy in
  let y1 := y_min + INR (i + 1) * dy in
  let z0 := z_min + INR j * dz in
  let z1 := z_min + INR (j + 1) * dz in
  ([x_coord; x_coord; x_coord; x_coord], [y0; y1; y1; y0], [z0; z0; z1; z1]).

(** [for i in range(mesh_h): for j in range(mesh_v): ...append(cell i j)]. *)
Definition grid_loop {A : Type} (mesh_h mesh_v : nat) (cell : nat -> nat -> A)
  : list A :=
  flat_map (fun i => map (cell i) (seq 0 mesh_v)) (seq 0 mesh_h).

(** [create_mesh_grid(x_min, x_max, y_min, y_max, z_min, z_max, mesh_h,
    mesh_v, orientation)]; dividing by a zero count raises. *)
Definition create_mesh_grid (x_min x_max y_min y_max z_min z_max : R)
    (mesh_h mesh_v : nat) (orientation : string)
  : run (list mesh_element) :=
  if String.eqb orientation "X" then
    let width := x_max - x_min in
    let height := z_max - z_min in
    if Nat.eqb mesh_h 0 then Raised ZeroDivisionError
    else
      let dx := width / INR mesh_h in
      if Nat.eqb mesh_v 0 then Raised ZeroDivisionError
      else
        let dz := height / INR mesh_v in
        let y_coord := y_min in
        Done (grid_loop mesh_h mesh_v (x_element x_min y_coord z_min dx dz))
  else
    let width := y_max - y_min in
    let height := z_max - z_min in
    if Nat.eqb mesh_h 0 then Raised ZeroDivisionError
    else
      let dy := width / INR mesh_h in
      if Nat.eqb mesh_v 0 then Raised ZeroDivisionError
      else
        let dz := height / INR mesh_v in
        let x_coord := x_min in
        Done (grid_loop mesh_h mesh_v (y_element x_coord y_min z_min dy dz)).

(** Lines 100-109: one slab element. *)
Definition slab_element (x_min y_min z_coord dx dy : R) (i j : nat)
  : mesh_element :=
  let x0 := x_min + INR i * dx in
  let x1 := x_min + INR (i + 1) * dx in
  let y0 := y_min + INR j * dy in
  let y1 := y_min + INR (j + 1) * dy in
  ([x0; x1; x1; x0], [y0; y0; y1; y1],
   [z_coord; z_coord; z_coord; z_coord]).

(** [create_slab_mesh_grid(x_min, x_max, y_min, y_max, z_coord, mesh_x,
    mesh_y)]. *)
Definition create_slab_mesh_grid (x_min x_max y_min y_max z_coord : R)
    (mesh_x mesh_y : nat) : run (list mesh_element) :=
  let width_x := x_max - x_min in
  let width_y := y_max - y_min in
  if Nat.eqb mesh_x 0 then Raised ZeroDivisionError
  else
    let dx := width_x / INR mesh_x in
    if Nat.eqb mesh_y 0 then Raised ZeroDivisionError
    else
      let dy := width_y / INR mesh_y in
      Done (grid_loop mesh_x mesh_y (slab_element x_min y_min z_coord dx dy)).

End MeshUtils.

(** ** Vocabulary for the statements about the geometry *)

Module GeometrySpec.
Import MeshUtils.
Local Open Scope R_scope.

(** The least and the greatest of a list of coordinates. *)
Definition least (l : list R) : R :=
  match l with
  | [] => 0
  | a :: rest => fold_left Rmin rest a
  end.

Definition greatest (l : list R) : R :=
  match l with
  | [] => 0
  | a :: rest => fold_left Rmax rest a
  end.

(** The extent [(min, max)] of a list of coordinates. *)
Definition extent (l : list R) : R * R := (least l, greatest l).



(** The [i]-th cut of [[lo, lo + n * d]] into steps of [d]. *)
Definition cut (lo d : R) (i : nat) : R := lo + INR i * d.






End GeometrySpec.

(** ** geometry/frame_geometry.py *)

(** Each loop is embedded as the list of calls it makes, in the order it
    makes them; an item of the list is [Raised e] where computing the call
    raises, so that an exception keeps its place between the calls.
    [execute] carries such a list out against the application. *)

Module FrameGeometry.
Import Config Helpers Py GeometryCommon.
Local Open Scope R_scope.
Local Open Scope string_scope.

(** The arguments of one [FrameObj.AddByCoord] call ([csys] is always
    ["Global"]). *)
Record frame_request : Type := {
  fx1 : R; fy1 : R; fz1 : R;
  fx2 : R; fy2 : R; fz2 : R;
  prop_name : string;
  user_name : string
}.

(** The external application: the tuple [AddByCoord] returns. *)
Definition frame_api : Type := frame_request -> list pyval.

(** [add_frame_by_coord_custom], utils/helpers.py lines 146-190:
    [System.String("")] needs [System]; the status is [ret_tuple[0]]; the
    name is [ret_tuple[1]] when that is a non-blank string (the by-reference
    name stays empty), else the requested name. *)
Definition add_frame_by_coord_custom (system_loaded : bool) (api : frame_api)
    (req : frame_request) : run (pyval * string) :=
  if negb system_loaded then Raised AttributeError else
  match api req with
  | [] => Raised IndexError
  | api_status :: rest =>
      let name_from_tuple :=
        match rest with
        | PStr s :: _ =>
            match strip s with
            | EmptyString => None
            | _ => Some s
            end
        | _ => None
        end in
      Done (api_status,
            match name_from_tuple with
            | Some n => n
            | None => user_name req
            end)
  end.

(** One call followed by its [check_ret], as in lines 92-98: the created
    object is added to the model, its name is returned. *)
Definition create_frame (system_loaded : bool) (api : frame_api)
    (req : frame_request) (model : list frame_request)
  : run (string * list frame_request) :=
  r <- add_frame_by_coord_custom system_loaded api req ;;
  _ <- checked (check_ret system_loaded (fst r)
                  ("AddFrameByCoord(" ++ user_name req ++ ")")
                  default_ok_codes) ;;
  Done (snd r, (model ++ [req])%list).

(** A loop's work in order: each item is a call to make, or an exception
    raised while computing it. *)
Fixpoint execute (system_loaded : bool) (api : frame_api)
    (items : list (run frame_request)) (model : list frame_request)
  : run (list string * list frame_request) :=
  match items with
  | [] => Done ([], model)
  | Done req :: rest =>
      r <- create_frame system_loaded api req model ;;
      r' <- execute system_loaded api rest (snd r) ;;
      Done (fst r :: fst r', snd r')
  | Raised e :: _ => Raised e
  | Exited :: _ => Exited
  end.

(** [story_heights.get(story_num, TYPICAL_STORY_HEIGHT)]. *)
Definition story_height (cfg : config) (story_heights : nat -> option R)
    (story_num : nat) : R :=
  match story_heights story_num with
  | Some h => h
  | None => TYPICAL_STORY_HEIGHT cfg
  end.

(** [for story_num in range(...)] with the running elevation [cum_z]:
    [per_story story_num z_bottom z_top] is the work of one story. *)
Fixpoint stories {A : Type} (cfg : config) (story_heights : nat -> option R)
    (per_story : nat -> R -> R -> A) (story_num count : nat) (cum_z : R)
  : list A :=
  match count with
  | O => []
  | S count' =>
      let z_top := cum_z + story_height cfg story_heights story_num in
      per_story story_num cum_z z_top
      :: stories cfg story_heights per_story (S story_num) count' z_top
  end.

(** Indexing that raises. *)
Definition at_grid (l : list R) (i : nat) : run R :=
  match nth_error l i with
  | Some v => Done v
  | None => Raised IndexError
  end.

(** Lines 48-72: the column positions [(i, j, x, y)]. *)
Definition all_intersections (grid_x grid_y : list R)
  : list (nat * nat * R * R) :=
  flat_map (fun '(i, x) => map (fun '(j, y) => (i, j, x, y)) (enumerate grid_y))
           (enumerate grid_x).

Definition on_perimeter (grid_x grid_y : list R) (p : nat * nat * R * R)
  : bool :=
  let '(i, j, _, _) := p in
  Nat.eqb i 0 || Nat.eqb i (List.length grid_x - 1)
  || Nat.eqb j 0 || Nat.eqb j (List.length grid_y - 1).

Definition corner (grid_x grid_y : list R) (ij : nat * nat)
  : run (nat * nat * R * R) :=
  x <- at_grid grid_x (fst ij) ;;
  y <- at_grid grid_y (snd ij) ;;
  Done (fst ij, snd ij, x, y).

Fixpoint corners (grid_x grid_y : list R) (l : list (nat * nat))
  : run (list (nat * nat * R * R)) :=
  match l with
  | [] => Done []
  | ij :: rest =>
      p <- corner grid_x grid_y ij ;;
      ps <- corners grid_x grid_y rest ;;
      Done (p :: ps)
  end.

Definition column_positions (cfg : config) (grid_x grid_y : list R)
  : run (list (nat * nat * R * R)) :=
  if String.eqb (COLUMN_GRID_PATTERN cfg) "ALL_INTERSECTIONS" then
    Done (all_intersections grid_x grid_y)
  else if String.eqb (COLUMN_GRID_PATTERN cfg) "PERIMETER_ONLY" then
    Done (filter (on_perimeter grid_x grid_y)
                 (all_intersections grid_x grid_y))
  else if String.eqb (COLUMN_GRID_PATTERN cfg) "CORNER_ONLY" then
    corners grid_x grid_y
      [ (0, 0); (0, List.length grid_y - 1); (List.length grid_x - 1, 0);
        (List.length grid_x - 1, List.length grid_y - 1) ]%nat
  else Done (all_intersections grid_x grid_y).

(** Lines 87-95: the columns of one story. *)
Definition story_columns (cfg : config)
    (positions : list (nat * nat * R * R)) (story_num : nat)
    (z_bottom z_top : R) : list frame_request :=
  map (fun '(i, j, x, y) =>
         {| fx1 := x; fy1 := y; fz1 := z_bottom;
            fx2 := x; fy2 := y; fz2 := z_top;
            prop_name := FRAME_COLUMN_SECTION_NAME cfg;
            user_name := "COL_X" ++ str_nat i ++ "_Y" ++ str_nat j
                         ++ "_S" ++ str_nat story_num |})
      positions.

(** The columns asked for, story by story (stories 1 to [NUM_STORIES]). *)
Definition column_requests (cfg : config) (story_heights : nat -> option R)
  : run (list (list frame_request)) :=
  let '(grid_x, grid_y) := generate_grid_coordinates cfg in
  positions <- column_positions cfg grid_x grid_y ;;
  Done (stories cfg story_heights (story_columns cfg positions)
          1 (NUM_STORIES cfg) 0.0).

(** [create_frame_columns(sap_model, story_heights)]. *)
Definition create_frame_columns (cfg : config) (system_loaded : bool)
    (api : frame_api) (story_heights : nat -> option R)
    (model : list frame_request)
  : run (list string * list frame_request) :=
  if negb (ENABLE_FRAME_COLUMNS cfg) then Done ([], model)
  else
    per_story <- column_requests cfg story_heights ;;
    execute system_loaded api (map Done (List.concat per_story)) model.

(** Lines 141-154: the X-direction main beams of one story. *)
Definition main_beams_x (cfg : config) (grid_x grid_y : list R)
    (z_level : R) (story_num : nat) : list frame_request :=
  if dict_get (BEAM_LAYOUT cfg) "MAIN_BEAMS_X"
     && existsb (String.eqb (MAIN_BEAM_DIRECTION cfg)) ["X_ONLY"; "BOTH"]
  then
    flat_map (fun '(j, y) =>
      map (fun i =>
             {| fx1 := item grid_x i; fy1 := y; fz1 := z_level;
                fx2 := item grid_x (i + 1); fy2 := y; fz2 := z_level;
                prop_name := FRAME_BEAM_SECTION_NAME cfg;
                user_name := "BEAM_X" ++ str_nat i ++ "_" ++ str_nat (i + 1)
                             ++ "_Y" ++ str_nat j
                             ++ "_S" ++ str_nat story_num |})
          (seq 0 (NUM_GRID_LINES_X cfg - 1)))
      (enumerate grid_y)
  else [].

(** Lines 157-170: the Y-direction main beams of one story. *)
Definition main_beams_y (cfg : config) (grid_x grid_y : list R)
    (z_level : R) (story_num : nat) : list frame_request :=
  if dict_get (BEAM_LAYOUT cfg) "MAIN_BEAMS_Y"
     && existsb (String.eqb (MAIN_BEAM_DIRECTION cfg)) ["Y_ONLY"; "BOTH"]
  then
    flat_map (fun '(i, x) =>
      map (fun j =>
             {| fx1 := x; fy1 := item grid_y j; fz1 := z_level;
                fx2 := x; fy2 := item grid_y (j + 1); fz2 := z_level;
                prop_name := FRAME_BEAM_SECTION_NAME cfg;
                user_name := "BEAM_X" ++ str_nat i
                             ++ "_Y" ++ str_nat j ++ "_" ++ str_nat (j + 1)
                             ++ "_S" ++ str_nat story_num |})
          (seq 0 (NUM_GRID_LINES_Y cfg - 1)))
      (enumerate grid_x)
  else [].

(** [int(x)] on a float: truncation towards zero. *)
Definition py_int (v : R) : Z :=
  if Rle_dec 0 v then Int_part v else (- Int_part (- v))%Z.

(** Line 213: [num_secondary = max(1, int(span_length /
    SECONDARY_BEAM_SPACING))]. *)
Definition num_secondary (cfg : config) (span_length : R) : Z :=
  Z.max 1 (py_int (span_length / SECONDARY_BEAM_SPACING cfg)).

(** The name of line 219 (and 238). *)
Definition sec_beam_name (i j k story_num : nat) : string :=
  "SEC_BEAM_X" ++ str_nat i ++ "_" ++ str_nat (i + 1)
  ++ "_Y" ++ str_nat j ++ "_" ++ str_nat (j + 1)
  ++ "_K" ++ str_nat k ++ "_S" ++ str_nat story_num.

(** Lines 206-246: the secondary beams of the bay [(i, j)]. *)
Definition bay_secondary_beams (cfg : config) (x1 x2 y1 y2 z_level : R)
    (i j story_num : nat) : list (run frame_request) :=
  if String.eqb (SECONDARY_BEAM_DIRECTION cfg) "Y" then
    let span_length := x2 - x1 in
    if Req_dec_T (SECONDARY_BEAM_SPACING cfg) 0
    then [Raised ZeroDivisionError]
    else
      let n := num_secondary cfg span_length in
      if Z.ltb 1 n then
        let dy := span_length / IZR n in
        map (fun k =>
               let x_sec := x1 + INR k * dy in
               Done {| fx1 := x_sec; fy1 := y1; fz1 := z_level;
                       fx2 := x_sec; fy2 := y2; fz2 := z_level;
                       prop_name := SECONDARY_BEAM_SECTION_NAME cfg;
                       user_name := sec_beam_name i j k story_num |})
            (seq 1 (Z.to_nat n - 1))
      else []
  else if String.eqb (SECONDARY_BEAM_DIRECTION cfg) "X" then
    let span_length := y2 - y1 in
    if Req_dec_T (SECONDARY_BEAM_SPACING cfg) 0
    then [Raised ZeroDivisionError]
    else
      let n := num_secondary cfg span_length in
      if Z.ltb 1 n then
        let dx := span_length / IZR n in
        map (fun k =>
               let y_sec := y1 + INR k * dx in
               Done {| fx1 := x1; fy1 := y_sec; fz1 := z_level;
                       fx2 := x2; fy2 := y_sec; fz2 := z_level;
                       prop_name := SECONDARY_BEAM_SECTION_NAME cfg;
                       user_name := sec_beam_name i j k story_num |})
            (seq 1 (Z.to_nat n - 1))
      else []
  else [].

(** [_create_secondary_beams(frame_obj, grid_x, grid_y, z_level,
    story_num)]: the two loops over the bays. *)
Definition secondary_beams (cfg : config) (grid_x grid_y : list R)
    (z_level : R) (story_num : nat) : list (run frame_request) :=
  flat_map (fun i =>
    flat_map (fun j =>
      bay_secondary_beams cfg (item grid_x i) (item grid_x (i + 1))
        (item grid_y j) (item grid_y (j + 1)) z_level i j story_num)
      (seq 0 (NUM_GRID_LINES_Y cfg - 1)))
    (seq 0 (NUM_GRID_LINES_X cfg - 1)).

(** Lines 140-170: the main beams of one story, X direction first. *)
Definition main_beams (cfg : config) (grid_x grid_y : list R)
    (z_level : R) (story_num : nat) : list frame_request :=
  (main_beams_x cfg grid_x grid_y z_level story_num
   ++ main_beams_y cfg grid_x grid_y z_level story_num)%list.

(** Lines 132-178: the beams of one story, main beams first. *)
Definition story_beams (cfg : config) (grid_x grid_y : list R)
    (story_num : nat) (z_level : R) : list (run frame_request) :=
  (map Done (main_beams cfg grid_x grid_y z_level story_num)
   ++ (if dict_get (BEAM_LAYOUT cfg) "SECONDARY_BEAMS"
       then secondary_beams cfg grid_x grid_y z_level story_num
       else []))%list.

(** The beams asked for, story by story; they sit at the top of the story. *)
Definition beam_requests (cfg : config) (story_heights : nat -> option R)
  : list (list (run frame_request)) :=
  let '(grid_x, grid_y) := generate_grid_coordinates cfg in
  stories cfg story_heights
    (fun story_num _ z_top => story_beams cfg grid_x grid_y story_num z_top)
    1 (NUM_STORIES cfg) 0.0.

(** [create_frame_beams(sap_model, story_heights)]. *)
Definition create_frame_beams (cfg : config) (system_loaded : bool)
    (api : frame_api) (story_heights : nat -> option R)
    (model : list frame_request)
  : run (list string * list frame_request) :=
  if negb (ENABLE_FRAME_BEAMS cfg) then Done ([], model)
  else
    execute system_loaded api (List.concat (beam_requests cfg story_heights))
      model.

(** The application accepts every frame: [AddByCoord] returns status 0. *)
Definition api_accepts (api : frame_api) : Prop :=
  forall req, exists rest, api req = PInt 0 :: rest.

(** Every item of a loop's work is a call to make: nothing raises. *)
Definition all_calls (items : list (run frame_request)) : Prop :=
  Forall (fun it => exists req, it = Done req) items.

(** An application that accepts every frame and returns no name of its
    own. *)
Definition accepting_api : frame_api := fun _ => [PInt 0; PStr ""].

End FrameGeometry.

(** ** Vocabulary for the statements about object names *)

Module NameSpec.
Import Py.

(** An ASCII lower-case letter. *)
Definition is_lower (c : ascii) : bool :=
  let n := nat_of_ascii c in
  Nat.leb 97 n && Nat.leb n 122.

(** No character of [s] is a lower-case letter. *)
Fixpoint no_lower (s : string) : bool :=
  match s with
  | EmptyString => true
  | String c rest => negb (is_lower c) && no_lower rest
  end.

(** The second character of [kw] is a lower-case letter. *)
Definition second_is_lower (kw : string) : bool :=
  match kw with
  | String _ (String c _) => is_lower c
  | _ => false
  end.

End NameSpec.

(** ** results/drift_results.py: the compatibility wrapper *)

Module DriftCompat.
Import Helpers DriftResults.

(** The text under ["error"]: the "no drift data" message of line 127, or
    [str(e)] of a caught exception. *)
Inductive error_text : Type :=
| NoDriftData
| ExceptionText (e : exception).

(** Lines 260-265: one entry of ["max_drifts"]. *)
Record legacy_max : Type := {
  legacy_max_drift : float;
  legacy_story : string;
  legacy_load_case : string;
  legacy_raw_drift : float
}.

(** The two dictionaries the wrapper returns: [{"error": ...}], or the one
    of lines 269-289. *)
Inductive improved_result : Type :=
| ErrorOnly (text : error_text)
| Compatible (total_records : Z) (all_drifts : list drift_record)
             (max_drifts_X max_drifts_Y : option legacy_max)
             (target_cases : option (list string)).

(** Lines 259-267 for one direction. *)
Definition legacy_entry (entry : option max_info) : option legacy_max :=
  match entry with
  | Some info =>
      Some {| legacy_max_drift := abs_value_permil info;
              legacy_story := info_story info;
              legacy_load_case := info_load_case info;
              legacy_raw_drift := value_permil info |}
  | None => None
  end.

(** [extract_story_drifts_improved(sap_model, target_load_cases)], lines
    233-294: [except Exception] catches what [extract_story_drifts] raises,
    not the [SystemExit] of [check_ret]. *)
Definition extract_story_drifts_improved (DRIFT_LIMIT_PERMIL : float)
    (round4 : float -> float) (system_loaded : bool) (m : sap_model)
    (target_load_cases : option (list string)) : run improved_result :=
  match extract_story_drifts DRIFT_LIMIT_PERMIL round4 system_loaded m
          target_load_cases with
  | Done (NoData _) => Done (ErrorOnly NoDriftData)
  | Done (Summary records total _ _ ex ey _) =>
      Done (Compatible total records (legacy_entry ex) (legacy_entry ey)
              target_load_cases)
  | Raised e => Done (ErrorOnly (ExceptionText e))
  | Exited => Exited
  end.

End DriftCompat.

(** ** More vocabulary for the statements about the story drifts *)

Module DriftRows.
Import DriftResults.

(** The lengths of the ten columns of a returned tuple. *)
Definition column_lengths (ret : story_drifts_ret) : list nat :=
  [ List.length (column (ret_drift ret));
    List.length (column (ret_direction ret));
    List.length (column (ret_story ret));
    List.length (column (ret_case ret));
    List.length (column (ret_steptype ret));
    List.length (column (ret_stepnum ret));
    List.length (column (ret_label ret));
    List.length (column (ret_x ret));
    List.length (column (ret_y ret));
    List.length (column (ret_z ret)) ].

(** Every column has at least [n] entries. *)
Definition rows_available (ret : story_drifts_ret) (n : nat) : bool :=
  forallb (Nat.leb n) (column_lengths ret).

(** [r] is row [i] of the returned tuple, field by field. *)
Definition copies_row (round4 : float -> float) (ret : story_drifts_ret)
    (i : nat) (r : drift_record) : Prop :=
  nth_error (column (ret_drift ret)) i = Some (drift_rad r)
  /\ drift_permil r = round4 (to_permil (drift_rad r))
  /\ (exists raw, nth_error (column (ret_direction ret)) i = Some raw
                  /\ direction r = classify_direction raw)
  /\ nth_error (column (ret_story ret)) i = Some (story r)
  /\ nth_error (column (ret_case ret)) i = Some (load_case r)
  /\ nth_error (column (ret_steptype ret)) i = Some (step_type r)
  /\ nth_error (column (ret_stepnum ret)) i = Some (step_num r)
  /\ nth_error (column (ret_label ret)) i = Some (label r)
  /\ nth_error (column (ret_x ret)) i = Some (x r)
  /\ nth_error (column (ret_y ret)) i = Some (y r)
  /\ nth_error (column (ret_z ret)) i = Some (z r).

(** No row of direction [axis] has a per-mille drift larger in absolute
    value than [m]. *)
Definition dominates (axis : dir_key) (records : list drift_record)
    (m : float) : Prop :=
  forall r, In r records -> direction r = axis ->
    PrimFloat.ltb (PrimFloat.abs m)
                  (PrimFloat.abs (to_permil (drift_rad r))) = false.

(** What the loop keeps true of a stored maximum: it is a number, it is
    [0.0] as long as no row was stored, and no row of its direction seen so
    far exceeds it in absolute value. *)
Definition max_inv (axis : dir_key) (records : list drift_record)
    (stored : float * option nat) : Prop :=
  PrimFloat.is_nan (fst stored) = false
  /\ (snd stored = None -> fst stored = 0%float)
  /\ dominates axis records (fst stored).

(** What the entry reported for [axis] says about the rows: a reported
    value is a number, not zero, and no row of the direction exceeds it in
    absolute value; no entry means that no row of the direction has a
    drift above zero. *)
Definition reported_max_ok (axis : dir_key) (records : list drift_record)
    (entry : option max_info) : Prop :=
  match entry with
  | Some info =>
      PrimFloat.is_nan (value_permil info) = false
      /\ PrimFloat.ltb 0%float (abs_value_permil info) = true
      /\ dominates axis records (value_permil info)
  | None => dominates axis records 0%float
  end.

(** A returned tuple of two rows, the second of an unknown direction, and
    what [extract_story_drifts] makes of it with [round4] the identity. *)
Definition example_ret : story_drifts_ret :=
  DriftSpec.two_row_ret 0.0012%float "U1" 0.0008%float "RZ".

Definition example_records : list drift_record :=
  [ {| story := "Story1"; load_case := "RS-X"; direction := DirX;
       drift_permil := 1.2%float; drift_rad := 0.0012%float;
       step_type := "Max"; step_num := 0%float; label := "1";
       x := 0%float; y := 0%float; z := 3%float |};
    {| story := "Story2"; load_case := "RS-X"; direction := DirUnknown;
       drift_permil := 0.8%float; drift_rad := 0.0008%float;
       step_type := "Max"; step_num := 0%float; label := "2";
       x := 0%float; y := 0%float; z := 6%float |} ].

Definition example_max_X : option max_info :=
  Some {| value_permil := 1.2%float; abs_value_permil := 1.2%float;
          info_story := "Story1"; info_load_case := "RS-X";
          is_ok := false; info_limit_permil := 1%float |}.

End DriftRows.

(** ** config/: the parameters of the meshes and of the bottom story *)

Module MoreConfig.

Record more_config : Type := {
  BOTTOM_STORY_HEIGHT : R;
  COUPLING_BEAM_HEIGHT : R;
  SLAB_SECTION_NAME : string;
  SHEAR_WALL_MESH_H : nat;
  SHEAR_WALL_MESH_V : nat;
  COUPLING_BEAM_MESH_H : nat;
  COUPLING_BEAM_MESH_V : nat;
  SLAB_MESH_X : nat;
  SLAB_MESH_Y : nat
}.

(** The values of config/config_frame.py. *)
Definition more_config_frame : more_config :=
  {| BOTTOM_STORY_HEIGHT := 3.0;
     COUPLING_BEAM_HEIGHT := 0.0;
     SLAB_SECTION_NAME := "Slab-120";
     SHEAR_WALL_MESH_H := 0;
     SHEAR_WALL_MESH_V := 0;
     COUPLING_BEAM_MESH_H := 0;
     COUPLING_BEAM_MESH_V := 0;
     SLAB_MESH_X := 4;
     SLAB_MESH_Y := 4 |}.

(** The values of config/config_shear_wall.py. *)
Definition more_config_shear_wall : more_config :=
  {| BOTTOM_STORY_HEIGHT := 3.0;
     COUPLING_BEAM_HEIGHT := 0.6;
     SLAB_SECTION_NAME := "Slab-150";
     SHEAR_WALL_MESH_H := 2;
     SHEAR_WALL_MESH_V := 2;
     COUPLING_BEAM_MESH_H := 4;
     COUPLING_BEAM_MESH_V := 4;
     SLAB_MESH_X := 4;
     SLAB_MESH_Y := 4 |}.

End MoreConfig.

(** ** geometry/frame_geometry.py: the assembly and the statistics *)

Module FrameStructure.
Import Config MoreConfig Py GeometryCommon FrameGeometry.
Local Open Scope R_scope.
Local Open Scope string_scope.

(** Lines 321-323: [story_heights[s_num] = TYPICAL_STORY_HEIGHT if s_num > 1
    else BOTTOM_STORY_HEIGHT] for [s_num] in [range(1, NUM_STORIES + 1)]. *)
Definition frame_story_heights (cfg : config) (mc : more_config)
  : nat -> option R :=
  fun s_num =>
    if Nat.leb 1 s_num && Nat.leb s_num (NUM_STORIES cfg)
    then Some (if Nat.ltb 1 s_num then TYPICAL_STORY_HEIGHT cfg
               else BOTTOM_STORY_HEIGHT mc)
    else None.

Local Open Scope Z_scope.

(** The dictionary [get_frame_statistics] returns (Python integers). *)
Record frame_statistics : Type := {
  columns_per_level : Z;
  total_columns : Z;
  beams_per_level : Z;
  total_beams : Z;
  slab_elements : Z;
  total_elements : Z
}.

(** [get_frame_statistics()], lines 390-436; nothing in the [try] block
    raises on integers. *)
Definition get_frame_statistics (cfg : config) (mc : more_config)
  : frame_statistics :=
  let '(grid_x, grid_y) := generate_grid_coordinates cfg in
  let len_x := Z.of_nat (List.length grid_x) in
  let len_y := Z.of_nat (List.length grid_y) in
  let nx := Z.of_nat (NUM_GRID_LINES_X cfg) in
  let ny := Z.of_nat (NUM_GRID_LINES_Y cfg) in
  let stories := Z.of_nat (NUM_STORIES cfg) in
  let columns :=
    if String.eqb (COLUMN_GRID_PATTERN cfg) "ALL_INTERSECTIONS"
    then len_x * len_y
    else if String.eqb (COLUMN_GRID_PATTERN cfg) "PERIMETER_ONLY"
    then 2 * (len_x + len_y - 2)
    else if String.eqb (COLUMN_GRID_PATTERN cfg) "CORNER_ONLY"
    then 4
    else len_x * len_y in
  let beams_x :=
    if existsb (String.eqb (MAIN_BEAM_DIRECTION cfg)) ["X_ONLY"; "BOTH"]
    then (nx - 1) * ny else 0 in
  let beams_y :=
    if existsb (String.eqb (MAIN_BEAM_DIRECTION cfg)) ["Y_ONLY"; "BOTH"]
    then nx * (ny - 1) else 0 in
  let beams := 0 + beams_x + beams_y in
  let slab_panels := (nx - 1) * (ny - 1) * stories in
  let slabs :=
    slab_panels * Z.of_nat (SLAB_MESH_X mc) * Z.of_nat (SLAB_MESH_Y mc) in
  {| columns_per_level := columns;
     total_columns := columns * stories;
     beams_per_level := beams;
     total_beams := beams * stories;
     slab_elements := slabs;
     total_elements := columns * stories + beams * stories + slabs |}.

End FrameStructure.

(** ** Vocabulary for the statements about the stories *)

Module StorySpec.
Import Config MoreConfig Py GeometryCommon FrameGeometry FrameStructure.
Local Open Scope R_scope.

(** The running elevation [cum_z] after [k] more stories, starting from
    [cum_z] below story [story_num]; the heights are added in the order of
    the loop. *)
Fixpoint elevation_from (cfg : config) (story_heights : nat -> option R)
    (cum_z : R) (story_num k : nat) : R :=
  match k with
  | O => cum_z
  | S k' =>
      elevation_from cfg story_heights
        (cum_z + story_height cfg story_heights story_num) (S story_num) k'
  end.

(** The elevation of the top of story [k] ([0.0] for the ground). *)
Definition elevation (cfg : config) (story_heights : nat -> option R)
    (k : nat) : R :=
  elevation_from cfg story_heights 0.0 1 k.


(** The story heights and the columns of config/config_frame.py. *)
Definition example_heights : nat -> option R :=
  frame_story_heights config_frame more_config_frame.


End StorySpec.

(** ** More vocabulary for the statements about object names *)

Module DigitSpec.
Import Py.




End DigitSpec.

(** ** utils/helpers.py: area objects *)

Module AreaObjects.
Import Helpers Py.
Local Open Scope string_scope.

(** The arguments of one [AreaObj.AddByCoord] call ([csys] is always
    ["Global"]). *)
Record area_request : Type := {
  num_points : nat;
  area_x : list R;
  area_y : list R;
  area_z : list R;
  area_prop : string;
  area_user_name : string
}.

(** The area-object interface of the external application, as far as the
    geometry modules talk to it. *)
Record area_api : Type := {
  AddByCoord : area_request -> list pyval;
  SetPier : string -> string -> pyval;
  SetSpandrel : string -> string -> pyval;
  SetDiaphragm : string -> string -> pyval
}.

(** Line 128: [ret_tuple[idx]] when [idx < len(ret_tuple)] and the entry
    is a string that is not blank. *)
Definition name_at (ret_tuple : list pyval) (idx : nat) : option string :=
  match nth_error ret_tuple idx with
  | Some (PStr s) =>
      match strip s with
      | EmptyString => None
      | _ => Some s
      end
  | _ => None
  end.

(** Lines 127-130: the first of the entries 3 and 4 that holds a name. *)
Definition name_from_tuple (ret_tuple : list pyval) : option string :=
  match name_at ret_tuple 3 with
  | Some s => Some s
  | None => name_at ret_tuple 4
  end.

(** [add_area_by_coord_custom], lines 92-143: [System.String("")] needs
    [System]; the status is [ret_tuple[0]]; the by-reference name stays
    empty, so the name is the one found in the tuple, else the requested
    one. *)
Definition add_area_by_coord_custom (system_loaded : bool) (api : area_api)
    (req : area_request) : run (pyval * string) :=
  if negb system_loaded then Raised AttributeError else
  match AddByCoord api req with
  | [] => Raised IndexError
  | api_status :: _ =>
      Done (api_status,
            match name_from_tuple (AddByCoord api req) with
            | Some n => n
            | None => area_user_name req
            end)
  end.

(** What has been done to the model, in order. *)
Inductive area_event : Type :=
| AreaAdded (req : area_request)
| PierSet (name label : string)
| SpandrelSet (name label : string)
| DiaphragmSet (name diaphragm : string).

End AreaObjects.

(** ** geometry/common.py: dimensions, validation and labels *)

Module CommonGeometry.
Import Helpers Py GeometryCommon.
Local Open Scope R_scope.
Local Open Scope string_scope.

(** [min(l)] and [max(l)]; [ValueError] on an empty list (here
    [OtherError]). *)
Definition py_min (l : list R) : run R :=
  match l with
  | [] => Raised OtherError
  | a :: rest => Done (fold_left Rmin rest a)
  end.

Definition py_max (l : list R) : run R :=
  match l with
  | [] => Raised OtherError
  | a :: rest => Done (fold_left Rmax rest a)
  end.

(** [len(set(l))]. *)
Definition distinct_values (l : list R) : nat :=
  List.length (nodup Req_dec_T l).

(** The dictionary of [calculate_element_dimensions] (the text entry
    ['orientation'] is left out). *)
Record dimensions : Type := {
  width_x : R;
  width_y : R;
  x_min : R;
  x_max : R;
  y_min : R;
  y_max : R;
  is_x_direction : bool
}.

(** Lines 77-78: [abs(max(c) - min(c)) if len(set(c)) > 1 else 0]. *)
Definition width (coords : list R) : run R :=
  if Nat.ltb 1 (distinct_values coords) then
    hi <- py_max coords ;;
    lo <- py_min coords ;;
    Done (Rabs (hi - lo))
  else Done 0.

(** [calculate_element_dimensions(x_coords, y_coords)], lines 66-89. *)
Definition calculate_element_dimensions (x_coords y_coords : list R)
  : run dimensions :=
  wx <- width x_coords ;;
  wy <- width y_coords ;;
  xlo <- py_min x_coords ;;
  xhi <- py_max x_coords ;;
  ylo <- py_min y_coords ;;
  yhi <- py_max y_coords ;;
  Done {| width_x := wx; width_y := wy;
          x_min := xlo; x_max := xhi; y_min := ylo; y_max := yhi;
          is_x_direction := if Rlt_dec wy wx then true else false |}.

(** [validate_coordinates(x_coords, y_coords, z_coords)], lines 142-169;
    [float(coord)] does not fail on a float. *)
Definition validate_coordinates (x_coords y_coords z_coords : list R)
  : bool :=
  if negb (Nat.eqb (List.length x_coords) (List.length y_coords)
           && Nat.eqb (List.length y_coords) (List.length z_coords))
  then false
  else if Nat.ltb (List.length x_coords) 3 then false
  else true.

(** The dictionary of [get_story_instance_details]. *)
Record story_instance : Type := {
  xy_coords_planar : list R * list R;
  area_object_name : string;
  instance_section_name : string;
  instance_is_coupling_beam : bool;
  pier_spandrel_definition_name : string
}.

(** [StructuralElementPlan.get_story_instance_details(story_number)],
    lines 35-51. *)
Definition get_story_instance_details (el : StructuralElementPlan)
    (story_number : nat) : story_instance :=
  {| xy_coords_planar := (x_coords el, y_coords el);
     area_object_name :=
       base_name_template el ++ "_S" ++ str_nat story_number;
     instance_section_name := section_name el;
     instance_is_coupling_beam := is_coupling_beam el;
     pier_spandrel_definition_name :=
       element_type_prefix el ++ "_" ++ base_name_template el |}.

(** The label interfaces [sap_model.PierLabel] and
    [sap_model.SpandrelLabel]. *)
Record label_api : Type := {
  PierLabel_SetPier : string -> pyval;
  SpandrelLabel_SetSpandrel : string -> bool -> pyval
}.

(** A label definition that went through. *)
Inductive label_call : Type :=
| PierDefined (label : string)
| SpandrelDefined (label : string).

(** [label in defined] on a set of strings. *)
Definition member (label : string) (defined : list string) : bool :=
  existsb (String.eqb label) defined.

(** Lines 111-120: the body of the loop over [layout_defs]; the two sets
    keep the order in which the labels were added. *)
Definition define_label (system_loaded : bool) (api : label_api)
    (el_def : StructuralElementPlan)
    (st : list string * list string * list label_call)
  : run (list string * list string * list label_call) :=
  let '(defined_piers, defined_spandrels, calls) := st in
  let label := element_type_prefix el_def ++ "_" ++ base_name_template el_def
  in
  if is_coupling_beam el_def && negb (member label defined_spandrels) then
    _ <- checked (check_ret system_loaded
                    (SpandrelLabel_SetSpandrel api label false)
                    ("SetSpandrel(" ++ label ++ ")") [0; 1]%Z) ;;
    Done (defined_piers, (defined_spandrels ++ [label])%list,
          (calls ++ [SpandrelDefined label])%list)
  else if negb (is_coupling_beam el_def) && negb (member label defined_piers)
  then
    _ <- checked (check_ret system_loaded (PierLabel_SetPier api label)
                    ("SetPier(" ++ label ++ ")") [0; 1]%Z) ;;
    Done ((defined_piers ++ [label])%list, defined_spandrels,
          (calls ++ [PierDefined label])%list)
  else Done st.

Fixpoint define_labels (system_loaded : bool) (api : label_api)
    (layout_defs : list StructuralElementPlan)
    (st : list string * list string * list label_call)
  : run (list string * list string * list label_call) :=
  match layout_defs with
  | [] => Done st
  | el_def :: rest =>
      st' <- define_label system_loaded api el_def st ;;
      define_labels system_loaded api rest st'
  end.

(** [create_pier_spandrel_labels(sap_model, layout_defs)], lines 92-124:
    the two sets, and the definitions made. *)
Definition create_pier_spandrel_labels (system_loaded : bool)
    (api : label_api) (layout_defs : list StructuralElementPlan)
  : run (list string * list string * list label_call) :=
  define_labels system_loaded api layout_defs ([], [], []).

End CommonGeometry.
(** ** geometry/mesh_utils.py: meshed walls and slabs *)

Module MeshedElements.
Import Helpers Py MeshUtils AreaObjects CommonGeometry.
Local Open Scope R_scope.
Local Open Scope string_scope.

(** [l[0]]. *)
Definition first_of (l : list R) : run R :=
  match l with
  | a :: _ => Done a
  | [] => Raised IndexError
  end.

(** Lines 140-170 of [create_meshed_element]: the direction of the member
    and its mesh.  A member that is wider in X is meshed in the plane
    [y = y_list[0]], any other in the plane [x = x_list[0]]. *)
Definition element_mesh (x_list y_list z_list : list R)
    (mesh_h mesh_v : nat) : run (list mesh_element) :=
  dims <- calculate_element_dimensions x_list y_list ;;
  if is_x_direction dims then
    z_hi <- py_max z_list ;;
    z_lo <- py_min z_list ;;
    y0 <- first_of y_list ;;
    create_mesh_grid (x_min dims) (x_max dims) y0 y0 z_lo z_hi
      mesh_h mesh_v "X"
  else
    z_hi <- py_max z_list ;;
    z_lo <- py_min z_list ;;
    x0 <- first_of x_list ;;
    create_mesh_grid x0 x0 (y_min dims) (y_max dims) z_lo z_hi
      mesh_h mesh_v "Y".

(** Lines 174-176: [f"{base_user_name}_H{idx // mesh_v + 1}_V{idx % mesh_v
    + 1}"]. *)
Definition panel_name (base_user_name : string) (mesh_v idx : nat)
  : string :=
  base_user_name ++ "_H" ++ str_nat (idx / mesh_v + 1)
  ++ "_V" ++ str_nat (idx mod mesh_v + 1).

(** The [AddByCoord] request of line 178 for element [idx] of the mesh. *)
Definition panel_request (section base_user_name : string) (mesh_v : nat)
    (item : nat * mesh_element) : area_request :=
  let '(idx, (mesh_x, mesh_y, mesh_z)) := item in
  {| num_points := 4;
     area_x := mesh_x; area_y := mesh_y; area_z := mesh_z;
     area_prop := section;
     area_user_name := panel_name base_user_name mesh_v idx |}.

(** [etabs_name or mesh_name]. *)
Definition name_or (etabs_name mesh_name : string) : string :=
  match etabs_name with
  | EmptyString => mesh_name
  | _ => etabs_name
  end.

(** Lines 178-193: one panel is added, checked, and given its pier or
    spandrel label when there is one. *)
Definition place_panel (system_loaded : bool) (api : area_api)
    (pier_or_spandrel_label : string) (is_coupling_beam : bool)
    (req : area_request) (model : list area_event)
  : run (string * list area_event) :=
  r <- add_area_by_coord_custom system_loaded api req ;;
  _ <- checked (check_ret system_loaded (fst r)
                  ("AddByCoord(" ++ area_user_name req ++ ")")
                  default_ok_codes) ;;
  let name_final := name_or (snd r) (area_user_name req) in
  let model := (model ++ [AreaAdded req])%list in
  match pier_or_spandrel_label with
  | EmptyString => Done (name_final, model)
  | _ =>
      if is_coupling_beam then
        _ <- checked (check_ret system_loaded
                        (SetSpandrel api name_final pier_or_spandrel_label)
                        ("SetSpandrel(" ++ name_final ++ ")")
                        default_ok_codes) ;;
        Done (name_final,
              (model ++ [SpandrelSet name_final pier_or_spandrel_label])%list)
      else
        _ <- checked (check_ret system_loaded
                        (SetPier api name_final pier_or_spandrel_label)
                        ("SetPier(" ++ name_final ++ ")")
                        default_ok_codes) ;;
        Done (name_final,
              (model ++ [PierSet name_final pier_or_spandrel_label])%list)
  end.

(** The loop of lines 173-193 over the requests. *)
Fixpoint place_panels (system_loaded : bool) (api : area_api)
    (pier_or_spandrel_label : string) (is_coupling_beam : bool)
    (reqs : list area_request) (model : list area_event)
  : run (list string * list area_event) :=
  match reqs with
  | [] => Done ([], model)
  | req :: rest =>
      r <- place_panel system_loaded api pier_or_spandrel_label
             is_coupling_beam req model ;;
      r' <- place_panels system_loaded api pier_or_spandrel_label
              is_coupling_beam rest (snd r) ;;
      Done (fst r :: fst r', snd r')
  end.

(** [create_meshed_element(area_api, x_list, y_list, z_list, section,
    base_user_name, pier_or_spandrel_label, mesh_h, mesh_v, element_type,
    is_coupling_beam)], lines 114-196. *)
Definition create_meshed_element (system_loaded : bool) (api : area_api)
    (x_list y_list z_list : list R) (section base_user_name : string)
    (pier_or_spandrel_label : string) (mesh_h mesh_v : nat)
    (is_coupling_beam : bool) (model : list area_event)
  : run (list string * list area_event) :=
  if negb (validate_coordinates x_list y_list z_list) then Done ([], model)
  else
    mesh_elements <- element_mesh x_list y_list z_list mesh_h mesh_v ;;
    place_panels system_loaded api pier_or_spandrel_label is_coupling_beam
      (map (panel_request section base_user_name mesh_v)
           (enumerate mesh_elements))
      model.

(** Lines 237-239: [f"{base_user_name}_X{idx // mesh_y + 1}_Y{idx % mesh_y
    + 1}"]. *)
Definition slab_panel_name (base_user_name : string) (mesh_y idx : nat)
  : string :=
  base_user_name ++ "_X" ++ str_nat (idx / mesh_y + 1)
  ++ "_Y" ++ str_nat (idx mod mesh_y + 1).

Definition slab_request (section base_user_name : string) (mesh_y : nat)
    (item : nat * mesh_element) : area_request :=
  let '(idx, (mesh_x_coords, mesh_y_coords, mesh_z_coords)) := item in
  {| num_points := 4;
     area_x := mesh_x_coords; area_y := mesh_y_coords;
     area_z := mesh_z_coords;
     area_prop := section;
     area_user_name := slab_panel_name base_user_name mesh_y idx |}.

(** Lines 241-253: one slab panel is added, checked, and assigned the
    semi-rigid diaphragm ["SRD"]. *)
Definition place_slab (system_loaded : bool) (api : area_api)
    (req : area_request) (model : list area_event)
  : run (string * list area_event) :=
  r <- add_area_by_coord_custom system_loaded api req ;;
  _ <- checked (check_ret system_loaded (fst r)
                  ("AddByCoord(" ++ area_user_name req ++ ")")
                  default_ok_codes) ;;
  let name_final := name_or (snd r) (area_user_name req) in
  _ <- checked (check_ret system_loaded (SetDiaphragm api name_final "SRD")
                  ("SetDiaphragm(" ++ name_final ++ ", SRD)")
                  default_ok_codes) ;;
  Done (name_final,
        (model ++ [AreaAdded req; DiaphragmSet name_final "SRD"])%list).

Fixpoint place_slabs (system_loaded : bool) (api : area_api)
    (reqs : list area_request) (model : list area_event)
  : run (list string * list area_event) :=
  match reqs with
  | [] => Done ([], model)
  | req :: rest =>
      r <- place_slab system_loaded api req model ;;
      r' <- place_slabs system_loaded api rest (snd r) ;;
      Done (fst r :: fst r', snd r')
  end.

(** The mesh of lines 220-233. *)
Definition slab_mesh_of (x_list y_list z_list : list R)
    (mesh_x mesh_y : nat) : run (list mesh_element) :=
  dims <- calculate_element_dimensions x_list y_list ;;
  z_coord <- first_of z_list ;;
  create_slab_mesh_grid (x_min dims) (x_max dims) (y_min dims) (y_max dims)
    z_coord mesh_x mesh_y.

(** [create_meshed_slab(area_api, x_list, y_list, z_list, section,
    base_user_name, mesh_x, mesh_y)], lines 199-256. *)
Definition create_meshed_slab (system_loaded : bool) (api : area_api)
    (x_list y_list z_list : list R) (section base_user_name : string)
    (mesh_x mesh_y : nat) (model : list area_event)
  : run (list string * list area_event) :=
  if negb (validate_coordinates x_list y_list z_list) then Done ([], model)
  else
    mesh_elements <- slab_mesh_of x_list y_list z_list mesh_x mesh_y ;;
    place_slabs system_loaded api
      (map (slab_request section base_user_name mesh_y)
           (enumerate mesh_elements))
      model.

End MeshedElements.
(** ** Vocabulary for the statements about area objects *)

Module AreaSpec.
Import Helpers Py GeometryCommon MeshUtils GeometrySpec AreaObjects.
Import CommonGeometry.
Local Open Scope R_scope.


(** A status the checks of the area modules let through: 0, or 1 under an
    allow-listed name. *)
Definition lets_through (ret_val : pyval) : Prop :=
  code_of ret_val = PInt 0 \/ code_of ret_val = PInt 1.

(** The application answers every call of the area modules with status 0
    or 1. *)
Definition answers_0_or_1 (api : area_api) : Prop :=
  (forall req, exists status rest,
      AddByCoord api req = status :: rest
      /\ (status = PInt 0 \/ status = PInt 1))
  /\ (forall name label, lets_through (SetPier api name label))
  /\ (forall name label, lets_through (SetSpandrel api name label))
  /\ (forall name d, lets_through (SetDiaphragm api name d)).

(** The area objects added to the model, in order. *)
Definition added (model : list area_event) : list area_request :=
  flat_map (fun e => match e with
                     | AreaAdded req => [req]
                     | _ => []
                     end) model.

(** The mesh element a request asks for. *)
Definition element_of (req : area_request) : mesh_element :=
  (area_x req, area_y req, area_z req).

(** The request for cell [(i, j)] of a wall mesh, named by its column and
    row counted from 1. *)
Definition cell_request (section base : string) (cell : nat -> nat -> mesh_element)
    (tag_h tag_v : string) (i j : nat) : area_request :=
  {| num_points := 4;
     area_x := fst (fst (cell i j));
     area_y := snd (fst (cell i j));
     area_z := snd (cell i j);
     area_prop := section;
     area_user_name :=
       (base ++ tag_h ++ str_nat (i + 1) ++ tag_v ++ str_nat (j + 1))%string
  |}.

(** The label of a member of the layout: its prefix, ["_"], its base
    name. *)
Definition label_of (el : StructuralElementPlan) : string :=
  (element_type_prefix el ++ "_" ++ base_name_template el)%string.

(** The pier labels, respectively the spandrel labels, that were defined,
    in the order of the calls. *)
Definition pier_calls (calls : list label_call) : list string :=
  flat_map (fun c => match c with
                     | PierDefined l => [l]
                     | SpandrelDefined _ => []
                     end) calls.

Definition spandrel_calls (calls : list label_call) : list string :=
  flat_map (fun c => match c with
                     | PierDefined _ => []
                     | SpandrelDefined l => [l]
                     end) calls.

(** The label application answers every definition with status 0 or 1. *)
Definition labels_answer_0_or_1 (api : label_api) : Prop :=
  (forall label, lets_through (PierLabel_SetPier api label))
  /\ (forall label flag, lets_through (SpandrelLabel_SetSpandrel api label flag)).

(** What holds of the two sets and the calls once the members [seen] have
    been gone through. *)
Definition labels_inv (seen : list StructuralElementPlan)
    (st : list string * list string * list label_call) : Prop :=
  let '(piers, spandrels, calls) := st in
  NoDup piers /\ NoDup spandrels
  /\ pier_calls calls = piers /\ spandrel_calls calls = spandrels
  /\ (forall l, In l piers <->
        exists el, In el seen /\ is_coupling_beam el = false
                   /\ label_of el = l)
  /\ (forall l, In l spandrels <->
        exists el, In el seen /\ is_coupling_beam el = true
                   /\ label_of el = l).

(** A label application that answers every definition with status 1. *)
Definition labels_answering_1 : label_api :=
  {| PierLabel_SetPier := fun _ => PInt 1;
     SpandrelLabel_SetSpandrel := fun _ _ => PInt 1 |}.



(** An application that answers every call with status 1 and no name of
    its own. *)
Definition api_answering_1 : area_api :=
  {| AddByCoord := fun _ => [PInt 1];
     SetPier := fun _ _ => PInt 1;
     SetSpandrel := fun _ _ => PInt 1;
     SetDiaphragm := fun _ _ => PInt 1 |}.

End AreaSpec.

(** ** The floor slabs of geometry/frame_geometry.py and
    geometry/shear_wall_geometry.py *)

Module SlabGeometry.
Import Config MoreConfig Py GeometryCommon FrameGeometry AreaObjects.
Import MeshedElements.
Local Open Scope R_scope.
Local Open Scope string_scope.

(** The arguments of one [create_meshed_slab] call that vary: the corner
    coordinates and the base name. *)
Record slab_job : Type := {
  sl_x : list R;
  sl_y : list R;
  sl_z : list R;
  sl_name : string
}.

(** Lines 281-289 of frame_geometry.py (210-218 of shear_wall_geometry.py):
    the slab of the bay [(ix_sl, iy_sl)] at the elevation [z_sl]. *)
Definition bay_slab (grid_x grid_y : list R) (s_num : nat) (z_sl : R)
    (ix_sl iy_sl : nat) : slab_job :=
  let x0 := item grid_x ix_sl in
  let y0 := item grid_y iy_sl in
  let x1 := item grid_x (ix_sl + 1) in
  let y1 := item grid_y (iy_sl + 1) in
  {| sl_x := [x0; x1; x1; x0];
     sl_y := [y0; y0; y1; y1];
     sl_z := [z_sl; z_sl; z_sl; z_sl];
     sl_name := "SLAB_X" ++ str_nat ix_sl ++ "_Y" ++ str_nat iy_sl
                ++ "_S" ++ str_nat s_num |}.

(** The two loops over the bays of one story. *)
Definition story_slabs (cfg : config) (grid_x grid_y : list R)
    (s_num : nat) (z_sl : R) : list slab_job :=
  flat_map (fun ix_sl =>
              map (bay_slab grid_x grid_y s_num z_sl ix_sl)
                  (seq 0 (NUM_GRID_LINES_Y cfg - 1)))
           (seq 0 (NUM_GRID_LINES_X cfg - 1)).

(** The slabs asked for, story by story; a slab lies at the top of its
    story ([cum_z_slabs += s_h] comes before the bays). *)
Definition slab_jobs (cfg : config) (story_heights : nat -> option R)
  : list (list slab_job) :=
  let '(grid_x, grid_y) := generate_grid_coordinates cfg in
  stories cfg story_heights
    (fun s_num _ z_top => story_slabs cfg grid_x grid_y s_num z_top)
    1 (NUM_STORIES cfg) 0.0.

(** The calls of [create_meshed_slab], one after the other; the names are
    collected with [extend]. *)
Fixpoint run_slab_jobs (mc : more_config) (system_loaded : bool)
    (api : area_api) (jobs : list slab_job)
    (st : list string * list area_event)
  : run (list string * list area_event) :=
  match jobs with
  | [] => Done st
  | job :: rest =>
      r <- create_meshed_slab system_loaded api (sl_x job) (sl_y job)
             (sl_z job) (SLAB_SECTION_NAME mc) (sl_name job)
             (SLAB_MESH_X mc) (SLAB_MESH_Y mc) (snd st) ;;
      run_slab_jobs mc system_loaded api rest
        ((fst st ++ fst r)%list, snd r)
  end.

(** [create_frame_slabs(sap_model, story_heights)], frame_geometry.py lines
    254-301: the names of the slab panels. *)
Definition create_frame_slabs (cfg : config) (mc : more_config)
    (system_loaded : bool) (api : area_api)
    (story_heights : nat -> option R) (model : list area_event)
  : run (list string * list area_event) :=
  run_slab_jobs mc system_loaded api
    (List.concat (slab_jobs cfg story_heights)) ([], model).

(** [create_shear_wall_slabs(sap_model, story_heights)],
    shear_wall_geometry.py lines 190-229: the same loops; only the number
    of panels is kept, and printed. *)
Definition create_shear_wall_slabs (cfg : config) (mc : more_config)
    (system_loaded : bool) (api : area_api)
    (story_heights : nat -> option R) (model : list area_event)
  : run (nat * list area_event) :=
  r <- run_slab_jobs mc system_loaded api
         (List.concat (slab_jobs cfg story_heights)) ([], model) ;;
  Done (List.length (fst r), snd r).

End SlabGeometry.

(** ** geometry/shear_wall_geometry.py: the assembly *)

Module ShearWallStructure.
Import Config MoreConfig Py GeometryCommon ShearWallGeometry AreaObjects.
Import CommonGeometry MeshedElements SlabGeometry.
Local Open Scope R_scope.
Local Open Scope string_scope.

(** [story_heights[s_num] = s_h] on a dictionary read with [get]. *)
Definition dict_set (story_heights : nat -> option R) (s_num : nat) (s_h : R)
  : nat -> option R :=
  fun k => if Nat.eqb k s_num then Some s_h else story_heights k.

(** The lists [wall_names] and [cb_names], and the model. *)
Definition assembly : Type :=
  (list string * list string * list area_event)%type.

(** Lines 137-172: one member of the layout in story [s_num]; a coupling
    beam takes the top [COUPLING_BEAM_HEIGHT] of the story, a wall the whole
    story. *)
Definition place_member (mc : more_config) (system_loaded : bool)
    (api : area_api) (s_num : nat) (z_b z_t z_cb_b z_cb_t : R)
    (el_def : StructuralElementPlan) (st : assembly) : run assembly :=
  let '(wall_names, cb_names, model) := st in
  let story_details := get_story_instance_details el_def s_num in
  let planar_x := fst (xy_coords_planar story_details) in
  let planar_y := snd (xy_coords_planar story_details) in
  let area_name := area_object_name story_details in
  let section_name := instance_section_name story_details in
  let is_cb := instance_is_coupling_beam story_details in
  let pier_spandrel_label := pier_spandrel_definition_name story_details in
  if is_cb then
    r <- create_meshed_element system_loaded api planar_x planar_y
           [z_cb_b; z_cb_b; z_cb_t; z_cb_t] section_name area_name
           pier_spandrel_label (COUPLING_BEAM_MESH_H mc)
           (COUPLING_BEAM_MESH_V mc) true model ;;
    Done (wall_names, (cb_names ++ fst r)%list, snd r)
  else
    r <- create_meshed_element system_loaded api planar_x planar_y
           [z_b; z_b; z_t; z_t] section_name area_name
           pier_spandrel_label (SHEAR_WALL_MESH_H mc)
           (SHEAR_WALL_MESH_V mc) false model ;;
    Done ((wall_names ++ fst r)%list, cb_names, snd r).

(** [for el_def in layout_defs], lines 137-172. *)
Fixpoint place_members (mc : more_config) (system_loaded : bool)
    (api : area_api) (s_num : nat) (z_b z_t z_cb_b z_cb_t : R)
    (layout_defs : list StructuralElementPlan) (st : assembly)
  : run assembly :=
  match layout_defs with
  | [] => Done st
  | el_def :: rest =>
      st' <- place_member mc system_loaded api s_num z_b z_t z_cb_b z_cb_t
               el_def st ;;
      place_members mc system_loaded api s_num z_b z_t z_cb_b z_cb_t rest st'
  end.

(** [for i_s in range(NUM_STORIES)], lines 118-174, from story index [i_s]
    on, for [count] stories, with the running elevation [cum_z]. *)
Fixpoint wall_stories (cfg : config) (mc : more_config)
    (system_loaded : bool) (api : area_api)
    (layout_defs : list StructuralElementPlan) (i_s count : nat) (cum_z : R)
    (story_heights : nat -> option R) (st : assembly)
  : run ((nat -> option R) * assembly) :=
  match count with
  | O => Done (story_heights, st)
  | S count' =>
      let s_num := (i_s + 1)%nat in
      let s_h := if Nat.ltb 0 i_s then TYPICAL_STORY_HEIGHT cfg
                 else BOTTOM_STORY_HEIGHT mc in
      let story_heights := dict_set story_heights s_num s_h in
      let z_b := cum_z in
      let z_t := cum_z + s_h in
      let z_cb_b := z_t - COUPLING_BEAM_HEIGHT mc in
      let z_cb_t := z_t in
      st' <- place_members mc system_loaded api s_num z_b z_t z_cb_b z_cb_t
               layout_defs st ;;
      wall_stories cfg mc system_loaded api layout_defs (S i_s) count' z_t
        story_heights st'
  end.

(** What [create_shear_wall_structural_geometry] returns, with the label
    definitions made and the model left behind. *)
Record wall_structure : Type := {
  wall_names : list string;
  cb_names : list string;
  story_heights : nat -> option R;
  label_calls : list label_call;
  final_model : list area_event
}.

(** [create_shear_wall_structural_geometry(sap_model)], lines 90-187. *)
Definition create_shear_wall_structural_geometry (cfg : config)
    (mc : more_config) (system_loaded : bool) (labels : label_api)
    (api : area_api) (model : list area_event) : run wall_structure :=
  let layout_defs := generate_shear_wall_planar_layout cfg in
  l <- create_pier_spandrel_labels system_loaded labels layout_defs ;;
  r <- wall_stories cfg mc system_loaded api layout_defs 0 (NUM_STORIES cfg)
         0.0 (fun _ => None) ([], [], model) ;;
  s <- create_shear_wall_slabs cfg mc system_loaded api (fst r)
         (snd (snd r)) ;;
  Done {| wall_names := fst (fst (snd r));
          cb_names := snd (fst (snd r));
          story_heights := fst r;
          label_calls := snd l;
          final_model := snd s |}.

End ShearWallStructure.

(** ** Vocabulary for the statements about the wall structure *)

Module WallSpec.
Import Config MoreConfig Py GeometryCommon MeshUtils FrameGeometry.
Import FrameStructure StorySpec AreaObjects CommonGeometry MeshedElements.
Import AreaSpec ShearWallStructure.

(** The bays of the grid: between neighbouring grid lines, along every
    grid line of the other direction. *)
Definition bays (cfg : config) : nat :=
  NUM_GRID_LINES_Y cfg * (NUM_GRID_LINES_X cfg - 1)
  + NUM_GRID_LINES_X cfg * (NUM_GRID_LINES_Y cfg - 1).

(** The coupling beams, and the walls, among some members. *)
Definition coupling_beams (l : list StructuralElementPlan)
  : list StructuralElementPlan := filter is_coupling_beam l.

Definition walls (l : list StructuralElementPlan)
  : list StructuralElementPlan :=
  filter (fun el => negb (is_coupling_beam el)) l.

(** A member given by four points. *)
Definition four_points (el : StructuralElementPlan) : Prop :=
  List.length (x_coords el) = 4%nat /\ List.length (y_coords el) = 4%nat.


(** The elevation of the top of story [k] of the wall structure, whose
    stories are the bottom story and typical stories above it. *)
Definition top_of (cfg : config) (mc : more_config) (k : nat) : R :=
  elevation cfg (frame_story_heights cfg mc) k.


(** The elevations and the mesh counts [create_meshed_element] is given for
    a member. *)
Definition member_z (mc : more_config) (z_b z_t : R)
    (el : StructuralElementPlan) : list R :=
  if is_coupling_beam el
  then [(z_t - COUPLING_BEAM_HEIGHT mc)%R; (z_t - COUPLING_BEAM_HEIGHT mc)%R;
        z_t; z_t]
  else [z_b; z_b; z_t; z_t].

Definition member_mesh_h (mc : more_config) (el : StructuralElementPlan)
  : nat :=
  if is_coupling_beam el then COUPLING_BEAM_MESH_H mc
  else SHEAR_WALL_MESH_H mc.

Definition member_mesh_v (mc : more_config) (el : StructuralElementPlan)
  : nat :=
  if is_coupling_beam el then COUPLING_BEAM_MESH_V mc
  else SHEAR_WALL_MESH_V mc.

(** Every panel asked for on behalf of a member in story [s_num]
    satisfies [P]. *)
Definition panels_satisfy (P : area_request -> Prop) (mc : more_config)
    (s_num : nat) (z_b z_t : R) (el : StructuralElementPlan) : Prop :=
  forall m,
    element_mesh (x_coords el) (y_coords el) (member_z mc z_b z_t el)
      (member_mesh_h mc el) (member_mesh_v mc el) = Done m ->
    forall item, In item (enumerate m) ->
      P (panel_request (section_name el)
           (base_name_template el ++ "_S" ++ str_nat s_num)%string
           (member_mesh_v mc el) item).

(** From one state of the assembly to a later one: so many wall names and
    coupling-beam names more, one area object per name, and [P] kept for
    the area objects. *)
Definition grows_by (P : area_request -> Prop) (n_walls n_cbs : nat)
    (st st' : assembly) : Prop :=
  List.length (fst (fst st')) = (List.length (fst (fst st)) + n_walls)%nat
  /\ List.length (snd (fst st'))
     = (List.length (snd (fst st)) + n_cbs)%nat
  /\ List.length (added (snd st'))
     = (List.length (added (snd st)) + n_walls + n_cbs)%nat
  /\ (Forall P (added (snd st)) -> Forall P (added (snd st'))).

(** Every panel asked for on behalf of a slab satisfies [P]. *)
Definition slab_panels_satisfy (P : area_request -> Prop) (mc : more_config)
    (job : SlabGeometry.slab_job) : Prop :=
  forall m,
    slab_mesh_of (SlabGeometry.sl_x job) (SlabGeometry.sl_y job)
      (SlabGeometry.sl_z job) (SLAB_MESH_X mc) (SLAB_MESH_Y mc) = Done m ->
    forall item, In item (enumerate m) ->
      P (slab_request (SLAB_SECTION_NAME mc) (SlabGeometry.sl_name job)
           (SLAB_MESH_Y mc) item).

End WallSpec.

(** ** loads/load_combinations_GB.py *)

Module LoadCombinations.
Local Open Scope R_scope.
Local Open Scope string_scope.

(** One entry of the list of combinations:
    [{'name': ..., 'case': ..., 'factor': ...}]. *)
Record combination : Type := {
  name : string;
  case : string;
  factor : R
}.

(** [get_uls_combinations_gb()], lines 3-26. *)
Definition get_uls_combinations_gb : list combination :=
  [ {| name := "ULS-1"; case := "DEAD"; factor := 1.2 |};
    {| name := "ULS-1"; case := "LIVE"; factor := 1.4 |};
    {| name := "ULS-2"; case := "DEAD"; factor := 1.2 |};
    {| name := "ULS-2"; case := "LIVE"; factor := 0.7 |};
    {| name := "ULS-2"; case := "WIND-X"; factor := 1.4 |};
    {| name := "ULS-3"; case := "DEAD"; factor := 1.0 |};
    {| name := "ULS-3"; case := "WIND-X"; factor := 1.4 |} ].

(** A [defaultdict(list)] with its keys in the order of insertion. *)
Definition grouped : Type := list (string * list (string * R)).

(** [grouped_combos[key].append(entry)]: the list of an existing key grows,
    a new key is added at the end with a list of one entry. *)
Fixpoint append_to (grouped_combos : grouped) (key : string)
    (entry : string * R) : grouped :=
  match grouped_combos with
  | [] => [(key, [entry])]
  | (k, entries) :: rest =>
      if String.eqb k key then (k, (entries ++ [entry])%list) :: rest
      else (k, entries) :: append_to rest key entry
  end.

(** Lines 41-42: the loop that groups the entries by name. *)
Definition group_by_name (combinations_data : list combination) : grouped :=
  fold_left (fun grouped_combos combo =>
               append_to grouped_combos (name combo)
                 (case combo, factor combo))
            combinations_data [].

(** The calls on [sap_model.RespCombo]; their return values are not
    looked at. *)
Inductive combo_call : Type :=
| Add (combo_name : string) (combo_type : Z)
| SetCaseList (combo_name : string) (cname_type : Z) (case_name : string)
    (scale_factor : R).

(** Lines 44-50: one combination and its cases. *)
Definition combination_calls (group : string * list (string * R))
  : list combo_call :=
  Add (fst group) 0
  :: map (fun entry => SetCaseList (fst group) 0 (fst entry) (snd entry))
         (snd group).

(** [create_load_combinations_in_etabs(sap_model, combinations_data)],
    lines 29-51: the calls made, in order. *)
Definition create_load_combinations_in_etabs
    (combinations_data : list combination) : list combo_call :=
  flat_map combination_calls (group_by_name combinations_data).

End LoadCombinations.

(** ** Vocabulary for the statements about the load combinations *)

Module CombinationSpec.
Import LoadCombinations.

(** The names in the order in which they first appear. *)
Definition first_names (names : list string) : list string :=
  fold_left (fun seen n =>
               if existsb (String.eqb n) seen then seen
               else (seen ++ [n])%list)
            names [].

(** The cases and factors listed under a name, in the order of the data. *)
Definition rows_of (n : string) (data : list combination)
  : list (string * R) :=
  map (fun combo => (case combo, factor combo))
      (filter (fun combo => String.eqb (name combo) n) data).

Definition is_add (c : combo_call) : bool :=
  match c with Add _ _ => true | SetCaseList _ _ _ _ => false end.

Definition is_set_case (c : combo_call) : bool :=
  match c with Add _ _ => false | SetCaseList _ _ _ _ => true end.

End CombinationSpec.

(** ** loads/dead_live_loads.py *)

Module DeadLiveLoads.
Import Helpers Py.
Local Open Scope R_scope.
Local Open Scope string_scope.

(** [sap_model.AreaObj] as the loads module uses it: the tuple
    [(status, number, names)] of [GetNameList], and
    [SetLoadUniform(name, pattern, value, 10, True, "Global", Objects)]. *)
Record load_api : Type := {
  GetNameList : pyval * Z * option (list string);
  SetLoadUniform : string -> string -> R -> pyval
}.

(** A load that was set. *)
Inductive load_call : Type :=
| LoadSet (name pattern : string) (value : R).

(** Line 36: [list(ret_tuple[2]) if ret_tuple[1] > 0 and ret_tuple[2] is
    not None else []]. *)
Definition all_area_names (ret_tuple : pyval * Z * option (list string))
  : list string :=
  match snd ret_tuple with
  | Some names => if Z.ltb 0 (snd (fst ret_tuple)) then names else []
  | None => []
  end.

(** Line 39: [[name for name in all_area_names if
    name.startswith("SLAB_")]]. *)
Definition slabs_to_load (names : list string) : list string :=
  filter (String.prefix "SLAB_") names.

(** Lines 48-66: the two loads of one slab. *)
Definition load_slab (system_loaded : bool) (api : load_api)
    (dead_kpa live_kpa : R) (slab_name : string) (calls : list load_call)
  : run (list load_call) :=
  _ <- checked (check_ret system_loaded
                  (SetLoadUniform api slab_name "DEAD" (Rabs dead_kpa))
                  ("SetLoadUniform DEAD on " ++ slab_name) [0; 1]%Z) ;;
  _ <- checked (check_ret system_loaded
                  (SetLoadUniform api slab_name "LIVE" (Rabs live_kpa))
                  ("SetLoadUniform LIVE on " ++ slab_name) [0; 1]%Z) ;;
  Done (calls ++ [LoadSet slab_name "DEAD" (Rabs dead_kpa);
                  LoadSet slab_name "LIVE" (Rabs live_kpa)])%list.

Fixpoint load_slabs (system_loaded : bool) (api : load_api)
    (dead_kpa live_kpa : R) (slabs : list string) (calls : list load_call)
  : run (list load_call) :=
  match slabs with
  | [] => Done calls
  | slab_name :: rest =>
      calls' <- load_slab system_loaded api dead_kpa live_kpa slab_name
                  calls ;;
      load_slabs system_loaded api dead_kpa live_kpa rest calls'
  end.

(** [assign_dead_and_live_loads_to_slabs(sap_model, dead_kpa, live_kpa)],
    lines 11-68: the loads set.  Without slabs the function returns before
    the loop, which then has nothing to do either. *)
Definition assign_dead_and_live_loads_to_slabs
    (sap_model_set system_loaded : bool) (api : load_api)
    (dead_kpa live_kpa : R) : run (list load_call) :=
  if negb sap_model_set then Raised OtherError
  else if negb system_loaded then Raised AttributeError
  else
    _ <- checked (check_ret system_loaded (fst (fst (GetNameList api)))
                    "AreaObj.GetNameList (for slab loads)"
                    default_ok_codes) ;;
    load_slabs system_loaded api dead_kpa live_kpa
      (slabs_to_load (all_area_names (GetNameList api))) [].

End DeadLiveLoads.

(** ** Vocabulary for the statements about the slab loads *)

Module LoadSpec.
Import Config MoreConfig Helpers AreaObjects DeadLiveLoads.
Local Open Scope string_scope.

(** An application that lists the area objects under these names. *)
Definition listing (status : pyval) (names : list string)
    (set : string -> string -> R -> pyval) : load_api :=
  {| GetNameList := (status, Z.of_nat (List.length names), Some names);
     SetLoadUniform := set |}.

(** An area object is named after its kind: a panel of the slab section
    has a name that starts with ["SLAB_"], a panel of the wall or
    coupling-beam section one that does not. *)
Definition named_by_kind (cfg : config) (mc : more_config)
    (req : area_request) : Prop :=
  (area_prop req = SLAB_SECTION_NAME mc
   /\ String.prefix "SLAB_" (area_user_name req) = true)
  \/ ((area_prop req = WALL_SECTION_NAME cfg
       \/ area_prop req = COUPLING_BEAM_SECTION_NAME cfg)
      /\ String.prefix "SLAB_" (area_user_name req) = false).

(** The panels of the slab section among some area objects. *)
Definition slab_panels (mc : more_config) (reqs : list area_request)
  : list area_request :=
  filter (fun req => String.eqb (area_prop req) (SLAB_SECTION_NAME mc)) reqs.

(** The dead and the live load on each of some area objects. *)
Definition slab_loads (dead_kpa live_kpa : R) (reqs : list area_request)
  : list load_call :=
  flat_map (fun req =>
              [LoadSet (area_user_name req) "DEAD" (Rabs dead_kpa);
               LoadSet (area_user_name req) "LIVE" (Rabs live_kpa)])
           reqs.

End LoadSpec.

(** * Proofs *)

(** ** The response spectrum *)

Section SpectrumFacts.
Import Py ResponseSpectrum.
Local Open Scope R_scope.




Lemma Rmax_absorb (a b : R) : Rmax a (Rmax a b) = Rmax a b.
Proof. unfold Rmax. repeat destruct (Rle_dec _ _); lra. Qed.



Lemma spectrum_defined (T zeta alpha_max Tg g : R) :
  divisors_nonzero zeta ->
  china_response_spectrum T zeta alpha_max Tg g
  = Done (alpha_coeff T zeta alpha_max Tg * g).
Proof.
  intros Hd. unfold china_response_spectrum.
  destruct (divisors_nonzero_dec zeta) as [_ | Hn]; [reflexivity | contradiction].
Qed.

Lemma branch_negative_period (T zeta alpha_max Tg : R) :
  T < 0 -> branch_alpha_coeff T zeta alpha_max Tg = 0.
Proof.
  intros HT. unfold branch_alpha_coeff.
  destruct (Rlt_dec T 0) as [_ | Hn]; [lra | contradiction].
Qed.


(** C1, counterexample.  At [T = -1] with the configured [zeta = 0.05],
    [alpha_max = 0.08], [Tg = 0.65], the function does not return 0: the floor
    of line 52 lifts the coefficient to [0.20 * 0.08 = 0.016]. *)
Lemma C1_negative_period_not_zero :
  china_response_spectrum (-1) 0.05 0.08 0.65 GRAVITY_ACCEL
  = Done (0.016 * GRAVITY_ACCEL)
  /\ china_response_spectrum (-1) 0.05 0.08 0.65 GRAVITY_ACCEL <> Done 0.
Proof.
  assert (E : china_response_spectrum (-1) 0.05 0.08 0.65 GRAVITY_ACCEL
              = Done (0.016 * GRAVITY_ACCEL)).
  { rewrite spectrum_defined by (unfold divisors_nonzero; repeat split; lra).
    f_equal. f_equal. unfold alpha_coeff.
    rewrite branch_negative_period by lra.
    rewrite (Rmax_right 0 (0.20 * 0.08)) by lra.
    rewrite Rmax_right by lra. lra. }
  split; [exact E |].
  rewrite E. unfold GRAVITY_ACCEL. intros H. injection H as H. lra.
Qed.

(** C1, as the code has it.  For a negative period the [if] chain assigns 0,
    and the floors of lines 52-53 then apply: the function returns
    [max(0, 0.20 * alpha_max) * g], which is 0 when [alpha_max <= 0]. *)
Theorem C1_negative_period (T zeta alpha_max Tg g : R) :
  T < 0 -> divisors_nonzero zeta ->
  branch_alpha_coeff T zeta alpha_max Tg = 0
  /\ china_response_spectrum T zeta alpha_max Tg g
     = Done (Rmax 0 (0.20 * alpha_max) * g)
  /\ (alpha_max <= 0 ->
      china_response_spectrum T zeta alpha_max Tg g = Done 0).
Proof.
  intros HT Hd.
  assert (E : alpha_coeff T zeta alpha_max Tg = Rmax 0 (0.20 * alpha_max)).
  { unfold alpha_coeff. rewrite branch_negative_period by exact HT.
    replace 0.0 with 0 by lra.
    apply Rmax_absorb. }
  split; [apply branch_negative_period; exact HT |].
  rewrite spectrum_defined by exact Hd. rewrite E.
  split; [reflexivity |].
  intros Ha. rewrite Rmax_left by lra. f_equal. lra.
Qed.

Lemma C1_negative_period_witness :
  branch_alpha_coeff (-1) 0.05 0.08 0.65 = 0
  /\ china_response_spectrum (-1) 0.05 0.08 0.65 GRAVITY_ACCEL
     = Done (Rmax 0 (0.20 * 0.08) * GRAVITY_ACCEL)
  /\ (0.08 <= 0 ->
      china_response_spectrum (-1) 0.05 0.08 0.65 GRAVITY_ACCEL = Done 0).
Proof.
  apply (C1_negative_period (-1) 0.05 0.08 0.65 GRAVITY_ACCEL).
  - lra.
  - unfold divisors_nonzero. repeat split; lra.
Defined.



(** *** The shape of the coefficient curve *)







(** Where line 44 is reached the base of the power is positive, which is
    the case [py_pow] models. *)
Lemma power_branch_base_positive (T Tg : R) :
  0.1 < T -> T <= 5.0 * Tg -> 0 < Tg / T.
Proof. intros HT H5. apply Rdiv_lt_0_compat; lra. Qed.


Lemma py_pow_pos (x y : R) : 0 < py_pow x y.
Proof. unfold py_pow, Rpower. apply exp_pos. Qed.






















End SpectrumFacts.

(** ** The return-code check *)

Section ReturnCodeCheck.
Import Helpers.
Local Open Scope string_scope.

Lemma benign_of_keyword (kw func_name : string) :
  In kw benign_keywords -> contains kw func_name = true ->
  existsb (fun k => contains k func_name) benign_keywords = true.
Proof.
  intros Hin Hc. apply existsb_exists. exists kw. split; assumption.
Qed.

Lemma SetWall_is_benign : In "SetWall" benign_keywords.
Proof. unfold benign_keywords. simpl. tauto. Qed.

(** A code of 1 under an allow-listed name comes back, with one message. *)
Lemma check_ret_benign_one (ret_val : pyval) (func_name : string)
    (ok_codes : list Z) :
  code_of ret_val = PInt 1 ->
  existsb (fun k => contains k func_name) benign_keywords = true ->
  check_ret true ret_val func_name ok_codes
  = Returns (PInt 1) [InfoNoResultData func_name]
  \/ check_ret true ret_val func_name ok_codes
     = Returns (PInt 1) [InfoAlreadyExists func_name].
Proof.
  intros Hc Hb. unfold check_ret. simpl negb. cbv iota.
  rewrite Hc, Hb. simpl andb. cbv iota.
  destruct (contains "Results." func_name
            || existsb (fun x => contains x func_name) result_keywords);
    [left | right]; reflexivity.
Qed.

(** A code other than 1 that is not in [ok_codes] ends the process. *)
Lemma check_ret_fatal (ret_val : pyval) (func_name : string)
    (ok_codes : list Z) (z : Z) :
  code_of ret_val = PInt z -> z <> 1%Z ->
  existsb (Z.eqb z) ok_codes = false ->
  check_ret true ret_val func_name ok_codes
  = Exits [ErrorReturnCode func_name (PInt z) ok_codes ret_val].
Proof.
  intros Hc Hz Hok. unfold check_ret. simpl negb. cbv iota.
  rewrite Hc. simpl is_one.
  replace (Z.eqb z 1) with false by (symmetry; apply Z.eqb_neq; exact Hz).
  simpl andb. cbv iota. simpl in_ok_codes. rewrite Hok. reflexivity.
Qed.

End ReturnCodeCheck.

(** C4, counterexample.  When the module-level handle [System] is not set,
    line 28 ends the process before the return value is looked at: a
    ["SetWall"] call returning 1 does not come back. *)
Lemma C4_exits_without_System :
  Helpers.check_ret false (Helpers.PInt 1) "SetWall" Helpers.default_ok_codes
  = Helpers.Exits [].
Proof. reflexivity. Qed.

(** C4, as the code has it.  With [System] set, a call whose name contains
    ["SetWall"], with the default ok-codes [(0,)], returns the code when the
    return value (bare, or the first element of a tuple) is 1; with a return
    code of 2 it ends the process.  With [System] not set it ends the
    process whatever the return value. *)
Theorem C4_SetWall_return_code (func_name : string) (rest : list Helpers.pyval) :
  Helpers.contains "SetWall" func_name = true ->
  (exists printed,
      Helpers.check_ret true (Helpers.PInt 1) func_name
        Helpers.default_ok_codes
      = Helpers.Returns (Helpers.PInt 1) printed)
  /\ (exists printed,
      Helpers.check_ret true (Helpers.PTuple (Helpers.PInt 1 :: rest))
        func_name Helpers.default_ok_codes
      = Helpers.Returns (Helpers.PInt 1) printed)
  /\ (exists printed,
      Helpers.check_ret true (Helpers.PInt 2) func_name
        Helpers.default_ok_codes
      = Helpers.Exits printed)
  /\ (exists printed,
      Helpers.check_ret true (Helpers.PTuple (Helpers.PInt 2 :: rest))
        func_name Helpers.default_ok_codes
      = Helpers.Exits printed)
  /\ (forall ret_val ok_codes,
      Helpers.check_ret false ret_val func_name ok_codes = Helpers.Exits []).
Proof.
  intros Hc.
  pose proof (benign_of_keyword "SetWall" func_name SetWall_is_benign Hc)
    as Hb.
  split; [| split; [| split; [| split]]].
  - destruct (check_ret_benign_one (Helpers.PInt 1) func_name
                Helpers.default_ok_codes eq_refl Hb) as [E | E];
      rewrite E; eexists; reflexivity.
  - destruct (check_ret_benign_one (Helpers.PTuple (Helpers.PInt 1 :: rest))
                func_name Helpers.default_ok_codes eq_refl Hb) as [E | E];
      rewrite E; eexists; reflexivity.
  - eexists. apply (check_ret_fatal _ _ _ 2%Z); [reflexivity | lia | reflexivity].
  - eexists. apply (check_ret_fatal _ _ _ 2%Z); [reflexivity | lia | reflexivity].
  - intros ret_val ok_codes. reflexivity.
Qed.

Lemma C4_SetWall_return_code_witness :
  (exists printed,
      Helpers.check_ret true (Helpers.PInt 1) "AreaObj.SetWall(W1)"
        Helpers.default_ok_codes
      = Helpers.Returns (Helpers.PInt 1) printed)
  /\ (exists printed,
      Helpers.check_ret true
        (Helpers.PTuple [Helpers.PInt 1; Helpers.PStr "W1"])
        "AreaObj.SetWall(W1)" Helpers.default_ok_codes
      = Helpers.Returns (Helpers.PInt 1) printed)
  /\ (exists printed,
      Helpers.check_ret true (Helpers.PInt 2) "AreaObj.SetWall(W1)"
        Helpers.default_ok_codes
      = Helpers.Exits printed)
  /\ (exists printed,
      Helpers.check_ret true
        (Helpers.PTuple [Helpers.PInt 2; Helpers.PStr "W1"])
        "AreaObj.SetWall(W1)" Helpers.default_ok_codes
      = Helpers.Exits printed)
  /\ (forall ret_val ok_codes,
      Helpers.check_ret false ret_val "AreaObj.SetWall(W1)" ok_codes
      = Helpers.Exits []).
Proof.
  apply (C4_SetWall_return_code "AreaObj.SetWall(W1)" [Helpers.PStr "W1"]).
  reflexivity.
Defined.

(** ** Story drifts *)

Section DriftLoop.
Import DriftResults DriftSpec.
Local Open Scope nat_scope.
Variable round4 : float -> float.
Variable ret : story_drifts_ret.

Ltac split_rows :=
  repeat match goal with
         | H : context [match nth_error ?l ?i with _ => _ end] |- _ =>
             destruct (nth_error l i) eqn:?; cbn [bind] in H;
             try discriminate H
         end.

Lemma loop_body_done (i : nat) (st st' : list drift_record * max_drift) :
  loop_body round4 ret i st = Done st' ->
  exists r,
    row_of round4 ret i r
    /\ fst st' = fst st ++ [r]
    /\ snd st' = update_max (snd st) (direction r) (to_permil (drift_rad r)) i.
Proof.
  unfold loop_body, at_index. intros H. split_rows.
  injection H as <-. eexists. split; [| split]; [| reflexivity | reflexivity].
  unfold row_of. simpl. repeat split; try assumption.
  eexists. split; [eassumption | reflexivity].
Qed.

Lemma tracked_app (axis : dir_key) (records : list drift_record)
    (r : drift_record) (stored : float * option nat) :
  tracked axis records stored -> tracked axis (records ++ [r]) stored.
Proof.
  intros Ht idx Hidx. destruct (Ht idx Hidx) as (r0 & Hn & Hv & Hd).
  exists r0. split; [| split; assumption].
  rewrite nth_error_app1; [exact Hn |].
  apply nth_error_Some. rewrite Hn. discriminate.
Qed.

Lemma tracked_bump (records : list drift_record) (r : drift_record)
    (stored : float * option nat) :
  tracked (direction r) records stored ->
  tracked (direction r) (records ++ [r])
    (bump stored (to_permil (drift_rad r)) (List.length records)).
Proof.
  intros Ht. unfold bump.
  destruct (PrimFloat.ltb _ _).
  - intros idx Hidx. simpl in Hidx. injection Hidx as <-.
    exists r. simpl. repeat split.
    rewrite nth_error_app2 by lia. rewrite Nat.sub_diag. reflexivity.
  - apply tracked_app. exact Ht.
Qed.

Lemma tracked_update (records : list drift_record) (r : drift_record)
    (md : max_drift) :
  tracked DirX records (max_X md) -> tracked DirY records (max_Y md) ->
  let md' := update_max md (direction r) (to_permil (drift_rad r))
               (List.length records) in
  tracked DirX (records ++ [r]) (max_X md')
  /\ tracked DirY (records ++ [r]) (max_Y md').
Proof.
  intros HX HY. unfold update_max.
  destruct (direction r) eqn:Hd; simpl; split;
    try (apply tracked_app; assumption).
  - rewrite <- Hd. apply tracked_bump. rewrite Hd. exact HX.
  - rewrite <- Hd. apply tracked_bump. rewrite Hd. exact HY.
Qed.

Lemma loop_inv_init : loop_inv round4 ret 0 ([], max_drift_init).
Proof.
  unfold loop_inv. simpl. split; [reflexivity | split; [| split]].
  - intros j r H. destruct j; discriminate H.
  - intros idx H. discriminate H.
  - intros idx H. discriminate H.
Qed.

Lemma loop_inv_step (i : nat) (st st' : list drift_record * max_drift) :
  loop_inv round4 ret i st -> loop_body round4 ret i st = Done st' ->
  loop_inv round4 ret (S i) st'.
Proof.
  intros (Hlen & Hrows & HX & HY) Hb.
  destruct (loop_body_done i st st' Hb) as (r & Hr & Hf & Hs).
  unfold loop_inv. rewrite Hf, Hs.
  split; [| split].
  - rewrite length_app. simpl. lia.
  - intros j r0 Hj.
    destruct (Nat.lt_ge_cases j (List.length (fst st))) as [Hlt | Hge].
    + rewrite nth_error_app1 in Hj by exact Hlt. apply Hrows. exact Hj.
    + rewrite nth_error_app2 in Hj by exact Hge.
      destruct (j - List.length (fst st)) as [| k] eqn:Hk.
      * simpl in Hj. injection Hj as <-.
        replace j with i by lia. exact Hr.
      * simpl in Hj. destruct k; discriminate Hj.
  - rewrite <- Hlen. apply tracked_update; assumption.
Qed.

Lemma loop_inv_end (count i : nat) (st st' : list drift_record * max_drift) :
  loop_inv round4 ret i st -> loop round4 ret i count st = Done st' ->
  loop_inv round4 ret (i + count) st'.
Proof.
  revert i st. induction count as [| count IH]; intros i st Hinv Hl.
  - simpl in Hl. injection Hl as <-. rewrite Nat.add_0_r. exact Hinv.
  - simpl in Hl. destruct (loop_body round4 ret i st) as [st1 | e |] eqn:Hb;
      simpl in Hl; try discriminate Hl.
    replace (i + S count) with (S i + count) by lia.
    apply (IH (S i) st1); [| exact Hl].
    apply (loop_inv_step i st); assumption.
Qed.

End DriftLoop.

Section DriftSummary.
Import DriftResults DriftSpec.
Local Open Scope nat_scope.
Variable DRIFT_LIMIT_PERMIL : float.
Variable round4 : float -> float.

Lemma axis_summary_some (axis : dir_key) (records : list drift_record)
    (stored : float * option nat) (info : max_info) :
  tracked axis records stored ->
  axis_summary DRIFT_LIMIT_PERMIL records stored = Done (Some info) ->
  exists r,
    In r records /\ direction r = axis
    /\ value_permil info = to_permil (drift_rad r)
    /\ abs_value_permil info = PrimFloat.abs (value_permil info)
    /\ is_ok info
       = PrimFloat.leb (PrimFloat.abs (value_permil info)) DRIFT_LIMIT_PERMIL
    /\ info_story info = story r /\ info_load_case info = load_case r
    /\ info_limit_permil info = DRIFT_LIMIT_PERMIL.
Proof.
  intros Ht H. unfold axis_summary in H.
  destruct (snd stored) as [idx |] eqn:Hidx; [| discriminate H].
  destruct (PrimFloat.eqb _ _); [discriminate H |].
  destruct (Ht idx Hidx) as (r & Hn & Hv & Hd).
  unfold at_index in H. rewrite Hn in H. simpl in H.
  injection H as <-. exists r. simpl.
  repeat split; try assumption; try reflexivity.
  apply nth_error_In with idx. exact Hn.
Qed.

Lemma tabulate_inv (ret : story_drifts_ret) (load_cases : list string)
    (res : drift_result) :
  tabulate DRIFT_LIMIT_PERMIL round4 ret load_cases = Done res ->
  (ret_num_results ret = 0%Z /\ res = NoData DRIFT_LIMIT_PERMIL)
  \/ (ret_num_results ret <> 0%Z /\
      exists st ex ey,
        loop round4 ret 0 (Z.to_nat (ret_num_results ret))
          ([], max_drift_init) = Done st
        /\ axis_summary DRIFT_LIMIT_PERMIL (fst st) (max_X (snd st)) = Done ex
        /\ axis_summary DRIFT_LIMIT_PERMIL (fst st) (max_Y (snd st)) = Done ey
        /\ res = Summary (fst st) (ret_num_results ret) load_cases
                   DRIFT_LIMIT_PERMIL ex ey
                   (if all_ok [ex; ey] then MeetsCode else ExceedsLimit)).
Proof.
  unfold tabulate. intros H.
  destruct (Z.eqb (ret_num_results ret) 0) eqn:Hz.
  - left. apply Z.eqb_eq in Hz. injection H as <-. split; [exact Hz | reflexivity].
  - right. apply Z.eqb_neq in Hz. split; [exact Hz |].
    destruct (loop round4 ret 0 _ _) as [st | e |] eqn:Hl; simpl in H;
      try discriminate H.
    destruct (axis_summary _ (fst st) (max_X (snd st))) as [ex | e |] eqn:Hx;
      simpl in H; try discriminate H.
    destruct (axis_summary _ (fst st) (max_Y (snd st))) as [ey | e |] eqn:Hy;
      simpl in H; try discriminate H.
    injection H as <-. exists st, ex, ey. repeat split; assumption.
Qed.

Lemma extract_inv (system_loaded : bool) (m : sap_model)
    (load_cases : option (list string)) (res : drift_result) :
  extract_story_drifts DRIFT_LIMIT_PERMIL round4 system_loaded m load_cases
  = Done res ->
  exists ret,
    call_StoryDrifts m = Done ret
    /\ tabulate DRIFT_LIMIT_PERMIL round4 ret (requested load_cases)
       = Done res.
Proof.
  unfold extract_story_drifts. intros H.
  destruct (negb (Results_available m)); [discriminate H |].
  destruct (checked _) as [[] | e |]; simpl in H; try discriminate H.
  destruct (select_cases _ _ _) as [[] | e |]; simpl in H;
    try discriminate H.
  destruct (match Drift m with Some _ => _ | None => _ end)
    as [[] | e |]; simpl in H; try discriminate H.
  destruct (call_StoryDrifts m) as [ret | e |]; simpl in H;
    try discriminate H.
  destruct (checked _) as [[] | e |]; simpl in H; try discriminate H.
  exists ret. split; [reflexivity | exact H].
Qed.

Lemma summary_rows_tracked (ret : story_drifts_ret)
    (st : list drift_record * max_drift) :
  loop round4 ret 0 (Z.to_nat (ret_num_results ret)) ([], max_drift_init)
  = Done st ->
  loop_inv round4 ret (Z.to_nat (ret_num_results ret)) st.
Proof.
  intros H.
  apply (loop_inv_end round4 ret _ 0 ([], max_drift_init) st);
    [apply loop_inv_init | exact H].
Qed.

End DriftSummary.

Section DriftClaims.
Import DriftResults DriftSpec.
Local Open Scope nat_scope.



(** From a returned summary back to the loop that produced it. *)
Lemma summary_inv (limit : float) (round4 : float -> float)
    (system_loaded : bool) (m : sap_model) (load_cases : option (list string))
    (ret : story_drifts_ret) (records : list drift_record) (total : Z)
    (cases : list string) (lim : float) (ex ey : option max_info)
    (verdict : overall) :
  call_StoryDrifts m = Done ret ->
  extract_story_drifts limit round4 system_loaded m load_cases
  = Done (Summary records total cases lim ex ey verdict) ->
  exists md,
    ret_num_results ret <> 0%Z
    /\ loop round4 ret 0 (Z.to_nat (ret_num_results ret)) ([], max_drift_init)
       = Done (records, md)
    /\ loop_inv round4 ret (Z.to_nat (ret_num_results ret)) (records, md)
    /\ axis_summary limit records (max_X md) = Done ex
    /\ axis_summary limit records (max_Y md) = Done ey
    /\ verdict = (if all_ok [ex; ey] then MeetsCode else ExceedsLimit).
Proof.
  intros Hcall Hrun.
  destruct (extract_inv _ _ _ _ _ _ Hrun) as (ret' & Hcall' & Htab).
  rewrite Hcall in Hcall'. injection Hcall' as <-.
  destruct (tabulate_inv _ _ _ _ _ Htab) as [[_ Hno] | [Hnz H]];
    [discriminate Hno |].
  destruct H as (st & ex' & ey' & Hloop & Hx & Hy & Hres).
  injection Hres as -> _ _ _ -> -> ->.
  destruct st as [recs md]. simpl in *.
  pose proof (summary_rows_tracked round4 ret (recs, md) Hloop) as Hinv.
  exists md.
  split; [exact Hnz |]. split; [exact Hloop |]. split; [exact Hinv |].
  split; [exact Hx |]. split; [exact Hy | reflexivity].
Qed.



End DriftClaims.

Section DriftInsensitivity.
Import DriftResults DriftSpec.
Local Open Scope nat_scope.
Variable round4 : float -> float.

Lemma update_max_unknown (md : max_drift) (permil : float) (i : nat) :
  update_max md DirUnknown permil i = md.
Proof. reflexivity. Qed.

(** One iteration on two returned tuples that agree on their X and Y rows
    moves equal maxima to equal maxima. *)
Lemma loop_body_agree (ret1 ret2 : story_drifts_ret) (i : nat)
    (st1 st2 st1' st2' : list drift_record * max_drift) :
  same_up_to_unknown_rows ret1 ret2 ->
  snd st1 = snd st2 ->
  loop_body round4 ret1 i st1 = Done st1' ->
  loop_body round4 ret2 i st2 = Done st2' ->
  snd st1' = snd st2'.
Proof.
  intros (_ & Hdir & Hrows) Hmd H1 H2.
  destruct (loop_body_done round4 ret1 i st1 st1' H1)
    as (r1 & (Hd1 & (raw1 & Hraw1 & Hk1) & _) & _ & Hs1).
  destruct (loop_body_done round4 ret2 i st2 st2' H2)
    as (r2 & (Hd2 & (raw2 & Hraw2 & Hk2) & _) & _ & Hs2).
  rewrite Hs1, Hs2, Hmd.
  rewrite <- Hdir in Hraw2. rewrite Hraw1 in Hraw2. injection Hraw2 as <-.
  rewrite Hk1, Hk2.
  destruct (classify_direction raw1) eqn:Hc.
  - assert (Hnu : classify_direction raw1 <> DirUnknown)
      by (rewrite Hc; discriminate).
    destruct (Hrows i raw1 Hraw1 Hnu) as (He & _ & _).
    rewrite Hd1, Hd2 in He. injection He as ->. reflexivity.
  - assert (Hnu : classify_direction raw1 <> DirUnknown)
      by (rewrite Hc; discriminate).
    destruct (Hrows i raw1 Hraw1 Hnu) as (He & _ & _).
    rewrite Hd1, Hd2 in He. injection He as ->. reflexivity.
  - reflexivity.
Qed.

Lemma loop_agree (ret1 ret2 : story_drifts_ret) (count i : nat)
    (st1 st2 st1' st2' : list drift_record * max_drift) :
  same_up_to_unknown_rows ret1 ret2 ->
  snd st1 = snd st2 ->
  loop round4 ret1 i count st1 = Done st1' ->
  loop round4 ret2 i count st2 = Done st2' ->
  snd st1' = snd st2'.
Proof.
  intros Hsame. revert i st1 st2.
  induction count as [| count IH]; intros i st1 st2 Hmd H1 H2.
  - simpl in H1, H2. injection H1 as <-. injection H2 as <-. exact Hmd.
  - simpl in H1, H2.
    destruct (loop_body round4 ret1 i st1) as [s1 | e |] eqn:B1;
      simpl in H1; try discriminate H1.
    destruct (loop_body round4 ret2 i st2) as [s2 | e |] eqn:B2;
      simpl in H2; try discriminate H2.
    apply (IH (S i) s1 s2); try assumption.
    apply (loop_body_agree ret1 ret2 i st1 st2); assumption.
Qed.

(** Equal stored maxima over the record lists of two such tuples give the
    same entry: the row a maximum points at is an X or Y row. *)
Lemma axis_summary_agree (limit : float) (ret1 ret2 : story_drifts_ret)
    (axis : dir_key) (recs1 recs2 : list drift_record)
    (stored : float * option nat) (e1 e2 : option max_info) :
  axis <> DirUnknown ->
  same_up_to_unknown_rows ret1 ret2 ->
  (forall j r, nth_error recs1 j = Some r -> row_of round4 ret1 j r) ->
  (forall j r, nth_error recs2 j = Some r -> row_of round4 ret2 j r) ->
  tracked axis recs1 stored ->
  axis_summary limit recs1 stored = Done e1 ->
  axis_summary limit recs2 stored = Done e2 ->
  e1 = e2.
Proof.
  intros Hax (_ & _ & Hrows) Hr1 Hr2 Ht H1 H2.
  unfold axis_summary in H1, H2.
  destruct (snd stored) as [idx |] eqn:Hidx.
  - destruct (PrimFloat.eqb _ _).
    + injection H1 as <-. injection H2 as <-. reflexivity.
    + unfold at_index in H1, H2.
      destruct (nth_error recs1 idx) as [i1 |] eqn:N1; simpl in H1;
        [| discriminate H1].
      destruct (nth_error recs2 idx) as [i2 |] eqn:N2; simpl in H2;
        [| discriminate H2].
      destruct (Ht idx Hidx) as (r & Hn & _ & Hd).
      rewrite N1 in Hn. injection Hn as <-.
      destruct (Hr1 idx i1 N1) as (_ & (raw & Hraw & Hk) & S1 & C1 & _).
      destruct (Hr2 idx i2 N2) as (_ & _ & S2 & C2 & _).
      assert (Hnu : classify_direction raw <> DirUnknown)
        by (rewrite <- Hk, Hd; exact Hax).
      destruct (Hrows idx raw Hraw Hnu) as (_ & Es & Ec).
      rewrite S1, S2 in Es. rewrite C1, C2 in Ec.
      injection Es as Es. injection Ec as Ec.
      injection H1 as <-. injection H2 as <-. rewrite Es, Ec. reflexivity.
  - injection H1 as <-. injection H2 as <-. reflexivity.
Qed.

(** A row whose drift is a floating-point zero never replaces the initial
    entry [(0.0, None)]. *)
Lemma bump_zero (d : float) (i : nat) :
  d = 0%float \/ d = (-0)%float ->
  bump (0%float, None) (to_permil d) i = (0%float, None).
Proof. intros [-> | ->]; reflexivity. Qed.

Lemma loop_body_zero (ret : story_drifts_ret) (i : nat)
    (st st' : list drift_record * max_drift) :
  no_nonzero_XY_row ret ->
  snd st = max_drift_init ->
  loop_body round4 ret i st = Done st' ->
  snd st' = max_drift_init.
Proof.
  intros Hz Hmd Hb.
  destruct (loop_body_done round4 ret i st st' Hb)
    as (r & (Hd & (raw & Hraw & Hk) & _) & _ & Hs).
  rewrite Hs, Hmd, Hk.
  destruct (classify_direction raw) eqn:Hc; [| | reflexivity].
  - assert (Hnu : classify_direction raw <> DirUnknown)
      by (rewrite Hc; discriminate).
    unfold update_max, max_drift_init. simpl.
    rewrite (bump_zero _ i (Hz i raw _ Hraw Hnu Hd)). reflexivity.
  - assert (Hnu : classify_direction raw <> DirUnknown)
      by (rewrite Hc; discriminate).
    unfold update_max, max_drift_init. simpl.
    rewrite (bump_zero _ i (Hz i raw _ Hraw Hnu Hd)). reflexivity.
Qed.

Lemma loop_zero (ret : story_drifts_ret) (count i : nat)
    (st st' : list drift_record * max_drift) :
  no_nonzero_XY_row ret ->
  snd st = max_drift_init ->
  loop round4 ret i count st = Done st' ->
  snd st' = max_drift_init.
Proof.
  intros Hz. revert i st.
  induction count as [| count IH]; intros i st Hmd Hl.
  - simpl in Hl. injection Hl as <-. exact Hmd.
  - simpl in Hl.
    destruct (loop_body round4 ret i st) as [s1 | e |] eqn:B1;
      simpl in Hl; try discriminate Hl.
    apply (IH (S i) s1); [| exact Hl].
    apply (loop_body_zero ret i st); assumption.
Qed.

(** On a tuple whose columns all have [num_results] entries the loop runs
    to its end. *)
Lemma at_index_lt {A : Type} (l : list A) (i : nat) :
  i < List.length l -> exists a, at_index l i = Done a.
Proof.
  intros Hlt. unfold at_index.
  destruct (nth_error l i) as [a |] eqn:Hn.
  - exists a. reflexivity.
  - apply nth_error_None in Hn. lia.
Qed.

Lemma loop_body_total (ret : story_drifts_ret) (i : nat)
    (st : list drift_record * max_drift) :
  well_formed ret -> i < Z.to_nat (ret_num_results ret) ->
  exists st', loop_body round4 ret i st = Done st'.
Proof.
  intros (L1 & L2 & L3 & L4 & L5 & L6 & L7 & L8 & L9 & L10) Hi.
  unfold loop_body.
  destruct (at_index_lt (column (ret_drift ret)) i) as (d & ->); [lia |].
  destruct (at_index_lt (column (ret_direction ret)) i) as (raw & ->);
    [lia |].
  destruct (at_index_lt (column (ret_story ret)) i) as (s & ->); [lia |].
  destruct (at_index_lt (column (ret_case ret)) i) as (c & ->); [lia |].
  destruct (at_index_lt (column (ret_steptype ret)) i) as (tp & ->); [lia |].
  destruct (at_index_lt (column (ret_stepnum ret)) i) as (no & ->); [lia |].
  destruct (at_index_lt (column (ret_label ret)) i) as (lb & ->); [lia |].
  destruct (at_index_lt (column (ret_x ret)) i) as (vx & ->); [lia |].
  destruct (at_index_lt (column (ret_y ret)) i) as (vy & ->); [lia |].
  destruct (at_index_lt (column (ret_z ret)) i) as (vz & ->); [lia |].
  simpl. eexists. reflexivity.
Qed.

Lemma loop_total (ret : story_drifts_ret) (count i : nat)
    (st : list drift_record * max_drift) :
  well_formed ret -> i + count <= Z.to_nat (ret_num_results ret) ->
  exists st', loop round4 ret i count st = Done st'.
Proof.
  intros Hwf. revert i st.
  induction count as [| count IH]; intros i st Hle.
  - exists st. reflexivity.
  - simpl.
    destruct (loop_body_total ret i st Hwf) as (s1 & ->); [lia |].
    simpl. apply IH. lia.
Qed.

End DriftInsensitivity.

Section DriftUnknownRows.
Import DriftResults DriftSpec.
Local Open Scope nat_scope.

(** C10.  (1) Two returned tuples that differ only in rows whose direction
    token is neither X nor Y (whatever those rows hold) give the same
    [max_drift_X], [max_drift_Y] and [overall_status].  (2) When
    [num_results] is not 0 and no X or Y row has a non-zero drift, a returned
    result has [max_drift_X = max_drift_Y = None] and the passing status;
    (3) and on a tuple whose columns all have [num_results] entries that
    result is indeed returned. *)
Theorem C10_unknown_rows_and_empty_maxima (limit : float)
    (round4 : float -> float) :
  (forall sl1 sl2 m1 m2 lcs1 lcs2 ret1 ret2
          recs1 recs2 t1 t2 c1 c2 l1 l2 ex1 ex2 ey1 ey2 v1 v2,
      call_StoryDrifts m1 = Done ret1 ->
      call_StoryDrifts m2 = Done ret2 ->
      same_up_to_unknown_rows ret1 ret2 ->
      extract_story_drifts limit round4 sl1 m1 lcs1
      = Done (Summary recs1 t1 c1 l1 ex1 ey1 v1) ->
      extract_story_drifts limit round4 sl2 m2 lcs2
      = Done (Summary recs2 t2 c2 l2 ex2 ey2 v2) ->
      ex1 = ex2 /\ ey1 = ey2 /\ v1 = v2)
  /\ (forall sl m lcs ret res,
      call_StoryDrifts m = Done ret ->
      ret_num_results ret <> 0%Z ->
      no_nonzero_XY_row ret ->
      extract_story_drifts limit round4 sl m lcs = Done res ->
      exists records total cases,
        res = Summary records total cases limit None None MeetsCode)
  /\ (forall ret cases,
      ret_num_results ret <> 0%Z ->
      well_formed ret ->
      no_nonzero_XY_row ret ->
      exists records,
        tabulate limit round4 ret cases
        = Done (Summary records (ret_num_results ret) cases limit
                  None None MeetsCode)).
Proof.
  split; [| split].
  - intros sl1 sl2 m1 m2 lcs1 lcs2 ret1 ret2 recs1 recs2 t1 t2 c1 c2 l1 l2
      ex1 ex2 ey1 ey2 v1 v2 Hc1 Hc2 Hsame H1 H2.
    destruct (summary_inv _ _ _ _ _ _ _ _ _ _ _ _ _ Hc1 H1)
      as (md1 & _ & Hl1 & (_ & Hr1 & HX1 & HY1) & Hx1 & Hy1 & Hv1).
    destruct (summary_inv _ _ _ _ _ _ _ _ _ _ _ _ _ Hc2 H2)
      as (md2 & _ & Hl2 & (_ & Hr2 & _ & _) & Hx2 & Hy2 & Hv2).
    simpl in Hr1, Hr2, HX1, HY1.
    pose proof Hsame as (Hn & _).
    rewrite <- Hn in Hl2.
    assert (Hmd : md1 = md2).
    { apply (loop_agree round4 ret1 ret2
               (Z.to_nat (ret_num_results ret1)) 0 ([], max_drift_init)
               ([], max_drift_init) (recs1, md1) (recs2, md2));
        [exact Hsame | reflexivity | exact Hl1 | exact Hl2]. }
    subst md2.
    assert (Ex : ex1 = ex2)
      by (apply (axis_summary_agree round4 limit ret1 ret2 DirX recs1 recs2
                   (max_X md1)); try assumption; discriminate).
    assert (Ey : ey1 = ey2)
      by (apply (axis_summary_agree round4 limit ret1 ret2 DirY recs1 recs2
                   (max_Y md1)); try assumption; discriminate).
    subst. repeat split; reflexivity.
  - intros sl m lcs ret res Hc Hnz Hzero Hrun.
    destruct (extract_inv _ _ _ _ _ _ Hrun) as (ret' & Hc' & Htab).
    rewrite Hc in Hc'. injection Hc' as <-.
    destruct (tabulate_inv _ _ _ _ _ Htab) as [[Hz _] | [_ H]];
      [contradiction |].
    destruct H as (st & ex & ey & Hloop & Hx & Hy & ->).
    pose proof (loop_zero round4 ret _ 0 ([], max_drift_init) st Hzero
                  eq_refl Hloop) as Hmd.
    rewrite Hmd in Hx, Hy. simpl in Hx, Hy.
    injection Hx as <-. injection Hy as <-.
    do 3 eexists. reflexivity.
  - intros ret cases Hnz Hwf Hzero.
    destruct (loop_total round4 ret (Z.to_nat (ret_num_results ret)) 0
                ([], max_drift_init) Hwf) as (st & Hloop); [lia |].
    pose proof (loop_zero round4 ret _ 0 ([], max_drift_init) st Hzero
                  eq_refl Hloop) as Hmd.
    exists (fst st). unfold tabulate.
    replace (Z.eqb (ret_num_results ret) 0) with false
      by (symmetry; apply Z.eqb_neq; exact Hnz).
    rewrite Hloop. simpl. rewrite Hmd. reflexivity.
Qed.

Lemma unknown_token_RZ : classify_direction "RZ" = DirUnknown.
Proof. reflexivity. Qed.

(** The direction tokens, in any case and with blanks around them. *)
Lemma classify_direction_tokens :
  map classify_direction ["U1"; "UX"; "X"; "ux"; " x "]%string
  = [DirX; DirX; DirX; DirX; DirX]
  /\ map classify_direction ["U2"; "UY"; "Y"; "u2"; "Y  "]%string
     = [DirY; DirY; DirY; DirY; DirY]
  /\ map classify_direction ["U3"; "RZ"; "Z"; ""; "U 1"]%string
     = [DirUnknown; DirUnknown; DirUnknown; DirUnknown; DirUnknown].
Proof. repeat split; reflexivity. Qed.

Lemma C10_unknown_rows_and_empty_maxima_witness :
  (same_up_to_unknown_rows
     (two_row_ret 0.0012%float "U1" 0.5%float "RZ")
     (two_row_ret 0.0012%float "U1" 0.9%float "RZ")
   /\ well_formed (two_row_ret 0%float "U1" 0.5%float "RZ")
   /\ no_nonzero_XY_row (two_row_ret 0%float "U1" 0.5%float "RZ"))
  /\ exists records,
       tabulate 1%float (fun v => v)
         (two_row_ret 0%float "U1" 0.5%float "RZ") ["RS-X"%string]
       = Done (Summary records 2%Z ["RS-X"%string] 1%float
                 None None MeetsCode).
Proof.
  assert (Hz : no_nonzero_XY_row (two_row_ret 0%float "U1" 0.5%float "RZ")).
  { intros i raw d Hraw Hk Hd.
    destruct i as [| [| i]]; simpl in Hraw, Hd.
    - injection Hd as <-. left. reflexivity.
    - injection Hraw as <-. exfalso. apply Hk. reflexivity.
    - destruct i; discriminate Hraw. }
  assert (Hw : well_formed (two_row_ret 0%float "U1" 0.5%float "RZ"))
    by (unfold well_formed; simpl; repeat split; reflexivity).
  split.
  - split; [| split; assumption].
    unfold same_up_to_unknown_rows. simpl.
    split; [reflexivity |]. split; [reflexivity |].
    intros i raw Hraw Hk.
    destruct i as [| [| i]]; simpl in Hraw |- *.
    + repeat split; reflexivity.
    + injection Hraw as <-. exfalso. apply Hk. reflexivity.
    + destruct i; discriminate Hraw.
  - apply (proj2 (proj2
      (C10_unknown_rows_and_empty_maxima 1%float (fun v => v)))).
    + simpl. discriminate.
    + exact Hw.
    + exact Hz.
Defined.

End DriftUnknownRows.

(** ** Shear-wall layout *)

Section ShearWallLayout.
Import Config Py GeometryCommon ShearWallGeometry GeometrySpec.
Local Open Scope R_scope.



Lemma combine_map_self {A B : Type} (f : A -> B) (l : list A) :
  combine l (map f l) = map (fun i => (i, f i)) l.
Proof. induction l as [| a l IH]; simpl; [| rewrite IH]; reflexivity. Qed.

Lemma enumerate_grid (f : nat -> R) (n : nat) :
  enumerate (map f (seq 0 n)) = map (fun i => (i, f i)) (seq 0 n).
Proof.
  unfold enumerate. rewrite length_map, length_seq. apply combine_map_self.
Qed.

Lemma item_grid (f : nat -> R) (n i : nat) :
  (i < n)%nat -> item (map f (seq 0 n)) i = f i.
Proof.
  intros Hi. unfold item.
  rewrite (nth_indep _ 0 (f 0%nat)) by (rewrite length_map, length_seq; exact Hi).
  rewrite map_nth, seq_nth by exact Hi. reflexivity.
Qed.








Lemma layout_unfold (cfg : config) :
  generate_shear_wall_planar_layout cfg
  = (flat_map (fun iy =>
                 flat_map (horizontal_bay cfg
                             (fst (generate_grid_coordinates cfg)) iy
                             (INR iy * SPACING_Y cfg))
                          (seq 0 (NUM_GRID_LINES_X cfg - 1)))
              (seq 0 (NUM_GRID_LINES_Y cfg))
     ++ flat_map (fun ix =>
                    flat_map (vertical_bay cfg
                                (snd (generate_grid_coordinates cfg)) ix
                                (INR ix * SPACING_X cfg))
                             (seq 0 (NUM_GRID_LINES_Y cfg - 1)))
                 (seq 0 (NUM_GRID_LINES_X cfg)))%list.
Proof.
  unfold generate_shear_wall_planar_layout, generate_grid_coordinates.
  cbn [fst snd]. rewrite !enumerate_grid, !flat_map_concat_map, !map_map.
  reflexivity.
Qed.




(** The configured bay of 6 m in binary64: the cuts fall on 2 m and 4 m. *)
Lemma thirds_of_six_metres_binary64 :
  PrimFloat.mul 6%float (PrimFloat.div 1%float 3%float) = 2%float
  /\ PrimFloat.mul (PrimFloat.mul 6%float 2%float)
       (PrimFloat.div 1%float 3%float) = 4%float
  /\ PrimFloat.add 12%float
       (PrimFloat.mul 6%float (PrimFloat.div 1%float 3%float)) = 14%float.
Proof. repeat split; reflexivity. Qed.

End ShearWallLayout.

(** ** Mesh grids *)

Section MeshGrids.
Import Py MeshUtils GeometrySpec.
Local Open Scope R_scope.

Lemma grid_loop_length {A : Type} (h v : nat) (cell : nat -> nat -> A) :
  List.length (grid_loop h v cell) = (h * v)%nat.
Proof.
  unfold grid_loop. rewrite flat_map_constant_length with (c := v).
  - rewrite length_seq. reflexivity.
  - intros i _. rewrite length_map, length_seq. reflexivity.
Qed.












Ltac four_points H :=
  destruct H as [<- | [<- | [<- | [<- | []]]]].




Lemma positive_count (n : nat) : (0 < n)%nat -> Nat.eqb n 0 = false.
Proof. intros H. apply Nat.eqb_neq. lia. Qed.




End MeshGrids.

(** ** Frame columns and beams *)

Section FrameCounts.
Import Config Helpers Py GeometryCommon FrameGeometry.
Local Open Scope nat_scope.

Lemma check_ret_zero (func_name : string) :
  check_ret true (PInt 0) func_name default_ok_codes = Returns (PInt 0) [].
Proof. reflexivity. Qed.

Lemma create_frame_accepted (api : frame_api) (req : frame_request)
    (model : list frame_request) :
  api_accepts api ->
  exists name, create_frame true api req model = Done (name, model ++ [req]).
Proof.
  intros Hacc. destruct (Hacc req) as (rest & Hret).
  unfold create_frame, add_frame_by_coord_custom. cbn [negb]. rewrite Hret.
  cbn [bind fst snd]. rewrite check_ret_zero. cbn [checked bind].
  eexists. reflexivity.
Qed.

(** When every call is accepted, a list of calls is carried out to its end:
    one name per call, and the calls are the objects added. *)
Lemma execute_accepted (api : frame_api) (reqs : list frame_request) :
  api_accepts api ->
  forall model,
  exists names,
    execute true api (map Done reqs) model = Done (names, model ++ reqs)
    /\ List.length names = List.length reqs.
Proof.
  intros Hacc. induction reqs as [| req reqs IH]; intros model.
  - exists []. simpl. rewrite app_nil_r. split; reflexivity.
  - destruct (create_frame_accepted api req model Hacc) as (name & Hc).
    destruct (IH (model ++ [req])) as (names & He & Hl).
    exists (name :: names). cbn [map execute]. rewrite Hc.
    cbn [bind fst snd]. rewrite He. cbn [bind fst snd].
    rewrite <- app_assoc. simpl. split; [reflexivity | rewrite Hl; reflexivity].
Qed.

Lemma stories_length {A : Type} (cfg : config) (heights : nat -> option R)
    (per_story : nat -> R -> R -> A) (count story_num : nat) (cum_z : R) :
  List.length (stories cfg heights per_story story_num count cum_z) = count.
Proof.
  revert story_num cum_z. induction count as [| count IH]; intros s z.
  - reflexivity.
  - simpl. rewrite IH. reflexivity.
Qed.

Lemma stories_all {A : Type} (P : A -> Prop) (cfg : config)
    (heights : nat -> option R) (per_story : nat -> R -> R -> A)
    (count story_num : nat) (cum_z : R) :
  (forall s zb zt, P (per_story s zb zt)) ->
  Forall P (stories cfg heights per_story story_num count cum_z).
Proof.
  intros HP. revert story_num cum_z.
  induction count as [| count IH]; intros s z; simpl; constructor;
    [apply HP | apply IH].
Qed.

Lemma concat_constant_length {A : Type} (c : nat) (l : list (list A)) :
  Forall (fun x => List.length x = c) l ->
  List.length (List.concat l) = List.length l * c.
Proof.
  induction 1 as [| x l Hx _ IH]; simpl; [reflexivity |].
  rewrite length_app, Hx, IH. reflexivity.
Qed.

Lemma enumerate_length {A : Type} (l : list A) :
  List.length (enumerate l) = List.length l.
Proof.
  unfold enumerate. rewrite length_combine, length_seq. apply Nat.min_id.
Qed.

Lemma grid_lengths (cfg : config) :
  List.length (fst (generate_grid_coordinates cfg)) = NUM_GRID_LINES_X cfg
  /\ List.length (snd (generate_grid_coordinates cfg)) = NUM_GRID_LINES_Y cfg.
Proof.
  unfold generate_grid_coordinates. cbn [fst snd].
  rewrite !length_map, !length_seq. split; reflexivity.
Qed.

Lemma all_intersections_length (grid_x grid_y : list R) :
  List.length (all_intersections grid_x grid_y)
  = List.length grid_x * List.length grid_y.
Proof.
  unfold all_intersections.
  rewrite flat_map_constant_length with (c := List.length grid_y).
  - rewrite enumerate_length. reflexivity.
  - intros [i x] _. rewrite length_map. apply enumerate_length.
Qed.

Lemma story_columns_length (cfg : config)
    (positions : list (nat * nat * R * R)) (s : nat) (zb zt : R) :
  List.length (story_columns cfg positions s zb zt) = List.length positions.
Proof. unfold story_columns. apply length_map. Qed.

Lemma main_beams_x_length (cfg : config) (grid_x grid_y : list R) (z : R)
    (s : nat) :
  dict_get (BEAM_LAYOUT cfg) "MAIN_BEAMS_X" = true ->
  MAIN_BEAM_DIRECTION cfg = "BOTH"%string ->
  List.length (main_beams_x cfg grid_x grid_y z s)
  = List.length grid_y * (NUM_GRID_LINES_X cfg - 1).
Proof.
  intros Hx Hd. unfold main_beams_x. rewrite Hx, Hd. cbn [existsb andb].
  replace (String.eqb "BOTH" "X_ONLY" || (String.eqb "BOTH" "BOTH" || false))
    with true by reflexivity.
  rewrite flat_map_constant_length with (c := NUM_GRID_LINES_X cfg - 1).
  - rewrite enumerate_length. reflexivity.
  - intros [j y] _. rewrite length_map, length_seq. reflexivity.
Qed.

Lemma main_beams_y_length (cfg : config) (grid_x grid_y : list R) (z : R)
    (s : nat) :
  dict_get (BEAM_LAYOUT cfg) "MAIN_BEAMS_Y" = true ->
  MAIN_BEAM_DIRECTION cfg = "BOTH"%string ->
  List.length (main_beams_y cfg grid_x grid_y z s)
  = List.length grid_x * (NUM_GRID_LINES_Y cfg - 1).
Proof.
  intros Hy Hd. unfold main_beams_y. rewrite Hy, Hd. cbn [existsb andb].
  replace (String.eqb "BOTH" "Y_ONLY" || (String.eqb "BOTH" "BOTH" || false))
    with true by reflexivity.
  rewrite flat_map_constant_length with (c := NUM_GRID_LINES_Y cfg - 1).
  - rewrite enumerate_length. reflexivity.
  - intros [i x] _. rewrite length_map, length_seq. reflexivity.
Qed.






End FrameCounts.

(** ** Secondary beams *)

Section SecondaryBeams.
Import Config Helpers Py GeometryCommon FrameGeometry GeometrySpec.
Local Open Scope R_scope.

Lemma num_secondary_ge_1 (cfg : config) (span_length : R) :
  (1 <= num_secondary cfg span_length)%Z.
Proof. unfold num_secondary. apply Z.le_max_l. Qed.

Lemma IZR_num (n : Z) : (1 <= n)%Z -> IZR n = INR (Z.to_nat n).
Proof. intros Hn. rewrite INR_IZR_INZ, Z2Nat.id by lia. reflexivity. Qed.

Lemma nth_error_map_seq {A : Type} (f : nat -> A) (start len k : nat) :
  (k < len)%nat ->
  nth_error (map f (seq start len)) k = Some (f (start + k)%nat).
Proof.
  intros Hk. apply map_nth_error.
  rewrite (nth_error_nth' _ 0%nat) by (rewrite length_seq; exact Hk).
  rewrite seq_nth by exact Hk. reflexivity.
Qed.


(** The beams of a bay whose secondary beams run in Y: the interior cuts of
    [[x1, x2]] into [num_secondary] equal parts. *)
Lemma bay_secondary_Y (cfg : config) (x1 x2 y1 y2 z_level : R)
    (i j story_num : nat) :
  SECONDARY_BEAM_DIRECTION cfg = "Y"%string ->
  SECONDARY_BEAM_SPACING cfg <> 0 ->
  let n := Z.to_nat (num_secondary cfg (x2 - x1)) in
  exists reqs,
    bay_secondary_beams cfg x1 x2 y1 y2 z_level i j story_num = map Done reqs
    /\ List.length reqs = (n - 1)%nat
    /\ forall k, (1 <= k)%nat -> (k < n)%nat ->
         exists r, nth_error reqs (k - 1) = Some r
           /\ fx1 r = cut x1 ((x2 - x1) / INR n) k /\ fx2 r = fx1 r
           /\ fy1 r = y1 /\ fy2 r = y2.
Proof.
  intros Hdir Hsp n. unfold bay_secondary_beams. rewrite Hdir.
  cbn [String.eqb Ascii.eqb Bool.eqb]. cbv iota.
  destruct (Req_dec_T (SECONDARY_BEAM_SPACING cfg) 0) as [E | _];
    [contradiction |].
  pose proof (num_secondary_ge_1 cfg (x2 - x1)) as Hge.
  destruct (Z.ltb 1 (num_secondary cfg (x2 - x1))) eqn:Hlt.
  - rewrite <- map_map with (g := Done). eexists. split; [reflexivity |].
    split; [rewrite length_map, length_seq; reflexivity |].
    intros k Hk1 Hkn. fold n.
    rewrite nth_error_map_seq by (fold n; lia).
    eexists. split; [reflexivity |]. cbn [fx1 fx2 fy1 fy2].
    replace (1 + (k - 1))%nat with k by lia.
    rewrite (IZR_num _ Hge). fold n. repeat split; reflexivity.
  - apply Z.ltb_ge in Hlt. exists []. split; [reflexivity |].
    assert (n = 1%nat) by (unfold n; lia).
    split; [simpl; lia |]. intros k Hk1 Hkn. lia.
Qed.


Lemma py_int_of_whole (v : R) (z : Z) :
  0 <= v -> v - 1 < IZR z <= v -> py_int v = z.
Proof.
  intros Hv Hz. unfold py_int.
  destruct (Rle_dec 0 v) as [_ | Hn]; [| contradiction].
  symmetry. apply Int_part_spec. exact Hz.
Qed.

Lemma num_secondary_six_metres : num_secondary config_frame (6 - 0) = 2%Z.
Proof.
  unfold num_secondary. cbn [SECONDARY_BEAM_SPACING config_frame].
  rewrite (py_int_of_whole ((6 - 0) / 3.0) 2); [reflexivity | lra |].
  simpl. lra.
Qed.


Lemma config_frame_spacing_nonzero : SECONDARY_BEAM_SPACING config_frame <> 0.
Proof. simpl. lra. Qed.




End SecondaryBeams.

(** ** The configured frame, secondary beams included *)

Section ConfiguredFrame.
Import Config Helpers Py GeometryCommon FrameGeometry GeometrySpec.
Local Open Scope R_scope.

Lemma all_calls_map (reqs : list frame_request) : all_calls (map Done reqs).
Proof.
  unfold all_calls. apply Forall_forall. intros it Hin.
  apply in_map_iff in Hin. destruct Hin as (req & <- & _).
  exists req. reflexivity.
Qed.

Lemma all_calls_unwrap (items : list (run frame_request)) :
  all_calls items -> exists reqs, items = map Done reqs.
Proof.
  induction 1 as [| it items (req & ->) _ (reqs & ->)].
  - exists []. reflexivity.
  - exists (req :: reqs). reflexivity.
Qed.

(** One secondary beam in each 6 m bay of the configured frame. *)
Lemma config_frame_bay (i j s : nat) (z : R) :
  (i < 4)%nat ->
  let grid_x := fst (generate_grid_coordinates config_frame) in
  let grid_y := snd (generate_grid_coordinates config_frame) in
  let bay := bay_secondary_beams config_frame
               (item grid_x i) (item grid_x (i + 1))
               (item grid_y j) (item grid_y (j + 1)) z i j s in
  all_calls bay /\ List.length bay = 1%nat.
Proof.
  intros Hi grid_x grid_y bay.
  destruct (bay_secondary_Y config_frame (item grid_x i) (item grid_x (i + 1))
              (item grid_y j) (item grid_y (j + 1)) z i j s eq_refl
              config_frame_spacing_nonzero) as (reqs & Hb & Hlen & _).
  fold bay in Hb. rewrite Hb. split; [apply all_calls_map |].
  rewrite length_map, Hlen.
  unfold grid_x, generate_grid_coordinates. cbn [fst NUM_GRID_LINES_X
    config_frame SPACING_X].
  rewrite !item_grid by lia.
  replace (INR (i + 1) * 6.0 - INR i * 6.0) with (6 - 0)
    by (rewrite Nat.add_1_r, S_INR; lra).
  rewrite num_secondary_six_metres. reflexivity.
Qed.

Lemma config_frame_secondary (s : nat) (z : R) :
  let grid_x := fst (generate_grid_coordinates config_frame) in
  let grid_y := snd (generate_grid_coordinates config_frame) in
  all_calls (secondary_beams config_frame grid_x grid_y z s)
  /\ List.length (secondary_beams config_frame grid_x grid_y z s) = 8%nat.
Proof.
  intros grid_x grid_y. unfold secondary_beams. split.
  - unfold all_calls. apply Forall_flat_map, Forall_forall. intros i Hi.
    apply Forall_flat_map, Forall_forall. intros j Hj.
    apply in_seq in Hi. cbn [NUM_GRID_LINES_X config_frame] in Hi.
    apply (config_frame_bay i j s z). lia.
  - rewrite flat_map_constant_length with (c := 2%nat);
      [rewrite length_seq; reflexivity |].
    intros i Hi. apply in_seq in Hi. cbn [NUM_GRID_LINES_X config_frame] in Hi.
    rewrite flat_map_constant_length with (c := 1%nat);
      [rewrite length_seq; reflexivity |].
    intros j Hj. apply (config_frame_bay i j s z). lia.
Qed.

(** When every item is a call and every call is accepted, the work is
    carried out to its end. *)
Lemma execute_all_calls (api : frame_api) (items : list (run frame_request))
    (model : list frame_request) :
  api_accepts api -> all_calls items ->
  exists names added,
    execute true api items model = Done (names, (model ++ added)%list)
    /\ List.length names = List.length items
    /\ List.length added = List.length items.
Proof.
  intros Hacc Hall. destruct (all_calls_unwrap items Hall) as (reqs & ->).
  destruct (execute_accepted api reqs Hacc model) as (names & He & Hl).
  exists names, reqs. rewrite length_map. repeat split; assumption.
Qed.

(** With the values of config/config_frame.py (secondary beams on, 3 m
    apart, in Y) each story has its 22 main beams followed by 8 secondary
    beams, and [create_frame_beams] creates 300 beams: the 220 main beams
    and 80 secondary ones. *)
Lemma config_frame_beams (api : frame_api) (heights : nat -> option R)
    (model : list frame_request) :
  api_accepts api ->
  exists names added,
    create_frame_beams config_frame true api heights model
    = Done (names, (model ++ added)%list)
    /\ List.length names = (220 + 80)%nat
    /\ List.length added = (220 + 80)%nat.
Proof.
  intros Hacc.
  set (grid_x := fst (generate_grid_coordinates config_frame)).
  set (grid_y := snd (generate_grid_coordinates config_frame)).
  assert (Hstory : forall s (zb zt : R),
             all_calls (story_beams config_frame grid_x grid_y s zt)
             /\ List.length (story_beams config_frame grid_x grid_y s zt)
                = 30%nat).
  { intros s zb zt.
    destruct (config_frame_secondary s zt) as [Hc Hl].
    fold grid_x grid_y in Hc, Hl.
    assert (Hm : List.length (main_beams config_frame grid_x grid_y zt s)
                 = 22%nat).
    { destruct (grid_lengths config_frame) as [Lx Ly].
      fold grid_x in Lx. fold grid_y in Ly. unfold main_beams.
      rewrite length_app, main_beams_x_length, main_beams_y_length
        by reflexivity.
      rewrite Lx, Ly. reflexivity. }
    unfold story_beams.
    replace (dict_get (BEAM_LAYOUT config_frame) "SECONDARY_BEAMS")
      with true by reflexivity.
    split.
    - unfold all_calls. apply Forall_app. split;
        [apply all_calls_map | exact Hc].
    - rewrite length_app, length_map, Hm, Hl. reflexivity. }
  set (plan := stories config_frame heights
                 (fun s (_ : R) zt =>
                    story_beams config_frame grid_x grid_y s zt) 1 10 0.0).
  assert (Hplan : beam_requests config_frame heights = plan) by reflexivity.
  assert (Hlen : Forall (fun l => List.length l = 30%nat) plan).
  { apply (stories_all (fun l => List.length l = 30%nat) config_frame heights
             (fun s (_ : R) zt =>
                story_beams config_frame grid_x grid_y s zt)).
    intros s zb zt. apply (Hstory s zb zt). }
  assert (Hcalls : all_calls (List.concat plan)).
  { unfold all_calls. apply Forall_concat.
    apply (stories_all (fun l => all_calls l) config_frame heights
             (fun s (_ : R) zt =>
                story_beams config_frame grid_x grid_y s zt)).
    intros s zb zt. apply (Hstory s zb zt). }
  destruct (execute_all_calls api (List.concat plan) model Hacc Hcalls)
    as (names & added & He & Hn & Ha).
  assert (Htot : List.length (List.concat plan) = (220 + 80)%nat).
  { rewrite (concat_constant_length 30) by exact Hlen.
    unfold plan. rewrite stories_length. reflexivity. }
  exists names, added. rewrite Hn, Ha.
  split; [| split; exact Htot].
  unfold create_frame_beams. rewrite Hplan. exact He.
Qed.

End ConfiguredFrame.

(** ** More on the return-code check *)

Section ReturnCodeCases.
Import Helpers.
Local Open Scope string_scope.


End ReturnCodeCases.

(** ** Object names and the allow-list *)

Section FrameNames.
Import Helpers Py NameSpec Config GeometryCommon FrameGeometry.
Local Open Scope string_scope.

Lemma no_lower_app (a b : string) :
  no_lower (a ++ b) = no_lower a && no_lower b.
Proof.
  induction a as [| c a IH]; [reflexivity |].
  cbn [append no_lower]. rewrite IH. apply andb_assoc.
Qed.

Lemma no_lower_digits (d : Decimal.uint) :
  no_lower (NilZero.string_of_uint d) = true.
Proof.
  assert (forall u, no_lower (NilEmpty.string_of_uint u) = true) as H.
  { induction u; cbn [NilEmpty.string_of_uint no_lower]; try rewrite IHu;
      reflexivity. }
  destruct d; try apply H. reflexivity.
Qed.

Lemma no_lower_str_nat (n : nat) : no_lower (str_nat n) = true.
Proof. apply no_lower_digits. Qed.

(** A keyword whose second character is a lower-case letter does not occur
    in a text without lower-case letters. *)
Lemma contains_no_lower (kw s : string) :
  second_is_lower kw = true -> no_lower s = true -> contains kw s = false.
Proof.
  intros Hk. induction s as [| c s IH]; intros Hs.
  - destruct kw as [| a [| b kw]]; try discriminate Hk. reflexivity.
  - cbn [no_lower] in Hs. apply andb_true_iff in Hs. destruct Hs as [Hc Hs].
    cbn [contains]. rewrite (IH Hs).
    destruct kw as [| a [| b kw]]; try discriminate Hk.
    cbn [second_is_lower] in Hk.
    cbn [prefix]. destruct (ascii_dec a c); [| reflexivity].
    destruct s as [| d s]; [reflexivity |].
    cbn [prefix]. destruct (ascii_dec b d) as [-> |]; [| reflexivity].
    cbn [no_lower] in Hs. rewrite Hk in Hs. discriminate Hs.
Qed.

Lemma benign_second_is_lower :
  forallb second_is_lower benign_keywords = true.
Proof. reflexivity. Qed.

(** No allow-listed keyword occurs in ["AddFrameByCoord(NAME)"] when
    [NAME] has no lower-case letter. *)
Lemma frame_call_not_benign (name : string) :
  no_lower name = true ->
  existsb (fun kw => contains kw ("AddFrameByCoord(" ++ name ++ ")"))
          benign_keywords = false.
Proof.
  intros Hn.
  assert (no_lower (name ++ ")") = true) as Hs.
  { rewrite no_lower_app, Hn. reflexivity. }
  assert (forall kw, second_is_lower kw = true ->
                     contains kw (name ++ ")") = false) as Hc.
  { intros kw Hk. apply contains_no_lower; assumption. }
  unfold benign_keywords. cbn [existsb].
  repeat match goal with
  | |- context [contains ?kw ("AddFrameByCoord(" ++ name ++ ")")] =>
      replace (contains kw ("AddFrameByCoord(" ++ name ++ ")"))
        with (contains kw (name ++ ")"))
        by (cbn; reflexivity);
      rewrite (Hc kw eq_refl)
  end.
  reflexivity.
Qed.

End FrameNames.

Section FrameStatusOne.
Import Helpers Py NameSpec Config GeometryCommon FrameGeometry.
Local Open Scope string_scope.

Ltac upper_name :=
  repeat (rewrite no_lower_app || rewrite no_lower_str_nat); reflexivity.

Lemma column_names_upper (cfg : config)
    (positions : list (nat * nat * R * R)) (s : nat) (zb zt : R)
    (req : frame_request) :
  In req (story_columns cfg positions s zb zt) ->
  no_lower (user_name req) = true.
Proof.
  unfold story_columns. intros Hin. apply in_map_iff in Hin.
  destruct Hin as ([[[i j] x] y] & <- & _). cbn [user_name]. upper_name.
Qed.

Lemma main_beam_names_upper (cfg : config) (grid_x grid_y : list R) (z : R)
    (s : nat) (req : frame_request) :
  In req (main_beams cfg grid_x grid_y z s) ->
  no_lower (user_name req) = true.
Proof.
  unfold main_beams. intros Hin. apply in_app_or in Hin.
  destruct Hin as [Hin | Hin].
  - unfold main_beams_x in Hin.
    destruct (dict_get (BEAM_LAYOUT cfg) "MAIN_BEAMS_X"
              && existsb (String.eqb (MAIN_BEAM_DIRECTION cfg))
                   ["X_ONLY"; "BOTH"]); [| destruct Hin].
    apply in_flat_map in Hin. destruct Hin as ([j y] & _ & Hin).
    apply in_map_iff in Hin. destruct Hin as (i & <- & _).
    cbn [user_name]. upper_name.
  - unfold main_beams_y in Hin.
    destruct (dict_get (BEAM_LAYOUT cfg) "MAIN_BEAMS_Y"
              && existsb (String.eqb (MAIN_BEAM_DIRECTION cfg))
                   ["Y_ONLY"; "BOTH"]); [| destruct Hin].
    apply in_flat_map in Hin. destruct Hin as ([i x] & _ & Hin).
    apply in_map_iff in Hin. destruct Hin as (j & <- & _).
    cbn [user_name]. upper_name.
Qed.

Lemma sec_beam_name_upper (i j k s : nat) :
  no_lower (sec_beam_name i j k s) = true.
Proof. unfold sec_beam_name. upper_name. Qed.

Lemma secondary_beam_names_upper (cfg : config) (grid_x grid_y : list R)
    (z : R) (s : nat) (req : frame_request) :
  In (Done req) (secondary_beams cfg grid_x grid_y z s) ->
  no_lower (user_name req) = true.
Proof.
  unfold secondary_beams. intros Hin.
  apply in_flat_map in Hin. destruct Hin as (i & _ & Hin).
  apply in_flat_map in Hin. destruct Hin as (j & _ & Hin).
  unfold bay_secondary_beams in Hin.
  destruct (String.eqb (SECONDARY_BEAM_DIRECTION cfg) "Y").
  - destruct (Req_dec_T (SECONDARY_BEAM_SPACING cfg) 0).
    + destruct Hin as [H | []]. discriminate H.
    + cbv zeta in Hin.
      destruct (Z.ltb 1 _); [| destruct Hin].
      apply in_map_iff in Hin. destruct Hin as (k & E & _).
      injection E as <-. cbn [user_name]. apply sec_beam_name_upper.
  - destruct (String.eqb (SECONDARY_BEAM_DIRECTION cfg) "X");
      [| destruct Hin].
    destruct (Req_dec_T (SECONDARY_BEAM_SPACING cfg) 0).
    + destruct Hin as [H | []]. discriminate H.
    + cbv zeta in Hin.
      destruct (Z.ltb 1 _); [| destruct Hin].
      apply in_map_iff in Hin. destruct Hin as (k & E & _).
      injection E as <-. cbn [user_name]. apply sec_beam_name_upper.
Qed.

Lemma in_concat_stories {A : Type} (cfg : config)
    (heights : nat -> option R) (per_story : nat -> R -> R -> list A)
    (count story_num : nat) (cum_z : R) (a : A) :
  In a (List.concat (stories cfg heights per_story story_num count cum_z)) ->
  exists s zb zt, In a (per_story s zb zt).
Proof.
  revert story_num cum_z.
  induction count as [| count IH]; intros s z Hin; [destruct Hin |].
  cbn [stories List.concat] in Hin. apply in_app_or in Hin.
  destruct Hin as [Hin | Hin]; [eauto | eapply IH; exact Hin].
Qed.

(** With status 1 a frame object whose name has no lower-case letter ends
    the process. *)
Lemma create_frame_status_one (api : frame_api) (req : frame_request)
    (rest : list pyval) (model : list frame_request) :
  no_lower (user_name req) = true ->
  api req = PInt 1 :: rest ->
  create_frame true api req model = Exited.
Proof.
  intros Hn Hret. unfold create_frame, add_frame_by_coord_custom.
  cbn [negb]. rewrite Hret. cbn [bind fst snd].
  unfold check_ret. cbn [negb code_of is_one].
  rewrite (frame_call_not_benign _ Hn). reflexivity.
Qed.

End FrameStatusOne.

(** X2.  [check_ret(ret_code, f"AddFrameByCoord({name})")] does not let a
    status of 1 through for any column or beam the generators ask for: their
    names are made of capitals, digits and underscores, and no allow-listed
    keyword occurs in ["AddFrameByCoord(" ++ name ++ ")"] (the keyword
    ["AddByCoord"] would need the text to go on with ["By"] after ["Add"]).
    So an [AddByCoord] answer with status 1 for one of these frames ends the
    process. *)
Theorem frame_status_one_is_fatal (cfg : Config.config)
    (heights : nat -> option R) (api : FrameGeometry.frame_api)
    (req : FrameGeometry.frame_request) (rest : list Helpers.pyval)
    (model : list FrameGeometry.frame_request) :
  (exists per_story,
      FrameGeometry.column_requests cfg heights = Py.Done per_story
      /\ In req (List.concat per_story))
  \/ In (Py.Done req)
        (List.concat (FrameGeometry.beam_requests cfg heights)) ->
  api req = Helpers.PInt 1 :: rest ->
  FrameGeometry.create_frame true api req model = Py.Exited.
Proof.
  intros Hreq Hret.
  apply (create_frame_status_one api req rest model); [| exact Hret].
  destruct Hreq as [(per_story & Hc & Hin) | Hin].
  - unfold FrameGeometry.column_requests in Hc.
    destruct (GeometryCommon.generate_grid_coordinates cfg) as [gx gy].
    destruct (FrameGeometry.column_positions cfg gx gy) as [pos | |];
      try discriminate Hc.
    cbn [Py.bind] in Hc. injection Hc as <-.
    apply in_concat_stories in Hin. destruct Hin as (s & zb & zt & Hin).
    exact (column_names_upper cfg pos s zb zt req Hin).
  - unfold FrameGeometry.beam_requests in Hin.
    destruct (GeometryCommon.generate_grid_coordinates cfg) as [gx gy].
    apply in_concat_stories in Hin. destruct Hin as (s & zb & zt & Hin).
    unfold FrameGeometry.story_beams in Hin. apply in_app_or in Hin.
    destruct Hin as [Hin | Hin].
    + apply in_map_iff in Hin. destruct Hin as (r & E & Hin).
      injection E as ->.
      exact (main_beam_names_upper cfg gx gy zt s req Hin).
    + destruct (Config.dict_get (Config.BEAM_LAYOUT cfg) "SECONDARY_BEAMS");
        [| destruct Hin].
      exact (secondary_beam_names_upper cfg gx gy zt s req Hin).
Qed.

Lemma frame_status_one_is_fatal_witness :
  FrameGeometry.create_frame true
    (fun _ => [Helpers.PInt 1; Helpers.PStr "1"])
    {| FrameGeometry.fx1 := 0 * 6.0; FrameGeometry.fy1 := 0 * 6.0;
       FrameGeometry.fz1 := 0.0;
       FrameGeometry.fx2 := 0 * 6.0; FrameGeometry.fy2 := 0 * 6.0;
       FrameGeometry.fz2 := 0.0 + 3.0;
       FrameGeometry.prop_name := "COL600X600";
       FrameGeometry.user_name := "COL_X0_Y0_S1" |} []
  = Py.Exited.
Proof.
  apply (frame_status_one_is_fatal Config.config_frame (fun _ => None)
           (fun _ => [Helpers.PInt 1; Helpers.PStr "1"]) _
           [Helpers.PStr "1"] []); [| reflexivity].
  left. eexists. split; [reflexivity |].
  left. reflexivity.
Defined.

(** ** The order of binary64 numbers *)

Section FloatOrder.

Lemma SFcompare_lt_trans (a b c : spec_float) :
  SFcompare a b = Some Lt -> SFcompare b c = Some Lt ->
  SFcompare a c = Some Lt.
Proof.
  destruct a as [sa | sa | | sa ma ea], b as [sb | sb | | sb mb eb],
           c as [sc | sc | | sc mc ec];
    cbn [SFcompare];
    try destruct sa; try destruct sb; try destruct sc;
    try discriminate; try reflexivity;
    change (Pos.compare_cont Eq ?p ?q) with (Pos.compare p q);
    destruct (Z.compare_spec ea eb); destruct (Z.compare_spec eb ec);
    destruct (Z.compare_spec ea ec);
    try discriminate; try reflexivity; try lia;
    destruct (Pos.compare_spec ma mb); destruct (Pos.compare_spec mb mc);
    destruct (Pos.compare_spec ma mc);
    cbn [CompOpp]; try discriminate; try reflexivity; try lia.
Qed.

Lemma SFcompare_refl (a : spec_float) :
  a <> S754_nan -> SFcompare a a = Some Eq.
Proof.
  destruct a as [s | s | | s m e]; intros Hn;
    [reflexivity | destruct s; reflexivity | contradiction |].
  cbn [SFcompare]. rewrite Z.compare_refl.
  change (Pos.compare_cont Eq m m) with (Pos.compare m m).
  rewrite Pos.compare_refl. destruct s; reflexivity.
Qed.

Lemma SFcompare_defined (a b : spec_float) (c : comparison) :
  SFcompare a b = Some c -> a <> S754_nan /\ b <> S754_nan.
Proof.
  destruct a, b; cbn [SFcompare]; intros H; try discriminate H;
    split; discriminate.
Qed.

Lemma ltb_trans (a b c : float) :
  PrimFloat.ltb a b = true -> PrimFloat.ltb b c = true ->
  PrimFloat.ltb a c = true.
Proof.
  rewrite !ltb_spec. unfold SFltb. intros H1 H2.
  destruct (SFcompare (Prim2SF a) (Prim2SF b)) as [[| |] |] eqn:E1;
    try discriminate H1.
  destruct (SFcompare (Prim2SF b) (Prim2SF c)) as [[| |] |] eqn:E2;
    try discriminate H2.
  rewrite (SFcompare_lt_trans _ _ _ E1 E2). reflexivity.
Qed.

Lemma ltb_irrefl (a : float) : PrimFloat.ltb a a = false.
Proof.
  rewrite ltb_spec. unfold SFltb.
  destruct (Prim2SF a) as [s | s | | s m e] eqn:E;
    [reflexivity | destruct s; reflexivity | reflexivity |].
  rewrite SFcompare_refl by discriminate. reflexivity.
Qed.

(** What compares as smaller is a number, and so is what it is compared
    with; under [abs] too. *)
Lemma ltb_abs_number (a b : float) :
  PrimFloat.ltb a (PrimFloat.abs b) = true -> PrimFloat.is_nan b = false.
Proof.
  unfold PrimFloat.is_nan. rewrite ltb_spec, eqb_spec, abs_spec.
  unfold SFltb, SFeqb. intros H.
  destruct (SFcompare (Prim2SF a) (SFabs (Prim2SF b))) as [c |] eqn:E;
    [| discriminate H].
  apply SFcompare_defined in E. destruct E as [_ Hb].
  rewrite SFcompare_refl; [reflexivity |].
  intros Hn. apply Hb. rewrite Hn. reflexivity.
Qed.

(** A value whose absolute value equals [0.0] lets through exactly what
    [0.0] lets through. *)
Lemma ltb_abs_zero (a b : float) :
  PrimFloat.eqb (PrimFloat.abs a) 0%float = true ->
  PrimFloat.ltb (PrimFloat.abs a) b = PrimFloat.ltb (PrimFloat.abs 0%float) b.
Proof.
  rewrite eqb_spec, !ltb_spec, !abs_spec. unfold SFeqb, SFltb.
  replace (Prim2SF 0%float) with (S754_zero false) by reflexivity.
  destruct (Prim2SF a) as [s | s | | s m e]; cbn [SFabs SFcompare];
    try discriminate; reflexivity.
Qed.

(** A number whose absolute value is not [0.0] has an absolute value above
    [0.0]. *)
Lemma abs_above_zero (a : float) :
  PrimFloat.is_nan a = false ->
  PrimFloat.eqb (PrimFloat.abs a) 0%float = false ->
  PrimFloat.ltb 0%float (PrimFloat.abs a) = true.
Proof.
  unfold PrimFloat.is_nan. rewrite !eqb_spec, ltb_spec, abs_spec.
  unfold SFeqb, SFltb.
  replace (Prim2SF 0%float) with (S754_zero false) by reflexivity.
  destruct (Prim2SF a) as [s | s | | s m e]; cbn [SFabs SFcompare];
    try discriminate; reflexivity.
Qed.

End FloatOrder.

(** ** Story drifts: rows, errors and maxima *)

Section DriftRowsLoop.
Import DriftResults DriftSpec DriftRows.
Local Open Scope nat_scope.
Variable round4 : float -> float.
Variable ret : story_drifts_ret.

Lemma at_index_cases {A : Type} (l : list A) (i : nat) :
  (Nat.leb (S i) (List.length l) = true /\ exists a, at_index l i = Done a)
  \/ (Nat.leb (S i) (List.length l) = false
      /\ at_index l i = Raised IndexError).
Proof.
  unfold at_index. destruct (nth_error l i) as [a |] eqn:E.
  - left. split; [| exists a; reflexivity].
    apply Nat.leb_le. apply nth_error_Some. rewrite E. discriminate.
  - right. split; [| reflexivity].
    apply Nat.leb_gt. apply nth_error_None in E. lia.
Qed.

(** One iteration returns when every column has an entry [i], and raises
    [IndexError] otherwise. *)
Lemma loop_body_cases (i : nat) (st : list drift_record * max_drift) :
  (rows_available ret (S i) = true
   /\ exists st', loop_body round4 ret i st = Done st')
  \/ (rows_available ret (S i) = false
      /\ loop_body round4 ret i st = Raised IndexError).
Proof.
  unfold rows_available, column_lengths, loop_body. cbn [forallb].
  destruct (at_index_cases (column (ret_drift ret)) i)
    as [(L1 & v1 & E1) | (L1 & E1)]; rewrite E1, L1; cbn [bind andb];
    [| right; split; reflexivity].
  destruct (at_index_cases (column (ret_direction ret)) i)
    as [(L2 & v2 & E2) | (L2 & E2)]; rewrite E2, L2; cbn [bind andb];
    [| right; split; reflexivity].
  destruct (at_index_cases (column (ret_story ret)) i)
    as [(L3 & v3 & E3) | (L3 & E3)]; rewrite E3, L3; cbn [bind andb];
    [| right; split; reflexivity].
  destruct (at_index_cases (column (ret_case ret)) i)
    as [(L4 & v4 & E4) | (L4 & E4)]; rewrite E4, L4; cbn [bind andb];
    [| right; split; reflexivity].
  destruct (at_index_cases (column (ret_steptype ret)) i)
    as [(L5 & v5 & E5) | (L5 & E5)]; rewrite E5, L5; cbn [bind andb];
    [| right; split; reflexivity].
  destruct (at_index_cases (column (ret_stepnum ret)) i)
    as [(L6 & v6 & E6) | (L6 & E6)]; rewrite E6, L6; cbn [bind andb];
    [| right; split; reflexivity].
  destruct (at_index_cases (column (ret_label ret)) i)
    as [(L7 & v7 & E7) | (L7 & E7)]; rewrite E7, L7; cbn [bind andb];
    [| right; split; reflexivity].
  destruct (at_index_cases (column (ret_x ret)) i)
    as [(L8 & v8 & E8) | (L8 & E8)]; rewrite E8, L8; cbn [bind andb];
    [| right; split; reflexivity].
  destruct (at_index_cases (column (ret_y ret)) i)
    as [(L9 & v9 & E9) | (L9 & E9)]; rewrite E9, L9; cbn [bind andb];
    [| right; split; reflexivity].
  destruct (at_index_cases (column (ret_z ret)) i)
    as [(L10 & v10 & E10) | (L10 & E10)]; rewrite E10, L10;
    cbn [bind andb]; [| right; split; reflexivity].
  left. split; [reflexivity | eexists; reflexivity].
Qed.

Lemma rows_available_le (n k : nat) :
  k <= n -> rows_available ret n = true -> rows_available ret k = true.
Proof.
  unfold rows_available. intros Hle H.
  rewrite forallb_forall in *. intros l Hin.
  specialize (H l Hin). apply Nat.leb_le in H. apply Nat.leb_le. lia.
Qed.

(** The loop returns when every column has [i + count] entries, and raises
    [IndexError] otherwise. *)
Lemma loop_cases (count i : nat) (st : list drift_record * max_drift) :
  (rows_available ret (i + count) = true
   /\ exists st', loop round4 ret i count st = Done st')
  \/ (rows_available ret (i + count) = false
      /\ (rows_available ret i = false
          \/ loop round4 ret i count st = Raised IndexError)).
Proof.
  revert i st. induction count as [| count IH]; intros i st.
  - rewrite Nat.add_0_r.
    destruct (rows_available ret i) eqn:E.
    + left. split; [reflexivity | exists st; reflexivity].
    + right. split; [reflexivity | left; reflexivity].
  - cbn [loop].
    destruct (loop_body_cases i st) as [(Hi & st1 & Hb) | (Hi & Hb)];
      rewrite Hb; cbn [bind].
    + replace (i + S count) with (S i + count) by lia.
      destruct (IH (S i) st1) as [(Ha & st' & Hl) | (Ha & [Hf | Hl])].
      * left. split; [exact Ha | exists st'; exact Hl].
      * rewrite Hf in Hi. discriminate Hi.
      * right. split; [exact Ha | right; exact Hl].
    + right. split; [| right; reflexivity].
      destruct (rows_available ret (i + S count)) eqn:E; [| reflexivity].
      rewrite (rows_available_le (i + S count) (S i)) in Hi;
        [discriminate Hi | lia | exact E].
Qed.

Ltac split_columns :=
  repeat match goal with
         | H : context [match nth_error ?l ?i with _ => _ end] |- _ =>
             destruct (nth_error l i) eqn:?; cbn [bind] in H;
             try discriminate H
         end.

Lemma loop_body_copies (i : nat) (st st' : list drift_record * max_drift) :
  loop_body round4 ret i st = Done st' ->
  exists r,
    copies_row round4 ret i r
    /\ fst st' = fst st ++ [r]
    /\ snd st' = update_max (snd st) (direction r) (to_permil (drift_rad r)) i.
Proof.
  unfold loop_body, at_index. intros H. split_columns.
  injection H as <-. eexists. split; [| split; reflexivity].
  unfold copies_row. cbn.
  repeat match goal with |- _ /\ _ => split end;
    try assumption; try reflexivity.
  eexists. split; [eassumption | reflexivity].
Qed.

(** The records built so far are the rows so far, in order. *)
Lemma loop_copies (count i : nat) (st st' : list drift_record * max_drift) :
  List.length (fst st) = i ->
  (forall j r, nth_error (fst st) j = Some r -> copies_row round4 ret j r) ->
  loop round4 ret i count st = Done st' ->
  List.length (fst st') = i + count
  /\ forall j r, nth_error (fst st') j = Some r -> copies_row round4 ret j r.
Proof.
  revert i st. induction count as [| count IH]; intros i st Hlen Hrows Hl.
  - cbn [loop] in Hl. injection Hl as <-. rewrite Nat.add_0_r.
    split; assumption.
  - cbn [loop] in Hl.
    destruct (loop_body round4 ret i st) as [st1 | e |] eqn:Hb;
      cbn [bind] in Hl; try discriminate Hl.
    destruct (loop_body_copies i st st1 Hb) as (r & Hr & Hf & _).
    replace (i + S count) with (S i + count) by lia.
    apply (IH (S i) st1); [| | exact Hl].
    + rewrite Hf, length_app. cbn [List.length]. lia.
    + intros j r0 Hj. rewrite Hf in Hj.
      destruct (Nat.lt_ge_cases j (List.length (fst st))) as [Hlt | Hge].
      * rewrite nth_error_app1 in Hj by exact Hlt. apply Hrows. exact Hj.
      * rewrite nth_error_app2 in Hj by exact Hge.
        destruct (j - List.length (fst st)) as [| k] eqn:Hk.
        -- cbn in Hj. injection Hj as <-.
           replace j with i by lia. exact Hr.
        -- cbn in Hj. destruct k; discriminate Hj.
Qed.

End DriftRowsLoop.

Section DriftOutcome.
Import DriftResults DriftSpec DriftRows.
Local Open Scope nat_scope.
Variable DRIFT_LIMIT_PERMIL : float.
Variable round4 : float -> float.

Lemma rows_available_zero (ret : story_drifts_ret) :
  rows_available ret 0 = true.
Proof. reflexivity. Qed.

(** A stored maximum that points at a record gives an entry without
    raising. *)
Lemma axis_summary_total (axis : dir_key) (records : list drift_record)
    (stored : float * option nat) :
  tracked axis records stored ->
  exists entry, axis_summary DRIFT_LIMIT_PERMIL records stored = Done entry.
Proof.
  intros Ht. unfold axis_summary.
  destruct (snd stored) as [idx |] eqn:Hidx; [| eexists; reflexivity].
  destruct (PrimFloat.eqb _ _); [eexists; reflexivity |].
  destruct (Ht idx Hidx) as (r & Hn & _).
  unfold at_index. rewrite Hn. cbn [bind]. eexists. reflexivity.
Qed.

(** X3.  From the returned tuple to the result (lines 103-229):
    the function returns a dictionary when every column holds at least
    [num_results] entries (always so for [num_results <= 0]), and raises
    [IndexError] from inside the loop when one column is shorter, for
    instance a null array next to a positive count.  Nothing else is raised
    there and the process is not ended. *)
Theorem tabulate_returns_or_index_error (ret : story_drifts_ret)
    (load_cases : list string) :
  (rows_available ret (Z.to_nat (ret_num_results ret)) = true
   /\ exists res,
        tabulate DRIFT_LIMIT_PERMIL round4 ret load_cases = Done res)
  \/ (rows_available ret (Z.to_nat (ret_num_results ret)) = false
      /\ tabulate DRIFT_LIMIT_PERMIL round4 ret load_cases
         = Raised IndexError).
Proof.
  unfold tabulate.
  destruct (Z.eqb (ret_num_results ret) 0) eqn:Hz.
  - apply Z.eqb_eq in Hz. rewrite Hz. left.
    split; [reflexivity | eexists; reflexivity].
  - destruct (loop_cases round4 ret (Z.to_nat (ret_num_results ret)) 0
                ([], max_drift_init))
      as [(Ha & st & Hl) | (Ha & [Hf | Hl])]; cbn [Nat.add] in Ha.
    + left. split; [exact Ha |]. rewrite Hl. cbn [bind].
      pose proof (summary_rows_tracked round4 ret st Hl)
        as (_ & _ & HX & HY).
      destruct (axis_summary_total DirX _ _ HX) as (ex & ->).
      destruct (axis_summary_total DirY _ _ HY) as (ey & ->).
      cbn [bind]. eexists. reflexivity.
    + rewrite rows_available_zero in Hf. discriminate Hf.
    + right. split; [exact Ha |]. rewrite Hl. reflexivity.
Qed.

(** X4.  A returned summary keeps every row, in the order of the returned
    tuple: [total_records] is [num_results], ["records"] has that many
    entries, entry [i] copies row [i] field by field (rows of an unknown
    direction included), and ["load_cases"] and ["limit_permil"] are the
    requested cases and the configured limit. *)
Theorem summary_keeps_every_row (system_loaded : bool) (m : sap_model)
    (load_cases : option (list string)) (ret : story_drifts_ret)
    (records : list drift_record) (total : Z) (cases : list string)
    (lim : float) (ex ey : option max_info) (verdict : overall) :
  call_StoryDrifts m = Done ret ->
  extract_story_drifts DRIFT_LIMIT_PERMIL round4 system_loaded m load_cases
  = Done (Summary records total cases lim ex ey verdict) ->
  total = ret_num_results ret
  /\ List.length records = Z.to_nat total
  /\ cases = requested load_cases
  /\ lim = DRIFT_LIMIT_PERMIL
  /\ forall i, i < Z.to_nat total ->
       exists r, nth_error records i = Some r /\ copies_row round4 ret i r.
Proof.
  intros Hcall Hrun.
  destruct (extract_inv _ _ _ _ _ _ Hrun) as (ret' & Hcall' & Htab).
  rewrite Hcall in Hcall'. injection Hcall' as <-.
  destruct (tabulate_inv _ _ _ _ _ Htab) as [[_ Hno] | [Hnz H]];
    [discriminate Hno |].
  destruct H as (st & ex' & ey' & Hloop & _ & _ & Hres).
  injection Hres as -> -> -> -> _ _ _.
  destruct (loop_copies round4 ret (Z.to_nat (ret_num_results ret)) 0
              ([], max_drift_init) st)
    as (Hlen & Hrows); [reflexivity | | exact Hloop |].
  { intros j r Hj. destruct j; discriminate Hj. }
  cbn [Nat.add] in Hlen.
  split; [reflexivity |]. split; [exact Hlen |].
  split; [reflexivity |]. split; [reflexivity |].
  intros i Hi.
  destruct (nth_error (fst st) i) as [r |] eqn:Hn.
  - exists r. split; [reflexivity | apply Hrows; exact Hn].
  - apply nth_error_None in Hn. lia.
Qed.

End DriftOutcome.

Lemma summary_keeps_every_row_witness :
  2%Z = DriftResults.ret_num_results DriftRows.example_ret
  /\ List.length DriftRows.example_records = Z.to_nat 2
  /\ ["RS-X"%string; "RS-Y"%string] = DriftResults.requested None
  /\ 1%float = 1%float
  /\ forall i, (i < Z.to_nat 2)%nat ->
       exists r, nth_error DriftRows.example_records i = Some r
                 /\ DriftRows.copies_row (fun v => v) DriftRows.example_ret
                      i r.
Proof.
  apply (summary_keeps_every_row 1%float (fun v => v) true
           (DriftSpec.model_answering DriftRows.example_ret)
           None _ _ 2%Z _ 1%float DriftRows.example_max_X None
           DriftResults.ExceedsLimit).
  - reflexivity.
  - vm_compute. reflexivity.
Defined.

Section DriftMaxima.
Import DriftResults DriftSpec DriftRows.
Local Open Scope nat_scope.

Lemma dominates_other (axis : dir_key) (records : list drift_record)
    (r : drift_record) (m : float) :
  direction r <> axis -> dominates axis records m ->
  dominates axis (records ++ [r]) m.
Proof.
  intros Hd Hm r0 Hin Hr0. apply in_app_or in Hin.
  destruct Hin as [Hin | [<- | []]]; [apply Hm; assumption | contradiction].
Qed.

Lemma max_inv_bump (records : list drift_record) (r : drift_record)
    (stored : float * option nat) (i : nat) :
  max_inv (direction r) records stored ->
  max_inv (direction r) (records ++ [r])
    (bump stored (to_permil (drift_rad r)) i).
Proof.
  intros (Hnan & Hnone & Hdom). unfold bump.
  destruct (PrimFloat.ltb (PrimFloat.abs (fst stored))
              (PrimFloat.abs (to_permil (drift_rad r)))) eqn:Hlt.
  - cbn [fst snd]. split; [| split].
    + exact (ltb_abs_number _ _ Hlt).
    + intros H. discriminate H.
    + intros r0 Hin Hr0. cbn [fst]. apply in_app_or in Hin.
      destruct Hin as [Hin | [<- | []]]; [| apply ltb_irrefl].
      destruct (PrimFloat.ltb (PrimFloat.abs (to_permil (drift_rad r)))
                  (PrimFloat.abs (to_permil (drift_rad r0)))) eqn:E;
        [| reflexivity].
      rewrite <- (Hdom r0 Hin Hr0). symmetry.
      exact (ltb_trans _ _ _ Hlt E).
  - split; [exact Hnan | split; [exact Hnone |]].
    intros r0 Hin Hr0. apply in_app_or in Hin.
    destruct Hin as [Hin | [<- | []]]; [apply Hdom; assumption | exact Hlt].
Qed.

Lemma max_inv_other (axis : dir_key) (records : list drift_record)
    (r : drift_record) (stored : float * option nat) :
  direction r <> axis -> max_inv axis records stored ->
  max_inv axis (records ++ [r]) stored.
Proof.
  intros Hd (Hnan & Hnone & Hdom).
  split; [exact Hnan | split; [exact Hnone |]].
  apply dominates_other; assumption.
Qed.

Lemma max_inv_update (records : list drift_record) (r : drift_record)
    (md : max_drift) (i : nat) :
  max_inv DirX records (max_X md) -> max_inv DirY records (max_Y md) ->
  let md' := update_max md (direction r) (to_permil (drift_rad r)) i in
  max_inv DirX (records ++ [r]) (max_X md')
  /\ max_inv DirY (records ++ [r]) (max_Y md').
Proof.
  intros HX HY. unfold update_max.
  destruct (direction r) eqn:Hd; cbn [max_X max_Y]; split;
    try (apply max_inv_other; [rewrite Hd; discriminate | assumption]).
  - rewrite <- Hd. apply max_inv_bump. rewrite Hd. exact HX.
  - rewrite <- Hd. apply max_inv_bump. rewrite Hd. exact HY.
Qed.

Lemma max_inv_init (axis : dir_key) : max_inv axis [] (0%float, None).
Proof.
  split; [reflexivity | split; [reflexivity |]].
  intros r [].
Qed.

Lemma loop_max_inv (round4 : float -> float) (ret : story_drifts_ret)
    (count i : nat) (st st' : list drift_record * max_drift) :
  max_inv DirX (fst st) (max_X (snd st)) ->
  max_inv DirY (fst st) (max_Y (snd st)) ->
  loop round4 ret i count st = Done st' ->
  max_inv DirX (fst st') (max_X (snd st'))
  /\ max_inv DirY (fst st') (max_Y (snd st')).
Proof.
  revert i st. induction count as [| count IH]; intros i st HX HY Hl.
  - cbn [loop] in Hl. injection Hl as <-. split; assumption.
  - cbn [loop] in Hl.
    destruct (loop_body round4 ret i st) as [st1 | e |] eqn:Hb;
      cbn [bind] in Hl; try discriminate Hl.
    destruct (loop_body_done round4 ret i st st1 Hb) as (r & _ & Hf & Hs).
    destruct (max_inv_update (fst st) r (snd st) i HX HY) as [HX1 HY1].
    apply (IH (S i) st1); [| | exact Hl]; rewrite Hf, Hs; assumption.
Qed.

(** From the stored maximum to the reported entry. *)
Lemma axis_summary_reports (limit : float) (axis : dir_key)
    (records : list drift_record) (stored : float * option nat)
    (entry : option max_info) :
  max_inv axis records stored ->
  axis_summary limit records stored = Done entry ->
  reported_max_ok axis records entry.
Proof.
  intros (Hnan & Hnone & Hdom) H. unfold axis_summary in H.
  destruct (snd stored) as [idx |] eqn:Hidx.
  - destruct (PrimFloat.eqb (PrimFloat.abs (fst stored)) 0%float) eqn:Hz.
    + injection H as <-. intros r Hin Hr.
      rewrite <- (Hdom r Hin Hr). symmetry. apply ltb_abs_zero. exact Hz.
    + destruct (at_index records idx) as [info | e |]; cbn [bind] in H;
        try discriminate H.
      injection H as <-. cbn [reported_max_ok value_permil abs_value_permil].
      split; [exact Hnan |].
      split; [apply abs_above_zero; assumption | exact Hdom].
  - injection H as <-. cbn [reported_max_ok].
    rewrite <- (Hnone eq_refl). exact Hdom.
Qed.

(** X5.  The value reported for a direction is a maximum in absolute value
    over all rows of that direction: no such row has a larger [abs(drift *
    1000.0)], rows that are not numbers are never reported and do not hide
    the others, and the reported value is not zero.  A direction without
    entry has no row with a drift above zero. *)
Theorem reported_maximum_dominates (limit : float) (round4 : float -> float)
    (system_loaded : bool) (m : sap_model) (load_cases : option (list string))
    (records : list drift_record) (total : Z) (cases : list string)
    (lim : float) (ex ey : option max_info) (verdict : overall) :
  extract_story_drifts limit round4 system_loaded m load_cases
  = Done (Summary records total cases lim ex ey verdict) ->
  reported_max_ok DirX records ex /\ reported_max_ok DirY records ey.
Proof.
  intros Hrun.
  destruct (extract_inv _ _ _ _ _ _ Hrun) as (ret & Hcall & _).
  destruct (summary_inv _ _ _ _ _ _ _ _ _ _ _ _ _ Hcall Hrun)
    as (md & _ & Hloop & _ & Hx & Hy & _).
  destruct (loop_max_inv round4 ret (Z.to_nat (ret_num_results ret)) 0
              ([], max_drift_init) (records, md))
    as [HX HY]; [apply max_inv_init | apply max_inv_init | exact Hloop |].
  cbn [fst snd] in HX, HY.
  split; [exact (axis_summary_reports _ _ _ _ _ HX Hx)
         | exact (axis_summary_reports _ _ _ _ _ HY Hy)].
Qed.

Lemma reported_maximum_dominates_witness :
  reported_max_ok DirX example_records example_max_X
  /\ reported_max_ok DirY example_records None.
Proof.
  apply (reported_maximum_dominates 1%float (fun v => v) true
           (model_answering example_ret) None example_records 2%Z
           ["RS-X"%string; "RS-Y"%string] 1%float example_max_X None
           ExceedsLimit).
  vm_compute. reflexivity.
Defined.

End DriftMaxima.

Section DriftWrapper.
Import DriftResults DriftSpec DriftRows DriftCompat.

(** X6.  [extract_story_drifts_improved] never raises: whatever
    [extract_story_drifts] raises comes back as an ["error"] dictionary.
    It ends the process exactly when [extract_story_drifts] does (the
    [sys.exit] of [check_ret] is not an [Exception]); it returns the
    ["error"] dictionary exactly when [extract_story_drifts] raised or
    found no rows; otherwise it hands on the records and, per direction,
    [abs_value_permil] as ["max_drift"] and [value_permil] as
    ["raw_drift"], so that ["max_drift"] is [abs(raw_drift)]. *)
Theorem improved_never_raises (limit : float) (round4 : float -> float)
    (system_loaded : bool) (m : sap_model)
    (target : option (list string)) :
  (forall e,
      extract_story_drifts_improved limit round4 system_loaded m target
      <> Raised e)
  /\ (extract_story_drifts_improved limit round4 system_loaded m target
      = Exited
      <-> extract_story_drifts limit round4 system_loaded m target = Exited)
  /\ ((exists text,
         extract_story_drifts_improved limit round4 system_loaded m target
         = Done (ErrorOnly text))
      <-> (exists e,
             extract_story_drifts limit round4 system_loaded m target
             = Raised e)
          \/ (exists lim,
                extract_story_drifts limit round4 system_loaded m target
                = Done (NoData lim)))
  /\ (forall total all_drifts mx my cases,
        extract_story_drifts_improved limit round4 system_loaded m target
        = Done (Compatible total all_drifts mx my cases) ->
        cases = target
        /\ (exists requested lim ex ey verdict,
              extract_story_drifts limit round4 system_loaded m target
              = Done (Summary all_drifts total requested lim ex ey verdict)
              /\ mx = legacy_entry ex /\ my = legacy_entry ey)
        /\ (forall entry, mx = Some entry \/ my = Some entry ->
              legacy_max_drift entry
              = PrimFloat.abs (legacy_raw_drift entry))).
Proof.
  unfold extract_story_drifts_improved.
  destruct (extract_story_drifts limit round4 system_loaded m target)
    as [[lim | records total requested lim ex ey verdict] | e |] eqn:Hrun.
  - split; [intros e; discriminate |].
    split; [split; intros H; discriminate H |].
    split.
    + split; [intros _; right; eexists; reflexivity
             | intros _; eexists; reflexivity].
    + intros total all_drifts mx my cases H. discriminate H.
  - split; [intros e; discriminate |].
    split; [split; intros H; discriminate H |].
    split.
    + split; [intros (text & H); discriminate H |].
      intros [(e & H) | (l & H)]; discriminate H.
    + intros total' all_drifts mx my cases H.
      injection H as <- <- <- <- <-.
      split; [reflexivity |].
      split; [do 5 eexists; split; [reflexivity | split; reflexivity] |].
      destruct (extract_inv _ _ _ _ _ _ Hrun) as (ret & Hcall & _).
      destruct (summary_inv _ _ _ _ _ _ _ _ _ _ _ _ _ Hcall Hrun)
        as (md & _ & _ & Hinv & Hx & Hy & _).
      destruct Hinv as (_ & _ & HX & HY). cbn [fst snd] in HX, HY.
      intros entry [H | H].
      * destruct ex as [info |]; [| discriminate H].
        destruct (axis_summary_some limit DirX _ _ _ HX Hx)
          as (r & _ & _ & _ & Habs & _).
        cbn [legacy_entry] in H. injection H as <-.
        cbn [legacy_max_drift legacy_raw_drift]. exact Habs.
      * destruct ey as [info |]; [| discriminate H].
        destruct (axis_summary_some limit DirY _ _ _ HY Hy)
          as (r & _ & _ & _ & Habs & _).
        cbn [legacy_entry] in H. injection H as <-.
        cbn [legacy_max_drift legacy_raw_drift]. exact Habs.
  - split; [intros e'; discriminate |].
    split; [split; intros H; discriminate H |].
    split.
    + split; [intros _; left; eexists; reflexivity
             | intros _; eexists; reflexivity].
    + intros total all_drifts mx my cases H. discriminate H.
  - split; [intros e; discriminate |].
    split; [split; reflexivity |].
    split.
    + split; [intros (text & H); discriminate H |].
      intros [(e & H) | (l & H)]; discriminate H.
    + intros total all_drifts mx my cases H. discriminate H.
Qed.

End DriftWrapper.

(** ** The spectrum between its floor and its plateau *)

Section SpectrumBounds.
Import Py ResponseSpectrum.
Local Open Scope R_scope.






End SpectrumBounds.



(** ** The stories of the frame: elevations *)

Section StoryElevations.
Import Config MoreConfig Py GeometryCommon FrameGeometry FrameStructure.
Import StorySpec.
Local Open Scope R_scope.

Lemma elevation_from_step (cfg : config) (heights : nat -> option R)
    (k s : nat) (z : R) :
  elevation_from cfg heights z s (S k)
  = elevation_from cfg heights z s k + story_height cfg heights (s + k).
Proof.
  revert s z. induction k as [| k IH]; intros s z.
  - cbn [elevation_from]. rewrite Nat.add_0_r. reflexivity.
  - change (elevation_from cfg heights z s (S (S k)))
      with (elevation_from cfg heights
              (z + story_height cfg heights s) (S s) (S k)).
    rewrite IH. cbn [elevation_from].
    replace (S s + k)%nat with (s + S k)%nat by lia. reflexivity.
Qed.


Lemma elevation_step (cfg : config) (heights : nat -> option R) (k : nat) :
  elevation cfg heights (S k)
  = elevation cfg heights k + story_height cfg heights (S k).
Proof. unfold elevation. apply elevation_from_step. Qed.








End StoryElevations.



(** ** Beams and the columns under them *)

Section BeamSupports.
Import Config MoreConfig Py GeometryCommon FrameGeometry FrameStructure.
Import StorySpec.
Local Open Scope R_scope.





End BeamSupports.




(** ** The statistics against the generators *)

Section FrameStatistics.
Import Config MoreConfig Helpers Py GeometryCommon FrameGeometry.
Import FrameStructure.
Local Open Scope nat_scope.

Lemma filter_nothing {A : Type} (p : A -> bool) (l : list A) :
  (forall a, In a l -> p a = false) -> filter p l = [].
Proof.
  induction l as [| a l IH]; intros H; [reflexivity |].
  cbn [filter]. rewrite (H a (or_introl eq_refl)).
  apply IH. intros b Hb. apply H. right. exact Hb.
Qed.

Lemma filter_everything {A : Type} (p : A -> bool) (l : list A) :
  (forall a, In a l -> p a = true) -> filter p l = l.
Proof.
  induction l as [| a l IH]; intros H; [reflexivity |].
  cbn [filter]. rewrite (H a (or_introl eq_refl)).
  rewrite IH; [reflexivity |]. intros b Hb. apply H. right. exact Hb.
Qed.

Lemma length_filter_map {A B : Type} (p : B -> bool) (g : A -> B)
    (l : list A) :
  List.length (filter p (map g l))
  = List.length (filter (fun a => p (g a)) l).
Proof.
  induction l as [| a l IH]; [reflexivity |].
  cbn [map filter]. destruct (p (g a)); cbn [List.length]; rewrite IH;
    reflexivity.
Qed.

Lemma length_filter_flat_map {A B : Type} (p : B -> bool)
    (f : A -> list B) (l : list A) :
  List.length (filter p (flat_map f l))
  = list_sum (map (fun a => List.length (filter p (f a))) l).
Proof.
  induction l as [| a l IH]; [reflexivity |].
  cbn [flat_map]. rewrite filter_app, length_app, IH.
  reflexivity.
Qed.

(** [seq 0 n] is its first index, the inner ones and its last index. *)
Lemma seq_ends (m : nat) : seq 0 (S (S m)) = 0 :: seq 1 m ++ [S m].
Proof.
  change (seq 0 (S (S m))) with (0 :: seq 1 (S m)).
  rewrite seq_S. reflexivity.
Qed.

Lemma count_ends (n : nat) :
  2 <= n ->
  List.length
    (filter (fun j => Nat.eqb j 0 || Nat.eqb j (n - 1)) (seq 0 n)) = 2.
Proof.
  intros Hn. destruct n as [| [| m]]; try lia.
  rewrite seq_ends. replace (S (S m) - 1) with (S m) by lia.
  cbn [filter Nat.eqb orb]. rewrite filter_app.
  rewrite filter_nothing.
  - cbn [app filter]. rewrite Nat.eqb_refl.
    destruct m; cbn [Nat.eqb orb]; reflexivity.
  - intros j Hj. apply in_seq in Hj.
    destruct j as [| j]; [lia |]. cbn [Nat.eqb orb].
    apply Nat.eqb_neq. lia.
Qed.

Lemma list_sum_constant {A : Type} (f : A -> nat) (c : nat) (l : list A) :
  (forall a, In a l -> f a = c) -> list_sum (map f l) = c * List.length l.
Proof.
  induction l as [| a l IH]; intros H; [cbn; lia |].
  change (list_sum (map f (a :: l))) with (f a + list_sum (map f l)).
  cbn [List.length]. rewrite (H a (or_introl eq_refl)).
  rewrite IH; [lia |]. intros b Hb. apply H. right. exact Hb.
Qed.

Lemma list_sum_cons (a : nat) (l : list nat) :
  list_sum (a :: l) = a + list_sum l.
Proof. reflexivity. Qed.

(** The number of grid intersections on the perimeter. *)
Lemma perimeter_count (fX fY : nat -> R) (nx ny : nat) :
  2 <= nx -> 2 <= ny ->
  List.length
    (filter (on_perimeter (map fX (seq 0 nx)) (map fY (seq 0 ny)))
       (all_intersections (map fX (seq 0 nx)) (map fY (seq 0 ny))))
  = 2 * (nx + ny - 2).
Proof.
  intros Hx Hy. unfold all_intersections.
  rewrite length_filter_flat_map, !enumerate_grid, map_map.
  assert (forall i,
    List.length
      (filter (on_perimeter (map fX (seq 0 nx)) (map fY (seq 0 ny)))
         (let '(i0, x) := (i, fX i) in
          map (fun '(j, y) => (i0, j, x, y))
              (map (fun j => (j, fY j)) (seq 0 ny))))
    = if Nat.eqb i 0 || Nat.eqb i (nx - 1) then ny else 2) as Hrow.
  { intros i. cbv beta iota. rewrite map_map, length_filter_map.
    unfold on_perimeter. rewrite !length_map, !length_seq.
    destruct (Nat.eqb i 0 || Nat.eqb i (nx - 1)) eqn:E.
    - rewrite filter_everything; [apply length_seq |].
      intros j _. reflexivity.
    - cbn [orb]. apply count_ends. exact Hy. }
  rewrite (map_ext _ _ Hrow).
  destruct nx as [| [| m]]; try lia.
  rewrite seq_ends. replace (S (S m) - 1) with (S m) by lia.
  cbn [map]. rewrite map_app. cbn [map Nat.eqb orb].
  rewrite list_sum_cons, list_sum_app, list_sum_cons.
  rewrite (list_sum_constant _ 2).
  - rewrite Nat.eqb_refl, length_seq. change (list_sum []) with 0. lia.
  - intros i Hi. apply in_seq in Hi.
    destruct i as [| i]; [lia |]. cbn [Nat.eqb orb].
    replace (Nat.eqb i m) with false; [reflexivity |].
    symmetry. apply Nat.eqb_neq. lia.
Qed.

Lemma corners_length (grid_x grid_y : list R) (l : list (nat * nat)) :
  Forall (fun ij => fst ij < List.length grid_x
                    /\ snd ij < List.length grid_y) l ->
  exists ps, corners grid_x grid_y l = Done ps
             /\ List.length ps = List.length l.
Proof.
  induction 1 as [| [i j] l [Hi Hj] _ (ps & E & Hl)].
  - exists []. split; reflexivity.
  - cbn [fst snd] in Hi, Hj. cbn [corners]. unfold corner, at_grid.
    cbn [fst snd].
    destruct (nth_error grid_x i) as [x |] eqn:Ex;
      [| apply nth_error_None in Ex; lia].
    destruct (nth_error grid_y j) as [y |] eqn:Ey;
      [| apply nth_error_None in Ey; lia].
    cbn [bind]. rewrite E. cbn [bind].
    eexists. split; [reflexivity |]. cbn [List.length]. rewrite Hl.
    reflexivity.
Qed.

(** The number of column positions is the number the statistics give. *)
Lemma positions_count (cfg : config) (mc : more_config) :
  1 <= NUM_GRID_LINES_X cfg -> 1 <= NUM_GRID_LINES_Y cfg ->
  (COLUMN_GRID_PATTERN cfg = "PERIMETER_ONLY"%string ->
   2 <= NUM_GRID_LINES_X cfg /\ 2 <= NUM_GRID_LINES_Y cfg) ->
  exists positions,
    column_positions cfg (fst (generate_grid_coordinates cfg))
      (snd (generate_grid_coordinates cfg)) = Done positions
    /\ Z.of_nat (List.length positions)
       = columns_per_level (get_frame_statistics cfg mc).
Proof.
  intros Hx Hy Hper.
  unfold get_frame_statistics, column_positions, generate_grid_coordinates.
  cbn [fst snd columns_per_level].
  rewrite !length_map, !length_seq.
  destruct (String.eqb (COLUMN_GRID_PATTERN cfg) "ALL_INTERSECTIONS").
  { eexists. split; [reflexivity |].
    rewrite all_intersections_length, !length_map, !length_seq. lia. }
  destruct (String.eqb_spec (COLUMN_GRID_PATTERN cfg) "PERIMETER_ONLY")
    as [E | _].
  { destruct (Hper E) as [H2x H2y].
    eexists. split; [reflexivity |].
    rewrite perimeter_count by assumption. lia. }
  destruct (String.eqb (COLUMN_GRID_PATTERN cfg) "CORNER_ONLY").
  { match goal with
    | |- context [corners ?gx ?gy ?l] =>
        destruct (corners_length gx gy l) as (ps & -> & Hl)
    end.
    - repeat constructor; cbn [fst snd];
        rewrite length_map, length_seq; lia.
    - exists ps. split; [reflexivity |]. rewrite Hl. reflexivity. }
  eexists. split; [reflexivity |].
  rewrite all_intersections_length, !length_map, !length_seq. lia.
Qed.

(** The number of main beams of a story is the number the statistics
    give, when both main-beam flags of [BEAM_LAYOUT] are set. *)
Lemma main_beams_count (cfg : config) (mc : more_config) (z : R) (s : nat) :
  1 <= NUM_GRID_LINES_X cfg -> 1 <= NUM_GRID_LINES_Y cfg ->
  dict_get (BEAM_LAYOUT cfg) "MAIN_BEAMS_X" = true ->
  dict_get (BEAM_LAYOUT cfg) "MAIN_BEAMS_Y" = true ->
  Z.of_nat
    (List.length
       (main_beams cfg (fst (generate_grid_coordinates cfg))
          (snd (generate_grid_coordinates cfg)) z s))
  = beams_per_level (get_frame_statistics cfg mc).
Proof.
  intros Hx Hy Fx Fy.
  unfold get_frame_statistics, main_beams, main_beams_x, main_beams_y,
    generate_grid_coordinates.
  cbn [fst snd beams_per_level]. rewrite Fx, Fy. cbn [andb].
  rewrite length_app.
  destruct (existsb (String.eqb (MAIN_BEAM_DIRECTION cfg))
              ["X_ONLY"%string; "BOTH"%string]);
    destruct (existsb (String.eqb (MAIN_BEAM_DIRECTION cfg))
                ["Y_ONLY"%string; "BOTH"%string]);
    repeat (rewrite flat_map_constant_length
              with (c := NUM_GRID_LINES_X cfg - 1)
              by (intros [j y] _; rewrite length_map, length_seq;
                  reflexivity));
    repeat (rewrite flat_map_constant_length
              with (c := NUM_GRID_LINES_Y cfg - 1)
              by (intros [i x] _; rewrite length_map, length_seq;
                  reflexivity));
    rewrite ?enumerate_length, ?length_map, ?length_seq;
    cbn [List.length]; nia.
Qed.

End FrameStatistics.

(** X10.  [get_frame_statistics] counts what the generators create.  For a
    grid with at least one line in each direction (two in each for the
    pattern ["PERIMETER_ONLY"]) and an application that accepts every
    frame, [create_frame_columns] returns [total_columns] names, for each
    of the patterns (["PERIMETER_ONLY"]: [2 * (nx + ny - 2)] columns per
    story; ["CORNER_ONLY"]: 4); and when both main-beam flags of
    [BEAM_LAYOUT] are set each story gets [beams_per_level] main beams, for
    each value of [MAIN_BEAM_DIRECTION].  Secondary beams are not part of
    the statistics. *)
Theorem statistics_agree_with_generators (cfg : Config.config)
    (mc : MoreConfig.more_config) (api : FrameGeometry.frame_api)
    (heights : nat -> option R) (model : list FrameGeometry.frame_request) :
  Config.ENABLE_FRAME_COLUMNS cfg = true ->
  FrameGeometry.api_accepts api ->
  (1 <= Config.NUM_GRID_LINES_X cfg)%nat ->
  (1 <= Config.NUM_GRID_LINES_Y cfg)%nat ->
  (Config.COLUMN_GRID_PATTERN cfg = "PERIMETER_ONLY"%string ->
   (2 <= Config.NUM_GRID_LINES_X cfg)%nat
   /\ (2 <= Config.NUM_GRID_LINES_Y cfg)%nat) ->
  (exists names model',
      FrameGeometry.create_frame_columns cfg true api heights model
      = Py.Done (names, model')
      /\ Z.of_nat (List.length names)
         = FrameStructure.total_columns
             (FrameStructure.get_frame_statistics cfg mc)
      /\ List.length model'
         = (List.length model + List.length names)%nat)
  /\ (Config.dict_get (Config.BEAM_LAYOUT cfg) "MAIN_BEAMS_X" = true ->
      Config.dict_get (Config.BEAM_LAYOUT cfg) "MAIN_BEAMS_Y" = true ->
      forall z s,
        Z.of_nat
          (List.length
             (FrameGeometry.main_beams cfg
                (fst (GeometryCommon.generate_grid_coordinates cfg))
                (snd (GeometryCommon.generate_grid_coordinates cfg)) z s))
        = FrameStructure.beams_per_level
            (FrameStructure.get_frame_statistics cfg mc)).
Proof.
  intros Hen Hacc Hx Hy Hper. split.
  - destruct (positions_count cfg mc Hx Hy Hper) as (pos & Hpos & Hcount).
    unfold FrameGeometry.create_frame_columns. rewrite Hen. cbn [negb].
    unfold FrameGeometry.column_requests.
    destruct (GeometryCommon.generate_grid_coordinates cfg) as [gx gy]
      eqn:Hg.
    cbn [fst snd] in Hpos. rewrite Hpos. cbn [Py.bind].
    destruct (execute_accepted api
                (List.concat
                   (FrameGeometry.stories cfg heights
                      (FrameGeometry.story_columns cfg pos) 1
                      (Config.NUM_STORIES cfg) 0.0%R))
                Hacc model) as (names & He & Hl).
    eexists names, _. split; [exact He |].
    split; [| rewrite length_app, Hl; reflexivity].
    rewrite Hl.
    rewrite (concat_constant_length (List.length pos)).
    + rewrite stories_length.
      assert (FrameStructure.total_columns
                (FrameStructure.get_frame_statistics cfg mc)
              = (FrameStructure.columns_per_level
                   (FrameStructure.get_frame_statistics cfg mc)
                 * Z.of_nat (Config.NUM_STORIES cfg))%Z) as ->.
      { unfold FrameStructure.get_frame_statistics.
        destruct (GeometryCommon.generate_grid_coordinates cfg).
        reflexivity. }
      rewrite <- Hcount. lia.
    + apply stories_all. intros s zb zt. apply story_columns_length.
  - intros Fx Fy z s. apply main_beams_count; assumption.
Qed.

Lemma statistics_agree_with_generators_witness :
  (exists names model',
      FrameGeometry.create_frame_columns Config.config_frame true
        FrameGeometry.accepting_api StorySpec.example_heights []
      = Py.Done (names, model')
      /\ Z.of_nat (List.length names)
         = FrameStructure.total_columns
             (FrameStructure.get_frame_statistics Config.config_frame
                MoreConfig.more_config_frame)
      /\ List.length model' = (List.length (@nil FrameGeometry.frame_request)
                               + List.length names)%nat)
  /\ (Config.dict_get (Config.BEAM_LAYOUT Config.config_frame)
        "MAIN_BEAMS_X" = true ->
      Config.dict_get (Config.BEAM_LAYOUT Config.config_frame)
        "MAIN_BEAMS_Y" = true ->
      forall z s,
        Z.of_nat
          (List.length
             (FrameGeometry.main_beams Config.config_frame
                (fst (GeometryCommon.generate_grid_coordinates
                        Config.config_frame))
                (snd (GeometryCommon.generate_grid_coordinates
                        Config.config_frame)) z s))
        = FrameStructure.beams_per_level
            (FrameStructure.get_frame_statistics Config.config_frame
               MoreConfig.more_config_frame)).
Proof.
  apply (statistics_agree_with_generators Config.config_frame
           MoreConfig.more_config_frame FrameGeometry.accepting_api
           StorySpec.example_heights []).
  - reflexivity.
  - intros req. eexists. reflexivity.
  - cbn. lia.
  - cbn. lia.
  - intros H. discriminate H.
Defined.

(** ** Names that tell the objects apart *)

Section UniqueNames.
Import Config Helpers Py GeometryCommon FrameGeometry DigitSpec StorySpec.
Local Open Scope string_scope.










End UniqueNames.




(** ** Wall members and their meshes *)

Section WallMeshes.
Import Config Py GeometryCommon ShearWallGeometry MeshUtils GeometrySpec.
Import AreaObjects CommonGeometry MeshedElements AreaSpec.
Local Open Scope R_scope.














End WallMeshes.



(** ** Panel names *)

Section PanelNames.
Import Py MeshUtils GeometrySpec AreaObjects MeshedElements AreaSpec.
Local Open Scope nat_scope.

Lemma combine_split_app {A B : Type} (l1 l2 : list A) (m1 m2 : list B) :
  List.length l1 = List.length m1 ->
  combine (l1 ++ l2) (m1 ++ m2) = combine l1 m1 ++ combine l2 m2.
Proof.
  revert m1. induction l1 as [| a l1 IH]; intros [| b m1] H;
    try discriminate H; [reflexivity |].
  cbn [app combine]. rewrite IH by (injection H as H; exact H).
  reflexivity.
Qed.

Lemma combine_seq_map {A : Type} (f : nat -> A) (s v : nat) :
  combine (seq s v) (map f (seq 0 v)) = map (fun j => (s + j, f j)) (seq 0 v).
Proof.
  induction v as [| v IH]; [reflexivity |].
  rewrite !seq_S, !map_app, combine_split_app
    by (rewrite length_map, !length_seq; reflexivity).
  rewrite IH. reflexivity.
Qed.

Lemma grid_loop_ext_in {A : Type} (h v : nat) (c1 c2 : nat -> nat -> A) :
  (forall i j, i < h -> j < v -> c1 i j = c2 i j) ->
  grid_loop h v c1 = grid_loop h v c2.
Proof.
  intros H. unfold grid_loop. rewrite !flat_map_concat_map. f_equal.
  apply map_ext_in. intros i Hi. apply in_seq in Hi.
  apply map_ext_in. intros j Hj. apply in_seq in Hj.
  apply H; lia.
Qed.

Lemma grid_loop_map {A B : Type} (g : A -> B) (h v : nat)
    (cell : nat -> nat -> A) :
  map g (grid_loop h v cell) = grid_loop h v (fun i j => g (cell i j)).
Proof.
  unfold grid_loop. rewrite !flat_map_concat_map, concat_map, map_map.
  f_equal. apply map_ext. intros i. apply map_map.
Qed.

(** The index of cell [(i, j)] in the list is [i * v + j]. *)
Lemma enumerate_rows {A : Type} (cell : nat -> nat -> A) (v h a s : nat) :
  combine
    (seq s (List.length
              (flat_map (fun i => map (cell i) (seq 0 v)) (seq a h))))
    (flat_map (fun i => map (cell i) (seq 0 v)) (seq a h))
  = flat_map (fun i => map (fun j => (s + (i - a) * v + j, cell i j))
                           (seq 0 v))
             (seq a h).
Proof.
  revert a s. induction h as [| h IH]; intros a s; [reflexivity |].
  cbn [seq flat_map]. rewrite length_app, length_map, length_seq.
  rewrite seq_app, combine_split_app
    by (rewrite length_map, !length_seq; reflexivity).
  rewrite combine_seq_map, IH. f_equal.
  - apply map_ext. intros j. rewrite Nat.sub_diag. f_equal. lia.
  - rewrite !flat_map_concat_map. f_equal.
    apply map_ext_in. intros i Hi. apply in_seq in Hi.
    apply map_ext. intros j. f_equal. nia.
Qed.

Lemma enumerate_grid_loop {A : Type} (h v : nat) (cell : nat -> nat -> A) :
  enumerate (grid_loop h v cell)
  = grid_loop h v (fun i j => (i * v + j, cell i j)).
Proof.
  unfold enumerate, grid_loop. rewrite enumerate_rows.
  rewrite !flat_map_concat_map. f_equal.
  apply map_ext. intros i. apply map_ext. intros j.
  rewrite Nat.sub_0_r. f_equal.
Qed.

Lemma cell_of_index (v i j : nat) :
  j < v -> (i * v + j) / v = i /\ (i * v + j) mod v = j.
Proof.
  intros Hj. split.
  - rewrite Nat.div_add_l by lia. rewrite Nat.div_small by exact Hj. lia.
  - rewrite Nat.add_comm, Nat.Div0.mod_add. apply Nat.mod_small. exact Hj.
Qed.

Lemma wall_requests (section base : string) (h v : nat)
    (cell : nat -> nat -> mesh_element) :
  map (panel_request section base v) (enumerate (grid_loop h v cell))
  = grid_loop h v (cell_request section base cell "_H" "_V").
Proof.
  rewrite enumerate_grid_loop, grid_loop_map.
  apply grid_loop_ext_in. intros i j _ Hj.
  unfold panel_request, cell_request, panel_name.
  destruct (cell_of_index v i j Hj) as [-> ->].
  destruct (cell i j) as [[mx my] mz]. reflexivity.
Qed.

Lemma slab_requests (section base : string) (h v : nat)
    (cell : nat -> nat -> mesh_element) :
  map (slab_request section base v) (enumerate (grid_loop h v cell))
  = grid_loop h v (cell_request section base cell "_X" "_Y").
Proof.
  rewrite enumerate_grid_loop, grid_loop_map.
  apply grid_loop_ext_in. intros i j _ Hj.
  unfold slab_request, cell_request, slab_panel_name.
  destruct (cell_of_index v i j Hj) as [-> ->].
  destruct (cell i j) as [[mx my] mz]. reflexivity.
Qed.

End PanelNames.

(** X13.  The name of a panel states its place in the mesh.
    [create_mesh_grid] lists the cells column by column ([i] outer, [j]
    inner), and [create_meshed_element] recovers [i = idx // mesh_v] and
    [j = idx % mesh_v] from the position in that list, so the request
    named [{base}_H{i+1}_V{j+1}] carries the coordinates of cell [(i, j)]:
    column [i] counted from the low end of the member, row [j] from the
    bottom.  The same holds for the slab panels [{base}_X{i+1}_Y{j+1}]. *)
Theorem panel_names_state_their_cell (section base : string) (h v : nat) :
  (forall cell,
      map (MeshedElements.panel_request section base v)
          (Py.enumerate (MeshUtils.grid_loop h v cell))
      = MeshUtils.grid_loop h v
          (AreaSpec.cell_request section base cell "_H" "_V"))
  /\ (forall cell,
        map (MeshedElements.slab_request section base v)
            (Py.enumerate (MeshUtils.grid_loop h v cell))
        = MeshUtils.grid_loop h v
            (AreaSpec.cell_request section base cell "_X" "_Y"))
  /\ (forall x_min x_max y_min y_max z_min z_max orientation,
        MeshUtils.create_mesh_grid x_min x_max y_min y_max z_min z_max h v
          orientation = Py.Raised Py.ZeroDivisionError
        \/ exists cell,
             MeshUtils.create_mesh_grid x_min x_max y_min y_max z_min z_max
               h v orientation = Py.Done (MeshUtils.grid_loop h v cell))
  /\ (forall x_min x_max y_min y_max z_coord,
        MeshUtils.create_slab_mesh_grid x_min x_max y_min y_max z_coord h v
        = Py.Raised Py.ZeroDivisionError
        \/ exists cell,
             MeshUtils.create_slab_mesh_grid x_min x_max y_min y_max z_coord
               h v = Py.Done (MeshUtils.grid_loop h v cell)).
Proof.
  split; [intros cell; apply wall_requests |].
  split; [intros cell; apply slab_requests |].
  split.
  - intros x_min x_max y_min y_max z_min z_max orientation.
    unfold MeshUtils.create_mesh_grid.
    destruct (String.eqb orientation "X");
      destruct (Nat.eqb h 0); try (left; reflexivity);
      destruct (Nat.eqb v 0); try (left; reflexivity);
      right; eexists; reflexivity.
  - intros x_min x_max y_min y_max z_coord.
    unfold MeshUtils.create_slab_mesh_grid.
    destruct (Nat.eqb h 0); try (left; reflexivity).
    destruct (Nat.eqb v 0); try (left; reflexivity).
    right. eexists. reflexivity.
Qed.

(** ** Area objects against the application *)

Section AreaCalls.
Import Helpers Py MeshUtils AreaObjects CommonGeometry MeshedElements.
Import AreaSpec.
Local Open Scope string_scope.

(** A check under an allow-listed name lets the statuses 0 and 1
    through. *)
Lemma benign_call_passes (kw func_name : string) (ret_val : pyval) :
  In kw benign_keywords -> contains kw func_name = true ->
  lets_through ret_val ->
  checked (check_ret true ret_val func_name default_ok_codes) = Done tt.
Proof.
  intros Hin Hc [H0 | H1].
  - unfold check_ret. cbn [negb]. rewrite H0. reflexivity.
  - pose proof (benign_of_keyword kw func_name Hin Hc) as Hb.
    destruct (check_ret_benign_one ret_val func_name default_ok_codes H1 Hb)
      as [-> | ->]; reflexivity.
Qed.

Lemma AddByCoord_passes (name : string) (status : pyval) :
  status = PInt 0 \/ status = PInt 1 ->
  checked (check_ret true status ("AddByCoord(" ++ name ++ ")")
             default_ok_codes) = Done tt.
Proof.
  intros H. apply (benign_call_passes "AddByCoord").
  - unfold benign_keywords. cbn [In]. tauto.
  - reflexivity.
  - destruct H as [-> | ->]; [left | right]; reflexivity.
Qed.

Lemma SetPier_passes (name : string) (ret_val : pyval) :
  lets_through ret_val ->
  checked (check_ret true ret_val ("SetPier(" ++ name ++ ")")
             default_ok_codes) = Done tt.
Proof.
  apply (benign_call_passes "SetPier");
    [unfold benign_keywords; cbn [In]; tauto | reflexivity].
Qed.

Lemma SetSpandrel_passes (name : string) (ret_val : pyval) :
  lets_through ret_val ->
  checked (check_ret true ret_val ("SetSpandrel(" ++ name ++ ")")
             default_ok_codes) = Done tt.
Proof.
  apply (benign_call_passes "SetSpandrel");
    [unfold benign_keywords; cbn [In]; tauto | reflexivity].
Qed.

Lemma SetDiaphragm_passes (name : string) (ret_val : pyval) :
  lets_through ret_val ->
  checked (check_ret true ret_val ("SetDiaphragm(" ++ name ++ ", SRD)")
             default_ok_codes) = Done tt.
Proof.
  apply (benign_call_passes "SetDiaphragm");
    [unfold benign_keywords; cbn [In]; tauto | reflexivity].
Qed.

Lemma add_area_answered (api : area_api) (req : area_request) :
  answers_0_or_1 api ->
  exists status name,
    add_area_by_coord_custom true api req = Done (status, name)
    /\ (status = PInt 0 \/ status = PInt 1).
Proof.
  intros (Hadd & _). destruct (Hadd req) as (status & rest & E & Hs).
  unfold add_area_by_coord_custom. cbn [negb]. rewrite E.
  do 2 eexists. split; [reflexivity | exact Hs].
Qed.

Lemma added_app (m1 m2 : list area_event) :
  added (m1 ++ m2) = (added m1 ++ added m2)%list.
Proof. unfold added. apply flat_map_app. Qed.

(** One wall panel goes through: the object is added, then labelled when
    there is a label. *)
Lemma place_panel_answered (api : area_api) (label : string) (is_cb : bool)
    (req : area_request) (model : list area_event) :
  answers_0_or_1 api ->
  exists name model',
    place_panel true api label is_cb req model = Done (name, model')
    /\ added model' = (added model ++ [req])%list
    /\ List.length model'
       = (List.length model + (if String.eqb label "" then 1 else 2))%nat.
Proof.
  intros Hapi.
  destruct (add_area_answered api req Hapi) as (status & name & E & Hs).
  destruct Hapi as (_ & Hpier & Hspan & _).
  unfold place_panel. rewrite E. cbn [bind fst snd].
  rewrite AddByCoord_passes by exact Hs. cbn [bind].
  destruct label as [| c label].
  - do 2 eexists. split; [reflexivity |].
    rewrite added_app, length_app. split; reflexivity.
  - destruct is_cb.
    + rewrite SetSpandrel_passes by apply Hspan. cbn [bind].
      do 2 eexists. split; [reflexivity |].
      rewrite !added_app, !length_app. cbn [added flat_map app List.length].
      rewrite app_nil_r. split; [reflexivity | cbn; lia].
    + rewrite SetPier_passes by apply Hpier. cbn [bind].
      do 2 eexists. split; [reflexivity |].
      rewrite !added_app, !length_app. cbn [added flat_map app List.length].
      rewrite app_nil_r. split; [reflexivity | cbn; lia].
Qed.

Lemma place_panels_answered (api : area_api) (label : string) (is_cb : bool)
    (reqs : list area_request) :
  answers_0_or_1 api ->
  forall model,
  exists names model',
    place_panels true api label is_cb reqs model = Done (names, model')
    /\ List.length names = List.length reqs
    /\ added model' = (added model ++ reqs)%list
    /\ List.length model'
       = (List.length model
          + (if String.eqb label "" then 1 else 2) * List.length reqs)%nat.
Proof.
  intros Hapi. induction reqs as [| req reqs IH]; intros model.
  - exists [], model. split; [reflexivity |]. split; [reflexivity |].
    rewrite app_nil_r. split; [reflexivity | cbn; lia].
  - destruct (place_panel_answered api label is_cb req model Hapi)
      as (name & m1 & E1 & A1 & L1).
    destruct (IH m1) as (names & m2 & E2 & Hl & A2 & L2).
    cbn [place_panels]. rewrite E1. cbn [bind fst snd].
    rewrite E2. cbn [bind fst snd].
    do 2 eexists. split; [reflexivity |].
    split; [cbn [List.length]; rewrite Hl; reflexivity |].
    split.
    + rewrite A2, A1, <- app_assoc. reflexivity.
    + rewrite L2, L1. cbn [List.length]. lia.
Qed.

Lemma place_slab_answered (api : area_api) (req : area_request)
    (model : list area_event) :
  answers_0_or_1 api ->
  exists name model',
    place_slab true api req model = Done (name, model')
    /\ added model' = (added model ++ [req])%list
    /\ List.length model' = (List.length model + 2)%nat.
Proof.
  intros Hapi.
  destruct (add_area_answered api req Hapi) as (status & name & E & Hs).
  destruct Hapi as (_ & _ & _ & Hdia).
  unfold place_slab. rewrite E. cbn [bind fst snd].
  rewrite AddByCoord_passes by exact Hs. cbn [bind].
  rewrite SetDiaphragm_passes by apply Hdia. cbn [bind].
  do 2 eexists. split; [reflexivity |].
  rewrite added_app, length_app. split; reflexivity.
Qed.

Lemma place_slabs_answered (api : area_api) (reqs : list area_request) :
  answers_0_or_1 api ->
  forall model,
  exists names model',
    place_slabs true api reqs model = Done (names, model')
    /\ List.length names = List.length reqs
    /\ added model' = (added model ++ reqs)%list
    /\ List.length model' = (List.length model + 2 * List.length reqs)%nat.
Proof.
  intros Hapi. induction reqs as [| req reqs IH]; intros model.
  - exists [], model. split; [reflexivity |]. split; [reflexivity |].
    rewrite app_nil_r. split; [reflexivity | cbn; lia].
  - destruct (place_slab_answered api req model Hapi)
      as (name & m1 & E1 & A1 & L1).
    destruct (IH m1) as (names & m2 & E2 & Hl & A2 & L2).
    cbn [place_slabs]. rewrite E1. cbn [bind fst snd].
    rewrite E2. cbn [bind fst snd].
    do 2 eexists. split; [reflexivity |].
    split; [cbn [List.length]; rewrite Hl; reflexivity |].
    split.
    + rewrite A2, A1, <- app_assoc. reflexivity.
    + rewrite L2, L1. cbn [List.length]. lia.
Qed.

Lemma api_answering_1_answers : answers_0_or_1 api_answering_1.
Proof.
  split; [| split; [| split]].
  - intros req. exists (PInt 1), []. split; [reflexivity | right; reflexivity].
  - intros n l. right. reflexivity.
  - intros n l. right. reflexivity.
  - intros n d. right. reflexivity.
Qed.

End AreaCalls.

(** X14.  [create_meshed_element] against an application that answers
    every call with status 0 or 1.  Coordinates that fail
    [validate_coordinates] give the empty list without any call.  Valid
    coordinates with a mesh of [n] panels give [n] names: one area object
    per panel is added, in the order of the mesh and with the request of
    that panel, each followed by its pier or spandrel assignment when a
    label is given.  A status of 1 is let through here, since the texts
    passed to [check_ret] start with ["AddByCoord("], ["SetPier("] and
    ["SetSpandrel("]; the frame objects' ["AddFrameByCoord("] is not let
    through. *)
Theorem meshed_element_goes_through (api : AreaObjects.area_api)
    (x_list y_list z_list : list R) (section base label : string)
    (h v : nat) (is_cb : bool) (model : list AreaObjects.area_event) :
  AreaSpec.answers_0_or_1 api ->
  (CommonGeometry.validate_coordinates x_list y_list z_list = false ->
   MeshedElements.create_meshed_element true api x_list y_list z_list
     section base label h v is_cb model = Py.Done ([], model))
  /\ (CommonGeometry.validate_coordinates x_list y_list z_list = true ->
      forall m,
        MeshedElements.element_mesh x_list y_list z_list h v = Py.Done m ->
        exists names model',
          MeshedElements.create_meshed_element true api x_list y_list z_list
            section base label h v is_cb model = Py.Done (names, model')
          /\ List.length names = List.length m
          /\ AreaSpec.added model'
             = (AreaSpec.added model
                ++ map (MeshedElements.panel_request section base v)
                       (Py.enumerate m))%list
          /\ List.length model'
             = (List.length model
                + (if String.eqb label "" then 1 else 2) * List.length m)%nat).
Proof.
  intros Hapi. unfold MeshedElements.create_meshed_element. split.
  - intros ->. reflexivity.
  - intros -> m ->. cbn [negb Py.bind].
    destruct (place_panels_answered api label is_cb
                (map (MeshedElements.panel_request section base v)
                     (Py.enumerate m)) Hapi model)
      as (names & model' & E & Hl & Ha & Hm).
    exists names, model'. split; [exact E |].
    rewrite length_map, enumerate_length in Hl, Hm.
    repeat split; assumption.
Qed.

Lemma meshed_element_goes_through_witness :
  (CommonGeometry.validate_coordinates [0; 2; 2; 0]%R [0; 0; 0; 0]%R
     [0; 0; 3; 3]%R = false ->
   MeshedElements.create_meshed_element true AreaSpec.api_answering_1
     [0; 2; 2; 0]%R [0; 0; 0; 0]%R [0; 0; 3; 3]%R
     "Wall-200" "HWL_X0_Y0_S1" "P_HWL_X0_Y0" 2 2 false []
   = Py.Done ([], []))
  /\ (CommonGeometry.validate_coordinates [0; 2; 2; 0]%R [0; 0; 0; 0]%R
        [0; 0; 3; 3]%R = true ->
      forall m,
        MeshedElements.element_mesh [0; 2; 2; 0]%R [0; 0; 0; 0]%R
          [0; 0; 3; 3]%R 2 2 = Py.Done m ->
        exists names model',
          MeshedElements.create_meshed_element true AreaSpec.api_answering_1
            [0; 2; 2; 0]%R [0; 0; 0; 0]%R [0; 0; 3; 3]%R
            "Wall-200" "HWL_X0_Y0_S1" "P_HWL_X0_Y0" 2 2 false []
          = Py.Done (names, model')
          /\ List.length names = List.length m
          /\ AreaSpec.added model'
             = (AreaSpec.added []
                ++ map (MeshedElements.panel_request "Wall-200"
                          "HWL_X0_Y0_S1" 2)
                       (Py.enumerate m))%list
          /\ List.length model'
             = (List.length (@nil AreaObjects.area_event)
                + (if String.eqb "P_HWL_X0_Y0" "" then 1 else 2)
                  * List.length m)%nat).
Proof.
  apply (meshed_element_goes_through AreaSpec.api_answering_1).
  apply api_answering_1_answers.
Defined.

(** ** Pier and spandrel labels *)

Section Labels.
Import Helpers Py GeometryCommon AreaObjects CommonGeometry AreaSpec.
Local Open Scope string_scope.

(** With the codes [(0, 1)] allowed, the statuses 0 and 1 pass under any
    name. *)
Lemma check_0_or_1_passes (func_name : string) (ret_val : pyval) :
  lets_through ret_val ->
  checked (check_ret true ret_val func_name [0; 1]%Z) = Done tt.
Proof.
  intros [H | H]; unfold check_ret; cbn [negb]; rewrite H;
    cbn [is_one Z.eqb andb in_ok_codes existsb orb negb].
  - reflexivity.
  - destruct (existsb (fun kw => contains kw func_name) benign_keywords);
      [| reflexivity].
    destruct (contains "Results." func_name
              || existsb (fun x => contains x func_name) result_keywords);
      reflexivity.
Qed.

Lemma member_false (label : string) (defined : list string) :
  member label defined = false <-> ~ In label defined.
Proof.
  unfold member. split.
  - intros H Hin.
    assert (existsb (String.eqb label) defined = true) as E.
    { apply existsb_exists. exists label. split; [exact Hin |].
      apply String.eqb_refl. }
    rewrite E in H. discriminate H.
  - intros H. destruct (existsb (String.eqb label) defined) eqn:E;
      [| reflexivity].
    apply existsb_exists in E. destruct E as (l & Hin & El).
    apply String.eqb_eq in El. subst l. contradiction.
Qed.

Lemma member_true (label : string) (defined : list string) :
  member label defined = true <-> In label defined.
Proof.
  unfold member. rewrite existsb_exists. split.
  - intros (l & Hin & El). apply String.eqb_eq in El. subst l. exact Hin.
  - intros Hin. exists label. split; [exact Hin | apply String.eqb_refl].
Qed.

Lemma NoDup_snoc {A : Type} (l : list A) (a : A) :
  NoDup l -> ~ In a l -> NoDup (l ++ [a]).
Proof.
  intros Hl Ha. induction Hl as [| b l Hb Hl IH].
  - constructor; [intros [] | constructor].
  - cbn [app]. constructor.
    + intros Hin. apply in_app_or in Hin.
      destruct Hin as [Hin | [E | []]]; [contradiction |].
      apply Ha. left. symmetry. exact E.
    + apply IH. intros Hin. apply Ha. right. exact Hin.
Qed.

Lemma pier_calls_app (c1 c2 : list label_call) :
  pier_calls (c1 ++ c2) = (pier_calls c1 ++ pier_calls c2)%list.
Proof. unfold pier_calls. apply flat_map_app. Qed.

Lemma spandrel_calls_app (c1 c2 : list label_call) :
  spandrel_calls (c1 ++ c2) = (spandrel_calls c1 ++ spandrel_calls c2)%list.
Proof. unfold spandrel_calls. apply flat_map_app. Qed.

(** One member more. *)
Lemma define_label_step (api : label_api) (seen : list StructuralElementPlan)
    (el : StructuralElementPlan)
    (st : list string * list string * list label_call) :
  labels_answer_0_or_1 api -> labels_inv seen st ->
  exists st', define_label true api el st = Done st'
              /\ labels_inv (seen ++ [el]) st'.
Proof.
  intros [Hp Hs] Hinv. destruct st as [[piers spandrels] calls].
  destruct Hinv as (Np & Ns & Cp & Cs & Mp & Ms).
  unfold define_label. fold (label_of el).
  assert (forall l (b : bool) (known : list string),
            (forall l0, In l0 known <->
               exists e, In e seen /\ is_coupling_beam e = b
                         /\ label_of e = l0) ->
            is_coupling_beam el <> b ->
            (In l known <->
               exists e, In e (seen ++ [el]) /\ is_coupling_beam e = b
                         /\ label_of e = l)) as Hother.
  { intros l b known Hk Hne. rewrite Hk. split.
    - intros (e & He & Hb & Hl). exists e. split; [| split; assumption].
      apply in_or_app. left. exact He.
    - intros (e & He & Hb & Hl). apply in_app_or in He.
      destruct He as [He | [<- | []]]; [| contradiction].
      exists e. repeat split; assumption. }
  assert (forall l (b : bool) (known : list string),
            (forall l0, In l0 known <->
               exists e, In e seen /\ is_coupling_beam e = b
                         /\ label_of e = l0) ->
            is_coupling_beam el = b ->
            (In l (known ++ [label_of el]) <->
               exists e, In e (seen ++ [el]) /\ is_coupling_beam e = b
                         /\ label_of e = l)) as Hnew.
  { intros l b known Hk Hb. split.
    - intros Hin. apply in_app_or in Hin. destruct Hin as [Hin | [<- | []]].
      + apply Hk in Hin. destruct Hin as (e & He & Hbe & Hl).
        exists e. split; [| split; assumption].
        apply in_or_app. left. exact He.
      + exists el. split; [| split; [exact Hb | reflexivity]].
        apply in_or_app. right. left. reflexivity.
    - intros (e & He & Hbe & Hl). apply in_app_or in He.
      apply in_or_app. destruct He as [He | [<- | []]].
      + left. apply Hk. exists e. repeat split; assumption.
      + right. left. exact Hl. }
  assert (forall l (b : bool) (known : list string),
            (forall l0, In l0 known <->
               exists e, In e seen /\ is_coupling_beam e = b
                         /\ label_of e = l0) ->
            is_coupling_beam el = b -> In (label_of el) known ->
            (In l known <->
               exists e, In e (seen ++ [el]) /\ is_coupling_beam e = b
                         /\ label_of e = l)) as Hsame.
  { intros l b known Hk Hb Hknown. split.
    - intros Hin. apply Hk in Hin. destruct Hin as (e & He & Hbe & Hl).
      exists e. split; [| split; assumption].
      apply in_or_app. left. exact He.
    - intros (e & He & Hbe & Hl). apply in_app_or in He.
      destruct He as [He | [<- | []]].
      + apply Hk. exists e. repeat split; assumption.
      + rewrite <- Hl. exact Hknown. }
  destruct (is_coupling_beam el) eqn:Hcb; cbn [andb negb].
  - destruct (member (label_of el) spandrels) eqn:Hm; cbn [negb].
    + eexists. split; [reflexivity |].
      apply member_true in Hm.
      repeat split; try assumption;
        try (apply (Hother _ false piers Mp); discriminate);
        try (apply (Hsame _ true spandrels Ms); [reflexivity | exact Hm]).
    + rewrite check_0_or_1_passes by apply Hs. cbn [bind].
      eexists. split; [reflexivity |].
      apply member_false in Hm.
      split; [exact Np |]. split; [apply NoDup_snoc; assumption |].
      split; [rewrite pier_calls_app, Cp; apply app_nil_r |].
      split; [rewrite spandrel_calls_app, Cs; reflexivity |].
      split; intros l.
      * apply (Hother _ false piers Mp). discriminate.
      * apply (Hnew _ true spandrels Ms). reflexivity.
  - destruct (member (label_of el) piers) eqn:Hm; cbn [negb].
    + eexists. split; [reflexivity |].
      apply member_true in Hm.
      repeat split; try assumption;
        try (apply (Hother _ true spandrels Ms); discriminate);
        try (apply (Hsame _ false piers Mp); [reflexivity | exact Hm]).
    + rewrite check_0_or_1_passes by apply Hp. cbn [bind].
      eexists. split; [reflexivity |].
      apply member_false in Hm.
      split; [apply NoDup_snoc; assumption |]. split; [exact Ns |].
      split; [rewrite pier_calls_app, Cp; reflexivity |].
      split; [rewrite spandrel_calls_app, Cs; apply app_nil_r |].
      split; intros l.
      * apply (Hnew _ false piers Mp). reflexivity.
      * apply (Hother _ true spandrels Ms). discriminate.
Qed.

Lemma define_labels_run (api : label_api)
    (layout seen : list StructuralElementPlan)
    (st : list string * list string * list label_call) :
  labels_answer_0_or_1 api -> labels_inv seen st ->
  exists st', define_labels true api layout st = Done st'
              /\ labels_inv (seen ++ layout) st'.
Proof.
  intros Hapi. revert seen st.
  induction layout as [| el layout IH]; intros seen st Hinv.
  - exists st. rewrite app_nil_r. split; [reflexivity | exact Hinv].
  - destruct (define_label_step api seen el st Hapi Hinv)
      as (st1 & E1 & Hinv1).
    destruct (IH (seen ++ [el])%list st1 Hinv1) as (st2 & E2 & Hinv2).
    exists st2. cbn [define_labels]. rewrite E1. cbn [bind].
    split; [exact E2 |].
    rewrite <- app_assoc in Hinv2. exact Hinv2.
Qed.

Lemma labels_answering_1_answers : labels_answer_0_or_1 labels_answering_1.
Proof. split; intros; right; reflexivity. Qed.

End Labels.

(** X15.  [create_pier_spandrel_labels] defines every label once.  Against
    an application that answers with status 0 or 1 it goes through the
    whole layout and returns the two sets; the [SetPier] calls made are
    exactly the pier labels, each once and in the order of first
    appearance, and likewise the [SetSpandrel] calls; a label is in the
    pier set exactly when a member that is not a coupling beam carries it,
    and in the spandrel set exactly when a coupling beam carries it.  So
    the label that [get_story_instance_details] hands to
    [create_meshed_element] for a member has been defined, in the set of
    the member's kind. *)
Theorem labels_defined_once (api : CommonGeometry.label_api)
    (layout : list GeometryCommon.StructuralElementPlan) :
  AreaSpec.labels_answer_0_or_1 api ->
  exists piers spandrels calls,
    CommonGeometry.create_pier_spandrel_labels true api layout
    = Py.Done (piers, spandrels, calls)
    /\ AreaSpec.labels_inv layout (piers, spandrels, calls)
    /\ forall el story_number,
         In el layout ->
         In (CommonGeometry.pier_spandrel_definition_name
               (CommonGeometry.get_story_instance_details el story_number))
            (if GeometryCommon.is_coupling_beam el then spandrels
             else piers).
Proof.
  intros Hapi.
  destruct (define_labels_run api layout [] ([], [], []) Hapi)
    as ([[piers spandrels] calls] & E & Hinv).
  { split; [constructor |]. split; [constructor |].
    split; [reflexivity |]. split; [reflexivity |].
    split; intros l; (split; [intros [] | intros (e & [] & _)]). }
  exists piers, spandrels, calls. split; [exact E |].
  split; [exact Hinv |].
  intros el s Hin. destruct Hinv as (_ & _ & _ & _ & Mp & Ms).
  cbn [CommonGeometry.get_story_instance_details
         CommonGeometry.pier_spandrel_definition_name].
  destruct (GeometryCommon.is_coupling_beam el) eqn:Hcb.
  - apply Ms. exists el. repeat split; assumption.
  - apply Mp. exists el. repeat split; assumption.
Qed.

Lemma labels_defined_once_witness :
  exists piers spandrels calls,
    CommonGeometry.create_pier_spandrel_labels true
      AreaSpec.labels_answering_1
      (ShearWallGeometry.generate_shear_wall_planar_layout
         Config.config_frame)
    = Py.Done (piers, spandrels, calls)
    /\ AreaSpec.labels_inv
         (ShearWallGeometry.generate_shear_wall_planar_layout
            Config.config_frame)
         (piers, spandrels, calls)
    /\ forall el story_number,
         In el (ShearWallGeometry.generate_shear_wall_planar_layout
                  Config.config_frame) ->
         In (CommonGeometry.pier_spandrel_definition_name
               (CommonGeometry.get_story_instance_details el story_number))
            (if GeometryCommon.is_coupling_beam el then spandrels
             else piers).
Proof.
  apply (labels_defined_once AreaSpec.labels_answering_1).
  apply labels_answering_1_answers.
Defined.


(** ** Floor slabs *)

Section Slabs.
Import Config MoreConfig Helpers Py GeometryCommon MeshUtils GeometrySpec.
Import FrameGeometry FrameStructure AreaObjects CommonGeometry.
Import MeshedElements AreaSpec SlabGeometry StorySpec.
Local Open Scope R_scope.

Lemma width_defined (a : R) (l : list R) : exists w, width (a :: l) = Done w.
Proof.
  unfold width. destruct (Nat.ltb 1 (distinct_values (a :: l)));
    eexists; reflexivity.
Qed.

(** On non-empty lists the dimensions are defined and hold the extents. *)
Lemma dimensions_defined (a b : R) (xs ys : list R) :
  exists dims,
    calculate_element_dimensions (a :: xs) (b :: ys) = Done dims
    /\ (x_min dims, x_max dims) = extent (a :: xs)
    /\ (y_min dims, y_max dims) = extent (b :: ys).
Proof.
  unfold calculate_element_dimensions.
  destruct (width_defined a xs) as (wx & ->).
  destruct (width_defined b ys) as (wy & ->).
  cbn [bind py_min py_max]. eexists. split; [reflexivity |].
  split; reflexivity.
Qed.


(** Whatever the corner coordinates, a four-point slab is meshed into
    [mesh_x * mesh_y] cells. *)
Lemma four_point_slab_mesh (xa xb xc xd ya yb yc yd z : R) (mx my : nat) :
  (0 < mx)%nat -> (0 < my)%nat ->
  exists cell,
    slab_mesh_of [xa; xb; xc; xd] [ya; yb; yc; yd] [z; z; z; z] mx my
    = Done (grid_loop mx my cell).
Proof.
  intros Hmx Hmy. unfold slab_mesh_of.
  destruct (dimensions_defined xa ya [xb; xc; xd] [yb; yc; yd])
    as (dims & -> & _).
  cbn [bind first_of]. unfold create_slab_mesh_grid.
  rewrite !positive_count by assumption. eexists. reflexivity.
Qed.

Lemma bay_slab_goes_through (mc : more_config) (api : area_api)
    (grid_x grid_y : list R) (s ix iy : nat) (z : R)
    (model : list area_event) :
  answers_0_or_1 api ->
  (0 < SLAB_MESH_X mc)%nat -> (0 < SLAB_MESH_Y mc)%nat ->
  exists names model',
    create_meshed_slab true api
      (sl_x (bay_slab grid_x grid_y s z ix iy))
      (sl_y (bay_slab grid_x grid_y s z ix iy))
      (sl_z (bay_slab grid_x grid_y s z ix iy))
      (SLAB_SECTION_NAME mc) (sl_name (bay_slab grid_x grid_y s z ix iy))
      (SLAB_MESH_X mc) (SLAB_MESH_Y mc) model
    = Done (names, model')
    /\ List.length names = (SLAB_MESH_X mc * SLAB_MESH_Y mc)%nat
    /\ List.length (added model')
       = (List.length (added model) + List.length names)%nat.
Proof.
  intros Hapi Hmx Hmy. unfold create_meshed_slab, bay_slab.
  cbn [sl_x sl_y sl_z sl_name validate_coordinates List.length Nat.eqb
         Nat.ltb Nat.leb andb negb].
  match goal with
  | |- context [slab_mesh_of [?xa; ?xb; ?xc; ?xd] [?ya; ?yb; ?yc; ?yd]
                  [z; z; z; z] _ _] =>
      destruct (four_point_slab_mesh xa xb xc xd ya yb yc yd z
                  (SLAB_MESH_X mc) (SLAB_MESH_Y mc) Hmx Hmy) as (cell & ->)
  end.
  cbn [bind].
  match goal with
  | |- context [place_slabs true api ?reqs model] =>
      destruct (place_slabs_answered api reqs Hapi model)
        as (names & model' & E & Hl & Ha & _)
  end.
  exists names, model'. split; [exact E |].
  rewrite length_map, enumerate_length, grid_loop_length in Hl.
  split; [exact Hl |].
  rewrite Ha, length_app, length_map, enumerate_length, grid_loop_length.
  rewrite Hl. reflexivity.
Qed.

Lemma run_slab_jobs_answered (cfg : config) (mc : more_config)
    (api : area_api) (grid_x grid_y : list R) (jobs : list slab_job) :
  answers_0_or_1 api ->
  (0 < SLAB_MESH_X mc)%nat -> (0 < SLAB_MESH_Y mc)%nat ->
  Forall (fun job => exists s z ix iy,
                       job = bay_slab grid_x grid_y s z ix iy) jobs ->
  forall st,
  exists names model',
    run_slab_jobs mc true api jobs st = Done (names, model')
    /\ List.length names
       = (List.length (fst st)
          + List.length jobs * (SLAB_MESH_X mc * SLAB_MESH_Y mc))%nat
    /\ List.length (added model')
       = (List.length (added (snd st))
          + List.length jobs * (SLAB_MESH_X mc * SLAB_MESH_Y mc))%nat.
Proof.
  intros Hapi Hmx Hmy Hjobs.
  induction Hjobs as [| job jobs (s & z & ix & iy & ->) _ IH]; intros st.
  - exists (fst st), (snd st). destruct st as [n m].
    split; [reflexivity |]. cbn [List.length fst snd]. split; lia.
  - destruct (bay_slab_goes_through mc api grid_x grid_y s ix iy z (snd st)
                Hapi Hmx Hmy) as (names1 & m1 & E1 & L1 & A1).
    cbn [run_slab_jobs]. rewrite E1. cbn [bind fst snd].
    destruct (IH ((fst st ++ names1)%list, m1))
      as (names & model' & E & Hl & Ha).
    exists names, model'. split; [exact E |].
    cbn [fst snd] in Hl, Ha. rewrite length_app in Hl.
    cbn [List.length]. split; lia.
Qed.

Lemma slab_jobs_shape (cfg : config) (heights : nat -> option R) :
  Forall (fun job => exists s z ix iy,
                       job = bay_slab (fst (generate_grid_coordinates cfg))
                               (snd (generate_grid_coordinates cfg))
                               s z ix iy)
         (List.concat (slab_jobs cfg heights)).
Proof.
  apply Forall_forall. intros job Hin. unfold slab_jobs in Hin.
  destruct (generate_grid_coordinates cfg) as [gx gy]. cbn [fst snd].
  apply in_concat_stories in Hin. destruct Hin as (s & zb & zt & Hin).
  unfold story_slabs in Hin. apply in_flat_map in Hin.
  destruct Hin as (ix & _ & Hin). apply in_map_iff in Hin.
  destruct Hin as (iy & <- & _). do 4 eexists. reflexivity.
Qed.

Lemma slab_jobs_count (cfg : config) (heights : nat -> option R) :
  List.length (List.concat (slab_jobs cfg heights))
  = (NUM_STORIES cfg
     * ((NUM_GRID_LINES_X cfg - 1) * (NUM_GRID_LINES_Y cfg - 1)))%nat.
Proof.
  unfold slab_jobs. destruct (generate_grid_coordinates cfg) as [gx gy].
  rewrite (concat_constant_length
             ((NUM_GRID_LINES_X cfg - 1) * (NUM_GRID_LINES_Y cfg - 1))).
  - rewrite stories_length. reflexivity.
  - apply stories_all. intros s zb zt. unfold story_slabs.
    rewrite flat_map_constant_length with (c := (NUM_GRID_LINES_Y cfg - 1)%nat).
    + rewrite length_seq. reflexivity.
    + intros ix _. rewrite length_map, length_seq. reflexivity.
Qed.

End Slabs.

(** X16.  The floor slabs are counted by the statistics.  On a grid with
    at least one line in each direction, with positive slab mesh counts and
    an application that answers with status 0 or 1, [create_frame_slabs]
    returns [slab_elements] names,
    [(nx - 1) * (ny - 1) * NUM_STORIES * SLAB_MESH_X * SLAB_MESH_Y], and
    adds that many area objects, whatever the spacings and story heights;
    [create_shear_wall_slabs] makes the same calls and counts the same
    number. *)
Theorem slabs_are_counted (cfg : Config.config) (mc : MoreConfig.more_config)
    (api : AreaObjects.area_api) (heights : nat -> option R)
    (model : list AreaObjects.area_event) :
  AreaSpec.answers_0_or_1 api ->
  (0 < MoreConfig.SLAB_MESH_X mc)%nat ->
  (0 < MoreConfig.SLAB_MESH_Y mc)%nat ->
  (1 <= Config.NUM_GRID_LINES_X cfg)%nat ->
  (1 <= Config.NUM_GRID_LINES_Y cfg)%nat ->
  exists names model',
    SlabGeometry.create_frame_slabs cfg mc true api heights model
    = Py.Done (names, model')
    /\ SlabGeometry.create_shear_wall_slabs cfg mc true api heights model
       = Py.Done (List.length names, model')
    /\ Z.of_nat (List.length names)
       = FrameStructure.slab_elements
           (FrameStructure.get_frame_statistics cfg mc)
    /\ List.length (AreaSpec.added model')
       = (List.length (AreaSpec.added model) + List.length names)%nat.
Proof.
  intros Hapi Hmx Hmy Hx Hy.
  destruct (run_slab_jobs_answered cfg mc api _ _ _ Hapi Hmx Hmy
              (slab_jobs_shape cfg heights) ([], model))
    as (names & model' & E & Hl & Ha).
  exists names, model'.
  unfold SlabGeometry.create_frame_slabs,
    SlabGeometry.create_shear_wall_slabs.
  rewrite E. cbn [Py.bind fst snd].
  split; [reflexivity |]. split; [reflexivity |].
  cbn [fst snd List.length] in Hl, Ha. rewrite slab_jobs_count in Hl, Ha.
  split; [| lia].
  rewrite Hl. unfold FrameStructure.get_frame_statistics.
  destruct (GeometryCommon.generate_grid_coordinates cfg) as [gx gy].
  cbn [FrameStructure.slab_elements]. nia.
Qed.

Lemma slabs_are_counted_witness :
  exists names model',
    SlabGeometry.create_frame_slabs Config.config_frame
      MoreConfig.more_config_frame true AreaSpec.api_answering_1
      StorySpec.example_heights []
    = Py.Done (names, model')
    /\ SlabGeometry.create_shear_wall_slabs Config.config_frame
         MoreConfig.more_config_frame true AreaSpec.api_answering_1
         StorySpec.example_heights []
       = Py.Done (List.length names, model')
    /\ Z.of_nat (List.length names)
       = FrameStructure.slab_elements
           (FrameStructure.get_frame_statistics Config.config_frame
              MoreConfig.more_config_frame)
    /\ List.length (AreaSpec.added model')
       = (List.length (AreaSpec.added []) + List.length names)%nat.
Proof.
  apply (slabs_are_counted Config.config_frame MoreConfig.more_config_frame
           AreaSpec.api_answering_1 StorySpec.example_heights []).
  - apply api_answering_1_answers.
  - cbn. lia.
  - cbn. lia.
  - cbn. lia.
  - cbn. lia.
Defined.





(** ** The wall structure *)

Section WallStructure.
Import Config MoreConfig Helpers Py GeometryCommon ShearWallGeometry.
Import MeshUtils GeometrySpec FrameGeometry FrameStructure AreaObjects.
Import CommonGeometry MeshedElements AreaSpec SlabGeometry StorySpec.
Import ShearWallStructure WallSpec.
Local Open Scope R_scope.

(** A member of four points with four elevations is meshed whenever the
    counts are positive. *)
Lemma element_mesh_defined (xs ys zs : list R) (h v : nat) :
  List.length xs = 4%nat -> List.length ys = 4%nat ->
  List.length zs = 4%nat -> (0 < h)%nat -> (0 < v)%nat ->
  exists cell, element_mesh xs ys zs h v = Done (grid_loop h v cell).
Proof.
  intros Hx Hy Hz Hh Hv.
  destruct xs as [| xa xs]; [discriminate |].
  destruct ys as [| ya ys]; [discriminate |].
  destruct zs as [| za zs]; [discriminate |].
  unfold element_mesh.
  destruct (dimensions_defined xa ya xs ys) as (dims & -> & _).
  cbn [bind]. destruct (is_x_direction dims);
    cbn [py_max py_min bind first_of]; unfold create_mesh_grid;
    cbn [String.eqb Ascii.eqb Bool.eqb];
    rewrite !positive_count by assumption; eexists; reflexivity.
Qed.


(** [create_meshed_element] on valid coordinates with a mesh: one name and
    one area object per panel. *)
Lemma meshed_element_answered (api : area_api) (xs ys zs : list R)
    (section base label : string) (h v : nat) (is_cb : bool)
    (model : list area_event) (m : list mesh_element) :
  answers_0_or_1 api ->
  validate_coordinates xs ys zs = true ->
  element_mesh xs ys zs h v = Done m ->
  exists names model',
    create_meshed_element true api xs ys zs section base label h v is_cb
      model = Done (names, model')
    /\ List.length names = List.length m
    /\ added model'
       = (added model ++ map (panel_request section base v) (enumerate m))%list.
Proof.
  intros Hapi Hval Hm. unfold create_meshed_element.
  rewrite Hval, Hm. cbn [negb bind].
  destruct (place_panels_answered api label is_cb
              (map (panel_request section base v) (enumerate m)) Hapi model)
    as (names & model' & E & Hl & Ha & _).
  exists names, model'. split; [exact E |].
  rewrite length_map, enumerate_length in Hl. split; assumption.
Qed.

Lemma four_point_lists_valid (xs ys : list R) (za zb zc zd : R) :
  List.length xs = 4%nat -> List.length ys = 4%nat ->
  validate_coordinates xs ys [za; zb; zc; zd] = true.
Proof.
  intros Hx Hy. unfold validate_coordinates. rewrite Hx, Hy. reflexivity.
Qed.

Lemma member_z_length (mc : more_config) (zb zt : R)
    (el : StructuralElementPlan) :
  List.length (member_z mc zb zt el) = 4%nat.
Proof. unfold member_z. destruct (is_coupling_beam el); reflexivity. Qed.

(** One member of the layout in one story. *)
Lemma place_member_grows (P : area_request -> Prop) (mc : more_config)
    (api : area_api) (s : nat) (zb zt : R) (el : StructuralElementPlan)
    (st : assembly) :
  answers_0_or_1 api -> four_points el ->
  (0 < member_mesh_h mc el)%nat -> (0 < member_mesh_v mc el)%nat ->
  panels_satisfy P mc s zb zt el ->
  exists st',
    place_member mc true api s zb zt (zt - COUPLING_BEAM_HEIGHT mc) zt el st
    = Done st'
    /\ grows_by P
         (if is_coupling_beam el then 0
          else SHEAR_WALL_MESH_H mc * SHEAR_WALL_MESH_V mc)
         (if is_coupling_beam el
          then COUPLING_BEAM_MESH_H mc * COUPLING_BEAM_MESH_V mc else 0)
         st st'.
Proof.
  intros Hapi [Hx Hy] Hh Hv HP. destruct st as [[wn cn] model].
  unfold panels_satisfy, member_z, member_mesh_h, member_mesh_v in *.
  unfold place_member.
  cbn [get_story_instance_details xy_coords_planar area_object_name
         instance_section_name instance_is_coupling_beam
         pier_spandrel_definition_name fst snd].
  destruct (is_coupling_beam el).
  - destruct (element_mesh_defined (x_coords el) (y_coords el)
                [zt - COUPLING_BEAM_HEIGHT mc; zt - COUPLING_BEAM_HEIGHT mc;
                 zt; zt]
                (COUPLING_BEAM_MESH_H mc) (COUPLING_BEAM_MESH_V mc)
                Hx Hy eq_refl Hh Hv) as (cell & Hm).
    destruct (meshed_element_answered api _ _ _ (section_name el)
                (base_name_template el ++ "_S" ++ str_nat s)%string
                (element_type_prefix el ++ "_" ++ base_name_template el)%string
                _ _ true model _ Hapi
                (four_point_lists_valid _ _ _ _ _ _ Hx Hy) Hm)
      as (names & model' & E & Hl & Ha).
    rewrite E. cbn [bind fst snd]. eexists. split; [reflexivity |].
    rewrite grid_loop_length in Hl.
    unfold grows_by. cbn [fst snd].
    split; [lia |]. split; [rewrite length_app; lia |].
    split.
    + rewrite Ha, length_app, length_map, enumerate_length, grid_loop_length.
      lia.
    + intros HF. rewrite Ha. apply Forall_app. split; [exact HF |].
      apply Forall_forall. intros req Hreq. apply in_map_iff in Hreq.
      destruct Hreq as (item & <- & Hitem). exact (HP _ Hm item Hitem).
  - destruct (element_mesh_defined (x_coords el) (y_coords el)
                [zb; zb; zt; zt]
                (SHEAR_WALL_MESH_H mc) (SHEAR_WALL_MESH_V mc)
                Hx Hy eq_refl Hh Hv) as (cell & Hm).
    destruct (meshed_element_answered api _ _ _ (section_name el)
                (base_name_template el ++ "_S" ++ str_nat s)%string
                (element_type_prefix el ++ "_" ++ base_name_template el)%string
                _ _ false model _ Hapi
                (four_point_lists_valid _ _ _ _ _ _ Hx Hy) Hm)
      as (names & model' & E & Hl & Ha).
    rewrite E. cbn [bind fst snd]. eexists. split; [reflexivity |].
    rewrite grid_loop_length in Hl.
    unfold grows_by. cbn [fst snd].
    split; [rewrite length_app; lia |]. split; [lia |].
    split.
    + rewrite Ha, length_app, length_map, enumerate_length, grid_loop_length.
      lia.
    + intros HF. rewrite Ha. apply Forall_app. split; [exact HF |].
      apply Forall_forall. intros req Hreq. apply in_map_iff in Hreq.
      destruct Hreq as (item & <- & Hitem). exact (HP _ Hm item Hitem).
Qed.

Lemma grows_by_refl (P : area_request -> Prop) (st : assembly) :
  grows_by P 0 0 st st.
Proof. unfold grows_by. repeat split; try lia. intros H; exact H. Qed.

Lemma grows_by_trans (P : area_request -> Prop) (w1 c1 w2 c2 : nat)
    (st1 st2 st3 : assembly) :
  grows_by P w1 c1 st1 st2 -> grows_by P w2 c2 st2 st3 ->
  grows_by P (w1 + w2) (c1 + c2) st1 st3.
Proof.
  intros (A1 & B1 & C1 & D1) (A2 & B2 & C2 & D2). unfold grows_by.
  repeat split; try lia. intros H. apply D2, D1, H.
Qed.

(** All members of the layout in one story. *)
Lemma place_members_grow (P : area_request -> Prop) (mc : more_config)
    (api : area_api) (s : nat) (zb zt : R)
    (layout : list StructuralElementPlan) :
  answers_0_or_1 api ->
  (0 < SHEAR_WALL_MESH_H mc)%nat -> (0 < SHEAR_WALL_MESH_V mc)%nat ->
  (0 < COUPLING_BEAM_MESH_H mc)%nat -> (0 < COUPLING_BEAM_MESH_V mc)%nat ->
  Forall four_points layout ->
  Forall (panels_satisfy P mc s zb zt) layout ->
  forall st,
  exists st',
    place_members mc true api s zb zt (zt - COUPLING_BEAM_HEIGHT mc) zt
      layout st = Done st'
    /\ grows_by P
         (List.length (walls layout)
          * (SHEAR_WALL_MESH_H mc * SHEAR_WALL_MESH_V mc))
         (List.length (coupling_beams layout)
          * (COUPLING_BEAM_MESH_H mc * COUPLING_BEAM_MESH_V mc))
         st st'.
Proof.
  intros Hapi Hwh Hwv Hch Hcv H4 HP.
  induction layout as [| el layout IH]; intros st.
  - exists st. split; [reflexivity | apply grows_by_refl].
  - inversion H4 as [| ? ? H4el H4rest]; subst.
    inversion HP as [| ? ? HPel HPrest]; subst.
    destruct (place_member_grows P mc api s zb zt el st Hapi H4el)
      as (st1 & E1 & G1);
      [unfold member_mesh_h; destruct (is_coupling_beam el); assumption
      | unfold member_mesh_v; destruct (is_coupling_beam el); assumption
      | exact HPel |].
    destruct (IH H4rest HPrest st1) as (st2 & E2 & G2).
    exists st2. cbn [place_members]. rewrite E1. cbn [bind].
    split; [exact E2 |].
    pose proof (grows_by_trans P _ _ _ _ st st1 st2 G1 G2) as G.
    unfold walls, coupling_beams in *. cbn [filter].
    destruct (is_coupling_beam el); cbn [negb List.length] in *.
    + replace (List.length
                 (filter (fun el0 => negb (is_coupling_beam el0)) layout)
               * (SHEAR_WALL_MESH_H mc * SHEAR_WALL_MESH_V mc))%nat
        with (0 + List.length
                    (filter (fun el0 => negb (is_coupling_beam el0)) layout)
                  * (SHEAR_WALL_MESH_H mc * SHEAR_WALL_MESH_V mc))%nat
        by lia.
      replace (S (List.length (filter is_coupling_beam layout))
               * (COUPLING_BEAM_MESH_H mc * COUPLING_BEAM_MESH_V mc))%nat
        with (COUPLING_BEAM_MESH_H mc * COUPLING_BEAM_MESH_V mc
              + List.length (filter is_coupling_beam layout)
                * (COUPLING_BEAM_MESH_H mc * COUPLING_BEAM_MESH_V mc))%nat
        by lia.
      exact G.
    + replace (S (List.length
                    (filter (fun el0 => negb (is_coupling_beam el0)) layout))
               * (SHEAR_WALL_MESH_H mc * SHEAR_WALL_MESH_V mc))%nat
        with (SHEAR_WALL_MESH_H mc * SHEAR_WALL_MESH_V mc
              + List.length
                  (filter (fun el0 => negb (is_coupling_beam el0)) layout)
                * (SHEAR_WALL_MESH_H mc * SHEAR_WALL_MESH_V mc))%nat
        by lia.
      replace (List.length (filter is_coupling_beam layout)
               * (COUPLING_BEAM_MESH_H mc * COUPLING_BEAM_MESH_V mc))%nat
        with (0 + List.length (filter is_coupling_beam layout)
                  * (COUPLING_BEAM_MESH_H mc * COUPLING_BEAM_MESH_V mc))%nat
        by lia.
      exact G.
Qed.


Lemma grows_by_eq (P : area_request -> Prop) (w c w' c' : nat)
    (st st' : assembly) :
  w = w' -> c = c' -> grows_by P w c st st' -> grows_by P w' c' st st'.
Proof. intros -> ->. exact (fun H => H). Qed.

(** The height the wall loop gives story [i_s + 1] is the one recorded for
    it. *)
Lemma wall_story_height (cfg : config) (mc : more_config) (i_s : nat) :
  (i_s < NUM_STORIES cfg)%nat ->
  frame_story_heights cfg mc (i_s + 1)
  = Some (if Nat.ltb 0 i_s then TYPICAL_STORY_HEIGHT cfg
          else BOTTOM_STORY_HEIGHT mc).
Proof.
  intros Hi. unfold frame_story_heights. rewrite Nat.add_1_r.
  replace (Nat.leb (S i_s) (NUM_STORIES cfg)) with true
    by (symmetry; apply Nat.leb_le; lia).
  reflexivity.
Qed.

Lemma top_of_step (cfg : config) (mc : more_config) (i_s : nat) :
  (i_s < NUM_STORIES cfg)%nat ->
  top_of cfg mc (S i_s)
  = top_of cfg mc i_s
    + (if Nat.ltb 0 i_s then TYPICAL_STORY_HEIGHT cfg
       else BOTTOM_STORY_HEIGHT mc).
Proof.
  intros Hi. unfold top_of. rewrite elevation_step. unfold story_height.
  rewrite <- (Nat.add_1_r i_s), wall_story_height by exact Hi. reflexivity.
Qed.

(** The loop over the stories, from story index [i_s] on. *)
Lemma wall_stories_grow (P : area_request -> Prop) (cfg : config)
    (mc : more_config) (api : area_api)
    (layout : list StructuralElementPlan) :
  answers_0_or_1 api ->
  (0 < SHEAR_WALL_MESH_H mc)%nat -> (0 < SHEAR_WALL_MESH_V mc)%nat ->
  (0 < COUPLING_BEAM_MESH_H mc)%nat -> (0 < COUPLING_BEAM_MESH_V mc)%nat ->
  Forall four_points layout ->
  (forall k, (k < NUM_STORIES cfg)%nat ->
             Forall (panels_satisfy P mc (k + 1) (top_of cfg mc k)
                       (top_of cfg mc (S k))) layout) ->
  forall count i_s dict st,
  (i_s + count = NUM_STORIES cfg)%nat ->
  exists dict' st',
    wall_stories cfg mc true api layout i_s count (top_of cfg mc i_s) dict st
    = Done (dict', st')
    /\ grows_by P
         (count * (List.length (walls layout)
                   * (SHEAR_WALL_MESH_H mc * SHEAR_WALL_MESH_V mc)))
         (count * (List.length (coupling_beams layout)
                   * (COUPLING_BEAM_MESH_H mc * COUPLING_BEAM_MESH_V mc)))
         st st'
    /\ forall s,
         dict' s = if Nat.ltb i_s s && Nat.leb s (NUM_STORIES cfg)
                   then frame_story_heights cfg mc s else dict s.
Proof.
  intros Hapi Hwh Hwv Hch Hcv H4 HP.
  induction count as [| count IH]; intros i_s dict st Hn.
  - exists dict, st. split; [reflexivity |].
    split; [apply grows_by_refl |].
    intros s. destruct (Nat.ltb_spec i_s s), (Nat.leb_spec s (NUM_STORIES cfg));
      cbn [andb]; try reflexivity; lia.
  - cbn [wall_stories]. rewrite <- top_of_step by lia.
    destruct (place_members_grow P mc api (i_s + 1) (top_of cfg mc i_s)
                (top_of cfg mc (S i_s)) layout Hapi Hwh Hwv Hch Hcv H4
                (HP i_s ltac:(lia)) st) as (st1 & E1 & G1).
    rewrite E1. cbn [bind].
    destruct (IH (S i_s)
                (dict_set dict (i_s + 1)
                   (if Nat.ltb 0 i_s then TYPICAL_STORY_HEIGHT cfg
                    else BOTTOM_STORY_HEIGHT mc)) st1 ltac:(lia))
      as (dict' & st' & E2 & G2 & D2).
    exists dict', st'. split; [exact E2 |]. split.
    + eapply grows_by_eq; [| | exact (grows_by_trans P _ _ _ _ _ _ _ G1 G2)];
        lia.
    + intros s. rewrite D2. unfold dict_set.
      destruct (Nat.eqb_spec s (i_s + 1)) as [-> | Hne].
      * replace (Nat.ltb (S i_s) (i_s + 1)) with false
          by (symmetry; apply Nat.ltb_ge; lia).
        replace (Nat.ltb i_s (i_s + 1)) with true
          by (symmetry; apply Nat.ltb_lt; lia).
        replace (Nat.leb (i_s + 1) (NUM_STORIES cfg)) with true
          by (symmetry; apply Nat.leb_le; lia).
        cbn [andb]. symmetry. apply wall_story_height. lia.
      * destruct (Nat.ltb_spec (S i_s) s), (Nat.ltb_spec i_s s);
          try reflexivity; lia.
Qed.

(** The dictionary of story heights the wall loop leaves behind. *)
Lemma recorded_heights (cfg : config) (mc : more_config) (s : nat) :
  (if Nat.ltb 0 s && Nat.leb s (NUM_STORIES cfg)
   then frame_story_heights cfg mc s else None)
  = frame_story_heights cfg mc s.
Proof.
  destruct (Nat.ltb 0 s && Nat.leb s (NUM_STORIES cfg)) eqn:E;
    [reflexivity |].
  unfold frame_story_heights. change (Nat.leb 1 s) with (Nat.ltb 0 s).
  rewrite E. reflexivity.
Qed.

(** The members of the layout: four points each, walls of the wall
    section, coupling beams of the coupling-beam section. *)
Lemma layout_members (cfg : config) (el : StructuralElementPlan) :
  In el (generate_shear_wall_planar_layout cfg) ->
  four_points el
  /\ section_name el = if is_coupling_beam el
                       then COUPLING_BEAM_SECTION_NAME cfg
                       else WALL_SECTION_NAME cfg.
Proof.
  intros Hin. rewrite layout_unfold in Hin.
  apply in_app_or in Hin. destruct Hin as [Hin | Hin];
    apply in_flat_map in Hin; destruct Hin as (a & _ & Hin);
    apply in_flat_map in Hin; destruct Hin as (b & _ & Hin);
    destruct Hin as [<- | [<- | [<- | []]]]; repeat split.
Qed.

Lemma count_in_bays {A : Type} (p : A -> bool) (f : nat -> nat -> list A)
    (n m c : nat) :
  (forall a b, List.length (filter p (f a b)) = c) ->
  List.length
    (filter p (flat_map (fun a => flat_map (f a) (seq 0 m)) (seq 0 n)))
  = (n * (m * c))%nat.
Proof.
  intros Hc. rewrite length_filter_flat_map.
  rewrite (list_sum_constant _ (m * c)%nat).
  - rewrite length_seq. lia.
  - intros a _. rewrite length_filter_flat_map.
    rewrite (list_sum_constant _ c).
    + rewrite length_seq. lia.
    + intros b _. apply Hc.
Qed.

(** Two walls and one coupling beam per bay. *)
Lemma layout_kinds (cfg : config) :
  List.length (walls (generate_shear_wall_planar_layout cfg))
  = (2 * bays cfg)%nat
  /\ List.length (coupling_beams (generate_shear_wall_planar_layout cfg))
     = bays cfg.
Proof.
  rewrite layout_unfold. unfold walls, coupling_beams, bays.
  rewrite !filter_app, !length_app.
  rewrite (count_in_bays (fun el => negb (is_coupling_beam el))
             (fun iy => horizontal_bay cfg
                          (fst (generate_grid_coordinates cfg)) iy
                          (INR iy * SPACING_Y cfg)) _ _ 2)
    by (intros a b; reflexivity).
  rewrite (count_in_bays (fun el => negb (is_coupling_beam el))
             (fun ix => vertical_bay cfg
                          (snd (generate_grid_coordinates cfg)) ix
                          (INR ix * SPACING_X cfg)) _ _ 2)
    by (intros a b; reflexivity).
  rewrite (count_in_bays is_coupling_beam
             (fun iy => horizontal_bay cfg
                          (fst (generate_grid_coordinates cfg)) iy
                          (INR iy * SPACING_Y cfg)) _ _ 1)
    by (intros a b; reflexivity).
  rewrite (count_in_bays is_coupling_beam
             (fun ix => vertical_bay cfg
                          (snd (generate_grid_coordinates cfg)) ix
                          (INR ix * SPACING_X cfg)) _ _ 1)
    by (intros a b; reflexivity).
  split; lia.
Qed.


Lemma stories_heights_ext {A : Type} (cfg : config)
    (h1 h2 : nat -> option R) (f : nat -> R -> R -> A) (count s : nat)
    (z : R) :
  (forall k, h1 k = h2 k) ->
  stories cfg h1 f s count z = stories cfg h2 f s count z.
Proof.
  intros H. revert s z. induction count as [| count IH]; intros s z.
  - reflexivity.
  - cbn [stories]. unfold story_height. rewrite H, IH. reflexivity.
Qed.

Lemma slab_jobs_heights_ext (cfg : config) (h1 h2 : nat -> option R) :
  (forall k, h1 k = h2 k) -> slab_jobs cfg h1 = slab_jobs cfg h2.
Proof.
  intros H. unfold slab_jobs.
  destruct (generate_grid_coordinates cfg) as [gx gy].
  apply stories_heights_ext. exact H.
Qed.


Lemma meshed_slab_keeps (P : area_request -> Prop) (api : area_api)
    (xs ys zs : list R) (section base : string) (mx my : nat)
    (model : list area_event) (names : list string)
    (model' : list area_event) :
  answers_0_or_1 api ->
  (forall m, slab_mesh_of xs ys zs mx my = Done m ->
             forall item, In item (enumerate m) ->
                          P (slab_request section base my item)) ->
  create_meshed_slab true api xs ys zs section base mx my model
  = Done (names, model') ->
  Forall P (added model) -> Forall P (added model').
Proof.
  intros Hapi HP E HF. unfold create_meshed_slab in E.
  destruct (validate_coordinates xs ys zs); cbn [negb] in E.
  - destruct (slab_mesh_of xs ys zs mx my) as [m | |] eqn:Em;
      cbn [bind] in E; try discriminate.
    destruct (place_slabs_answered api
                (map (slab_request section base my) (enumerate m)) Hapi model)
      as (n2 & m2 & E2 & _ & Ha & _).
    rewrite E2 in E. injection E as _ <-. rewrite Ha.
    apply Forall_app. split; [exact HF |].
    apply Forall_forall. intros req Hreq. apply in_map_iff in Hreq.
    destruct Hreq as (item & <- & Hitem). exact (HP m eq_refl item Hitem).
  - injection E as _ <-. exact HF.
Qed.

Lemma run_slab_jobs_keep (P : area_request -> Prop) (mc : more_config)
    (api : area_api) (jobs : list slab_job) :
  answers_0_or_1 api ->
  Forall (slab_panels_satisfy P mc) jobs ->
  forall st names model',
    run_slab_jobs mc true api jobs st = Done (names, model') ->
    Forall P (added (snd st)) -> Forall P (added model').
Proof.
  intros Hapi HJ.
  induction HJ as [| job jobs Hjob _ IH]; intros st names model' E HF.
  - cbn [run_slab_jobs] in E. injection E as ->. exact HF.
  - cbn [run_slab_jobs] in E.
    destruct (create_meshed_slab true api (sl_x job) (sl_y job) (sl_z job)
                (SLAB_SECTION_NAME mc) (sl_name job) (SLAB_MESH_X mc)
                (SLAB_MESH_Y mc) (snd st)) as [[n1 m1] | |] eqn:E1;
      cbn [bind] in E; try discriminate.
    apply (IH _ _ _ E). cbn [fst snd].
    exact (meshed_slab_keeps P api _ _ _ _ _ _ _ _ _ _ Hapi Hjob E1 HF).
Qed.

(** The whole of [create_shear_wall_structural_geometry]: the labels, the
    walls and coupling beams story by story, then the slabs with the story
    heights recorded on the way. *)
Lemma wall_structure_runs (P : area_request -> Prop) (cfg : config)
    (mc : more_config) (labels : label_api) (api : area_api)
    (model : list area_event) :
  labels_answer_0_or_1 labels -> answers_0_or_1 api ->
  (0 < SHEAR_WALL_MESH_H mc)%nat -> (0 < SHEAR_WALL_MESH_V mc)%nat ->
  (0 < COUPLING_BEAM_MESH_H mc)%nat -> (0 < COUPLING_BEAM_MESH_V mc)%nat ->
  (0 < SLAB_MESH_X mc)%nat -> (0 < SLAB_MESH_Y mc)%nat ->
  (forall k, (k < NUM_STORIES cfg)%nat ->
             Forall (panels_satisfy P mc (k + 1) (top_of cfg mc k)
                       (top_of cfg mc (S k)))
                    (generate_shear_wall_planar_layout cfg)) ->
  Forall (slab_panels_satisfy P mc)
         (List.concat (slab_jobs cfg (frame_story_heights cfg mc))) ->
  exists ws,
    create_shear_wall_structural_geometry cfg mc true labels api model
    = Done ws
    /\ List.length (wall_names ws)
       = (NUM_STORIES cfg
          * (2 * bays cfg * (SHEAR_WALL_MESH_H mc * SHEAR_WALL_MESH_V mc)))%nat
    /\ List.length (cb_names ws)
       = (NUM_STORIES cfg
          * (bays cfg
             * (COUPLING_BEAM_MESH_H mc * COUPLING_BEAM_MESH_V mc)))%nat
    /\ (forall s, story_heights ws s = frame_story_heights cfg mc s)
    /\ List.length (added (final_model ws))
       = (List.length (added model) + List.length (wall_names ws)
          + List.length (cb_names ws)
          + NUM_STORIES cfg
            * ((NUM_GRID_LINES_X cfg - 1) * (NUM_GRID_LINES_Y cfg - 1))
            * (SLAB_MESH_X mc * SLAB_MESH_Y mc))%nat
    /\ (Forall P (added model) -> Forall P (added (final_model ws))).
Proof.
  intros Hlab Hapi Hwh Hwv Hch Hcv Hsx Hsy HP HS.
  unfold create_shear_wall_structural_geometry, create_pier_spandrel_labels.
  destruct (define_labels_run labels (generate_shear_wall_planar_layout cfg)
              [] ([], [], []) Hlab) as (l & El & _).
  { split; [constructor |]. split; [constructor |].
    split; [reflexivity |]. split; [reflexivity |].
    split; intros x; (split; [intros [] | intros (e & [] & _)]). }
  rewrite El. cbn [bind].
  assert (Forall four_points (generate_shear_wall_planar_layout cfg)) as H4.
  { apply Forall_forall. intros el Hin. apply (layout_members cfg el Hin). }
  destruct (wall_stories_grow P cfg mc api
              (generate_shear_wall_planar_layout cfg) Hapi Hwh Hwv Hch Hcv
              H4 HP (NUM_STORIES cfg) 0%nat (fun _ => None) ([], [], model)
              eq_refl) as (dict' & st' & Ew & G & D).
  change (top_of cfg mc 0%nat) with 0.0 in Ew. rewrite Ew.
  cbn [bind fst snd].
  assert (forall s, dict' s = frame_story_heights cfg mc s) as Hd.
  { intros s. rewrite D. apply recorded_heights. }
  unfold create_shear_wall_slabs.
  rewrite (slab_jobs_heights_ext cfg dict' (frame_story_heights cfg mc) Hd).
  destruct (run_slab_jobs_answered cfg mc api
              (fst (generate_grid_coordinates cfg))
              (snd (generate_grid_coordinates cfg))
              (List.concat (slab_jobs cfg (frame_story_heights cfg mc)))
              Hapi Hsx Hsy
              (slab_jobs_shape cfg (frame_story_heights cfg mc))
              ([], snd st')) as (names & model' & Es & Hl & Ha).
  rewrite Es. cbn [bind fst snd]. eexists. split; [reflexivity |].
  cbn [wall_names cb_names story_heights final_model].
  destruct G as (Gw & Gc & Ga & GP). cbn [fst snd List.length] in Gw, Gc, Ga, GP.
  destruct (layout_kinds cfg) as [Kw Kc]. rewrite Kw in Gw, Ga.
  rewrite Kc in Gc, Ga. rewrite slab_jobs_count in Ha. cbn [snd] in Ha.
  split; [rewrite Gw; lia |]. split; [rewrite Gc; lia |].
  split; [exact Hd |]. split; [rewrite Ha, Ga, Gw, Gc; lia |].
  intros HF.
  exact (run_slab_jobs_keep P mc api _ Hapi HS _ _ _ Es (GP HF)).
Qed.




End WallStructure.


(** X18.  [create_shear_wall_structural_geometry] against applications
    that answer with status 0 or 1, with positive mesh counts: it defines
    the labels, goes through all stories and all members of the layout and
    creates the slabs without raising or ending the process.  With
    [bays = ny * (nx - 1) + nx * (ny - 1)] it returns
    [NUM_STORIES * 2 * bays * SHEAR_WALL_MESH_H * SHEAR_WALL_MESH_V] wall
    names and
    [NUM_STORIES * bays * COUPLING_BEAM_MESH_H * COUPLING_BEAM_MESH_V]
    coupling-beam names; the dictionary of story heights it returns, and
    hands to [create_shear_wall_slabs], holds the bottom height for story
    1, the typical height for stories 2 to [NUM_STORIES] and nothing else;
    one area object is added per wall, coupling-beam and slab panel. *)
Theorem wall_structure_is_counted (cfg : Config.config)
    (mc : MoreConfig.more_config) (labels : CommonGeometry.label_api)
    (api : AreaObjects.area_api) (model : list AreaObjects.area_event) :
  AreaSpec.labels_answer_0_or_1 labels -> AreaSpec.answers_0_or_1 api ->
  (0 < MoreConfig.SHEAR_WALL_MESH_H mc)%nat ->
  (0 < MoreConfig.SHEAR_WALL_MESH_V mc)%nat ->
  (0 < MoreConfig.COUPLING_BEAM_MESH_H mc)%nat ->
  (0 < MoreConfig.COUPLING_BEAM_MESH_V mc)%nat ->
  (0 < MoreConfig.SLAB_MESH_X mc)%nat ->
  (0 < MoreConfig.SLAB_MESH_Y mc)%nat ->
  exists ws,
    ShearWallStructure.create_shear_wall_structural_geometry cfg mc true
      labels api model = Py.Done ws
    /\ List.length (ShearWallStructure.wall_names ws)
       = (Config.NUM_STORIES cfg
          * (2 * WallSpec.bays cfg
             * (MoreConfig.SHEAR_WALL_MESH_H mc
                * MoreConfig.SHEAR_WALL_MESH_V mc)))%nat
    /\ List.length (ShearWallStructure.cb_names ws)
       = (Config.NUM_STORIES cfg
          * (WallSpec.bays cfg
             * (MoreConfig.COUPLING_BEAM_MESH_H mc
                * MoreConfig.COUPLING_BEAM_MESH_V mc)))%nat
    /\ (forall s, ShearWallStructure.story_heights ws s
                  = FrameStructure.frame_story_heights cfg mc s)
    /\ List.length (AreaSpec.added (ShearWallStructure.final_model ws))
       = (List.length (AreaSpec.added model)
          + List.length (ShearWallStructure.wall_names ws)
          + List.length (ShearWallStructure.cb_names ws)
          + Config.NUM_STORIES cfg
            * ((Config.NUM_GRID_LINES_X cfg - 1)
               * (Config.NUM_GRID_LINES_Y cfg - 1))
            * (MoreConfig.SLAB_MESH_X mc * MoreConfig.SLAB_MESH_Y mc))%nat.
Proof.
  intros Hlab Hapi Hwh Hwv Hch Hcv Hsx Hsy.
  destruct (wall_structure_runs (fun _ => True) cfg mc labels api model
              Hlab Hapi Hwh Hwv Hch Hcv Hsx Hsy)
    as (ws & E & Hw & Hc & Hd & Ha & _).
  - intros k _. apply Forall_forall. intros el _ m _ item _. exact I.
  - apply Forall_forall. intros job _ m _ item _. exact I.
  - exists ws. repeat split; assumption.
Qed.

Lemma wall_structure_is_counted_witness :
  exists ws,
    ShearWallStructure.create_shear_wall_structural_geometry
      Config.config_frame MoreConfig.more_config_shear_wall true
      AreaSpec.labels_answering_1 AreaSpec.api_answering_1 [] = Py.Done ws
    /\ List.length (ShearWallStructure.wall_names ws)
       = (Config.NUM_STORIES Config.config_frame
          * (2 * WallSpec.bays Config.config_frame
             * (MoreConfig.SHEAR_WALL_MESH_H MoreConfig.more_config_shear_wall
                * MoreConfig.SHEAR_WALL_MESH_V
                    MoreConfig.more_config_shear_wall)))%nat
    /\ List.length (ShearWallStructure.cb_names ws)
       = (Config.NUM_STORIES Config.config_frame
          * (WallSpec.bays Config.config_frame
             * (MoreConfig.COUPLING_BEAM_MESH_H
                  MoreConfig.more_config_shear_wall
                * MoreConfig.COUPLING_BEAM_MESH_V
                    MoreConfig.more_config_shear_wall)))%nat
    /\ (forall s, ShearWallStructure.story_heights ws s
                  = FrameStructure.frame_story_heights Config.config_frame
                      MoreConfig.more_config_shear_wall s)
    /\ List.length (AreaSpec.added (ShearWallStructure.final_model ws))
       = (List.length (AreaSpec.added [])
          + List.length (ShearWallStructure.wall_names ws)
          + List.length (ShearWallStructure.cb_names ws)
          + Config.NUM_STORIES Config.config_frame
            * ((Config.NUM_GRID_LINES_X Config.config_frame - 1)
               * (Config.NUM_GRID_LINES_Y Config.config_frame - 1))
            * (MoreConfig.SLAB_MESH_X MoreConfig.more_config_shear_wall
               * MoreConfig.SLAB_MESH_Y
                   MoreConfig.more_config_shear_wall))%nat.
Proof.
  apply (wall_structure_is_counted Config.config_frame
           MoreConfig.more_config_shear_wall AreaSpec.labels_answering_1
           AreaSpec.api_answering_1 []).
  - apply labels_answering_1_answers.
  - apply api_answering_1_answers.
  - cbn. lia.
  - cbn. lia.
  - cbn. lia.
  - cbn. lia.
  - cbn. lia.
  - cbn. lia.
Defined.




(** ** Load combinations *)

Section Combinations.
Import LoadCombinations CombinationSpec CommonGeometry.

Lemma first_names_snoc (l : list string) (k : string) :
  first_names (l ++ [k])
  = if member k (first_names l) then first_names l
    else (first_names l ++ [k])%list.
Proof. unfold first_names. rewrite fold_left_app. reflexivity. Qed.

Lemma group_by_name_snoc (data : list combination) (r : combination) :
  group_by_name (data ++ [r])
  = append_to (group_by_name data) (name r) (case r, factor r).
Proof. unfold group_by_name. rewrite fold_left_app. reflexivity. Qed.

Lemma rows_of_snoc (n : string) (data : list combination) (r : combination) :
  rows_of n (data ++ [r])
  = (rows_of n data
     ++ (if String.eqb (name r) n then [(case r, factor r)] else []))%list.
Proof.
  unfold rows_of. rewrite filter_app, map_app. cbn [filter].
  destruct (String.eqb (name r) n); reflexivity.
Qed.

(** The names seen are the names of the data, each once. *)
Lemma first_names_distinct (l : list string) :
  NoDup (first_names l) /\ (forall n, In n (first_names l) <-> In n l).
Proof.
  induction l as [| k l IH] using rev_ind.
  - split; [constructor | intros n; reflexivity].
  - destruct IH as [Hnd Hin]. rewrite first_names_snoc.
    destruct (member k (first_names l)) eqn:E.
    + apply member_true in E. split; [exact Hnd |].
      intros n. rewrite in_app_iff, Hin. cbn [In]. split.
      * intros H. left. exact H.
      * intros [H | [<- | []]]; [exact H | apply Hin; exact E].
    + apply member_false in E. split.
      * apply NoDup_snoc; assumption.
      * intros n. rewrite !in_app_iff, Hin. reflexivity.
Qed.

(** Appending under a key that is there changes the list of that key. *)
Lemma append_to_present (L : list string) (f g : string -> list (string * R))
    (k : string) (v : string * R) :
  NoDup L -> In k L ->
  (forall n, In n L ->
             g n = if String.eqb n k then (f n ++ [v])%list else f n) ->
  append_to (map (fun n => (n, f n)) L) k v = map (fun n => (n, g n)) L.
Proof.
  induction L as [| a L IH]; intros Hnd Hin Hg; [destruct Hin |].
  inversion Hnd as [| ? ? Ha HndL]; subst.
  cbn [map append_to].
  pose proof (Hg a (or_introl eq_refl)) as Hga.
  destruct (String.eqb_spec a k) as [-> | Hne].
  - rewrite Hga. f_equal. apply map_ext_in. intros n Hn.
    rewrite (Hg n (or_intror Hn)).
    destruct (String.eqb_spec n k) as [-> | _]; [contradiction | reflexivity].
  - rewrite Hga. f_equal. apply IH.
    + exact HndL.
    + destruct Hin as [-> | Hin]; [contradiction | exact Hin].
    + intros n Hn. apply Hg. right. exact Hn.
Qed.

(** Appending under a new key adds the key at the end. *)
Lemma append_to_absent (L : list string) (f g : string -> list (string * R))
    (k : string) (v : string * R) :
  ~ In k L -> (forall n, In n L -> g n = f n) -> g k = [v] ->
  append_to (map (fun n => (n, f n)) L) k v
  = map (fun n => (n, g n)) (L ++ [k]).
Proof.
  induction L as [| a L IH]; intros Hin Hg Hk.
  - cbn. rewrite Hk. reflexivity.
  - cbn [map append_to app].
    destruct (String.eqb_spec a k) as [-> | Hne].
    + exfalso. apply Hin. left. reflexivity.
    + rewrite (Hg a (or_introl eq_refl)). f_equal. apply IH.
      * intros H. apply Hin. right. exact H.
      * intros n Hn. apply Hg. right. exact Hn.
      * exact Hk.
Qed.

Lemma rows_of_unknown (n : string) (data : list combination) :
  ~ In n (map name data) -> rows_of n data = [].
Proof.
  intros Hn. unfold rows_of. rewrite filter_nothing; [reflexivity |].
  intros r Hr. apply String.eqb_neq. intros E. apply Hn.
  apply in_map_iff. exists r. split; assumption.
Qed.

(** The dictionary of the grouping loop: the names in the order of their
    first appearance, each with its rows in the order of the data. *)
Lemma group_by_name_rows (data : list combination) :
  group_by_name data
  = map (fun n => (n, rows_of n data)) (first_names (map name data)).
Proof.
  induction data as [| r data IH] using rev_ind; [reflexivity |].
  rewrite group_by_name_snoc, IH, map_app. cbn [map].
  rewrite first_names_snoc.
  destruct (first_names_distinct (map name data)) as [Hnd Hin].
  destruct (member (name r) (first_names (map name data))) eqn:E.
  - apply member_true in E. apply append_to_present; try assumption.
    intros n _. rewrite rows_of_snoc, (String.eqb_sym (name r) n).
    destruct (String.eqb n (name r)); [reflexivity | apply app_nil_r].
  - apply member_false in E. apply append_to_absent.
    + exact E.
    + intros n Hn. rewrite rows_of_snoc.
      destruct (String.eqb_spec (name r) n) as [<- | _];
        [contradiction | apply app_nil_r].
    + rewrite rows_of_snoc, String.eqb_refl.
      rewrite rows_of_unknown; [reflexivity |].
      intros H. apply E, Hin, H.
Qed.

Lemma set_cases_of_group (group : string * list (string * R)) :
  List.length (filter is_set_case (combination_calls group))
  = List.length (snd group).
Proof.
  unfold combination_calls. cbn [filter is_set_case].
  rewrite filter_everything; [apply length_map |].
  intros c Hc. apply in_map_iff in Hc. destruct Hc as (e & <- & _).
  reflexivity.
Qed.

Lemma adds_of_group (group : string * list (string * R)) :
  List.length (filter is_add (combination_calls group)) = 1%nat.
Proof.
  unfold combination_calls. cbn [filter is_add List.length].
  rewrite filter_nothing; [reflexivity |].
  intros c Hc. apply in_map_iff in Hc. destruct Hc as (e & <- & _).
  reflexivity.
Qed.

(** One more row is one more [SetCaseList] call. *)
Lemma set_case_count_step (g : grouped) (k : string) (v : string * R) :
  List.length (filter is_set_case (flat_map combination_calls
                                     (append_to g k v)))
  = S (List.length (filter is_set_case (flat_map combination_calls g))).
Proof.
  induction g as [| [a entries] g IH].
  - reflexivity.
  - cbn [append_to]. destruct (String.eqb a k).
    + cbn [flat_map]. rewrite !filter_app, !length_app.
      rewrite !set_cases_of_group. cbn [snd]. rewrite length_app.
      cbn [List.length]. lia.
    + cbn [flat_map]. rewrite !filter_app, !length_app, IH. lia.
Qed.

Lemma set_case_count (data : list combination) :
  List.length (filter is_set_case (create_load_combinations_in_etabs data))
  = List.length data.
Proof.
  unfold create_load_combinations_in_etabs.
  induction data as [| r data IH] using rev_ind; [reflexivity |].
  rewrite group_by_name_snoc, set_case_count_step, IH, length_app.
  cbn [List.length]. lia.
Qed.

Lemma add_count (g : grouped) :
  List.length (filter is_add (flat_map combination_calls g))
  = List.length g.
Proof.
  induction g as [| group g IH]; [reflexivity |].
  cbn [flat_map]. rewrite filter_app, length_app, adds_of_group, IH.
  reflexivity.
Qed.

End Combinations.

(** X20.  [create_load_combinations_in_etabs] groups the rows by name: the
    calls it makes are, for every name in the order of first appearance,
    one [Add(name, 0)] followed by one [SetCaseList(name, 0, case, factor)]
    for every row of that name, in the order of the data.  Every name is
    added once, however its rows are spread over the data, and every row
    gives one [SetCaseList] call. *)
Theorem combinations_grouped_by_name
    (data : list LoadCombinations.combination) :
  LoadCombinations.create_load_combinations_in_etabs data
  = flat_map (fun n =>
                LoadCombinations.Add n 0
                :: map (fun entry =>
                          LoadCombinations.SetCaseList n 0 (fst entry)
                            (snd entry))
                       (CombinationSpec.rows_of n data))
             (CombinationSpec.first_names (map LoadCombinations.name data))
  /\ NoDup (CombinationSpec.first_names (map LoadCombinations.name data))
  /\ (forall n, In n (CombinationSpec.first_names
                        (map LoadCombinations.name data))
                <-> exists r, In r data /\ LoadCombinations.name r = n)
  /\ List.length (filter CombinationSpec.is_add
                    (LoadCombinations.create_load_combinations_in_etabs data))
     = List.length (CombinationSpec.first_names
                      (map LoadCombinations.name data))
  /\ List.length (filter CombinationSpec.is_set_case
                    (LoadCombinations.create_load_combinations_in_etabs data))
     = List.length data.
Proof.
  destruct (first_names_distinct (map LoadCombinations.name data))
    as [Hnd Hin].
  split.
  - unfold LoadCombinations.create_load_combinations_in_etabs.
    rewrite group_by_name_rows, flat_map_concat_map, map_map.
    rewrite <- flat_map_concat_map. reflexivity.
  - split; [exact Hnd |]. split.
    + intros n. rewrite Hin, in_map_iff. split.
      * intros (r & E & Hr). exists r. split; assumption.
      * intros (r & Hr & E). exists r. split; assumption.
    + split; [| apply set_case_count].
      unfold LoadCombinations.create_load_combinations_in_etabs.
      rewrite add_count, group_by_name_rows, length_map. reflexivity.
Qed.


(** ** Slab loads *)

Section SlabLoads.
Import Config MoreConfig Helpers Py GeometryCommon ShearWallGeometry.
Import MeshUtils FrameGeometry FrameStructure AreaObjects CommonGeometry.
Import MeshedElements AreaSpec SlabGeometry StorySpec ShearWallStructure.
Import WallSpec DeadLiveLoads LoadSpec.

Lemma load_slabs_run (api : load_api) (dead live : R) (slabs : list string) :
  (forall n p v, lets_through (SetLoadUniform api n p v)) ->
  forall calls,
    load_slabs true api dead live slabs calls
    = Done (calls
            ++ flat_map (fun n => [LoadSet n "DEAD" (Rabs dead);
                                   LoadSet n "LIVE" (Rabs live)]) slabs)%list.
Proof.
  intros Hset. induction slabs as [| n slabs IH]; intros calls.
  - cbn [load_slabs flat_map]. rewrite app_nil_r. reflexivity.
  - cbn [load_slabs]. unfold load_slab.
    rewrite !check_0_or_1_passes by apply Hset. cbn [bind].
    rewrite IH. cbn [flat_map]. rewrite <- app_assoc. reflexivity.
Qed.

Lemma listed_names (status : pyval) (names : list string)
    (set : string -> string -> R -> pyval) :
  all_area_names (GetNameList (listing status names set)) = names.
Proof.
  unfold all_area_names, listing. cbn [GetNameList fst snd].
  destruct names as [| n names]; [reflexivity |].
  replace (Z.ltb 0 (Z.of_nat (List.length (n :: names)))) with true;
    [reflexivity |].
  symmetry. apply Z.ltb_lt. cbn [List.length]. lia.
Qed.

(** The loads module against an application that lists [names]: the two
    loads on every name that starts with ["SLAB_"]. *)
Lemma slab_loads_run (status : pyval) (names : list string)
    (set : string -> string -> R -> pyval) (dead live : R) :
  status = PInt 0 \/ status = PInt 1 ->
  (forall n p v, lets_through (set n p v)) ->
  assign_dead_and_live_loads_to_slabs true true (listing status names set)
    dead live
  = Done (flat_map (fun n => [LoadSet n "DEAD" (Rabs dead);
                              LoadSet n "LIVE" (Rabs live)])
                   (slabs_to_load names)).
Proof.
  intros Hs Hset. unfold assign_dead_and_live_loads_to_slabs. cbn [negb].
  rewrite (benign_call_passes "GetNameList");
    [| unfold benign_keywords; cbn [In]; tauto | reflexivity
     | destruct Hs as [-> | ->]; [left | right]; reflexivity].
  cbn [bind]. rewrite listed_names.
  rewrite load_slabs_run by exact Hset. reflexivity.
Qed.

(** Where the names tell the kinds apart, the prefix filter selects the
    panels of the slab section. *)
Lemma prefix_selects_slab_panels (cfg : config) (mc : more_config)
    (reqs : list area_request) :
  SLAB_SECTION_NAME mc <> WALL_SECTION_NAME cfg ->
  SLAB_SECTION_NAME mc <> COUPLING_BEAM_SECTION_NAME cfg ->
  Forall (named_by_kind cfg mc) reqs ->
  slabs_to_load (map area_user_name reqs)
  = map area_user_name (slab_panels mc reqs).
Proof.
  intros Hw Hc HF. induction HF as [| req reqs Hreq _ IH]; [reflexivity |].
  unfold slabs_to_load, slab_panels in *. cbn [map filter]. rewrite IH.
  destruct Hreq as [[Hs Hp] | [Hs Hp]]; rewrite Hp.
  - rewrite Hs, String.eqb_refl. reflexivity.
  - destruct (String.eqb_spec (area_prop req) (SLAB_SECTION_NAME mc))
      as [E | _]; [| reflexivity].
    exfalso. destruct Hs as [Hs | Hs]; rewrite Hs in E;
      [apply Hw | apply Hc]; symmetry; exact E.
Qed.

(** The names of the layout do not start with ["SLAB_"]. *)
Lemma layout_names_not_slab (cfg : config) (el : StructuralElementPlan)
    (s t : string) :
  In el (generate_shear_wall_planar_layout cfg) ->
  String.prefix "SLAB_" ((base_name_template el ++ s) ++ t) = false.
Proof.
  intros Hin. rewrite layout_unfold in Hin.
  apply in_app_or in Hin. destruct Hin as [Hin | Hin];
    apply in_flat_map in Hin; destruct Hin as (a & _ & Hin);
    apply in_flat_map in Hin; destruct Hin as (b & _ & Hin);
    destruct Hin as [<- | [<- | [<- | []]]]; reflexivity.
Qed.

Lemma wall_panels_named (cfg : config) (mc : more_config) (k : nat)
    (zb zt : R) :
  Forall (panels_satisfy (named_by_kind cfg mc) mc k zb zt)
         (generate_shear_wall_planar_layout cfg).
Proof.
  apply Forall_forall. intros el Hin m _ item _.
  destruct (layout_members cfg el Hin) as [_ Hsec].
  destruct item as [idx [[ex ey] ez]].
  right. cbn [panel_request area_prop area_user_name]. split.
  - rewrite Hsec. destruct (is_coupling_beam el);
      [right | left]; reflexivity.
  - unfold panel_name. apply (layout_names_not_slab cfg). exact Hin.
Qed.

Lemma slab_panels_named (cfg : config) (mc : more_config)
    (heights : nat -> option R) :
  Forall (slab_panels_satisfy (named_by_kind cfg mc) mc)
         (List.concat (slab_jobs cfg heights)).
Proof.
  apply Forall_forall. intros job Hin m _ item _.
  pose proof (slab_jobs_shape cfg heights) as Hshape.
  rewrite Forall_forall in Hshape.
  destruct (Hshape job Hin) as (s & z & ix & iy & ->).
  destruct item as [idx [[ex ey] ez]].
  left. split; reflexivity.
Qed.

End SlabLoads.

(** X21.  The slab loads reach the slab panels and nothing else.  The wall
    structure is built against applications that answer with status 0 or
    1; the slab section differs from the wall and coupling-beam sections.
    When the application then lists the area objects under the names they
    were asked for, [assign_dead_and_live_loads_to_slabs] sets, for every
    panel of the slab section in the order of creation, the load
    [abs(dead_kpa)] under ["DEAD"] and then [abs(live_kpa)] under ["LIVE"],
    and no load on any wall or coupling-beam panel: the names of the slab
    panels start with ["SLAB_"], those of the layout with ["H"] or ["V"].
    A status of 1 from [GetNameList] or [SetLoadUniform] is let through. *)
Theorem slab_loads_reach_slab_panels (cfg : Config.config)
    (mc : MoreConfig.more_config) (labels : CommonGeometry.label_api)
    (api : AreaObjects.area_api) (status : Helpers.pyval)
    (set : string -> string -> R -> Helpers.pyval) (dead_kpa live_kpa : R) :
  AreaSpec.labels_answer_0_or_1 labels -> AreaSpec.answers_0_or_1 api ->
  (0 < MoreConfig.SHEAR_WALL_MESH_H mc)%nat ->
  (0 < MoreConfig.SHEAR_WALL_MESH_V mc)%nat ->
  (0 < MoreConfig.COUPLING_BEAM_MESH_H mc)%nat ->
  (0 < MoreConfig.COUPLING_BEAM_MESH_V mc)%nat ->
  (0 < MoreConfig.SLAB_MESH_X mc)%nat ->
  (0 < MoreConfig.SLAB_MESH_Y mc)%nat ->
  MoreConfig.SLAB_SECTION_NAME mc <> Config.WALL_SECTION_NAME cfg ->
  MoreConfig.SLAB_SECTION_NAME mc <> Config.COUPLING_BEAM_SECTION_NAME cfg ->
  status = Helpers.PInt 0 \/ status = Helpers.PInt 1 ->
  (forall n p v, AreaSpec.lets_through (set n p v)) ->
  exists ws,
    ShearWallStructure.create_shear_wall_structural_geometry cfg mc true
      labels api [] = Py.Done ws
    /\ DeadLiveLoads.assign_dead_and_live_loads_to_slabs true true
         (LoadSpec.listing status
            (map AreaObjects.area_user_name
               (AreaSpec.added (ShearWallStructure.final_model ws)))
            set)
         dead_kpa live_kpa
       = Py.Done
           (LoadSpec.slab_loads dead_kpa live_kpa
              (LoadSpec.slab_panels mc
                 (AreaSpec.added (ShearWallStructure.final_model ws)))).
Proof.
  intros Hlab Hapi Hwh Hwv Hch Hcv Hsx Hsy Hw Hc Hs Hset.
  destruct (wall_structure_runs (LoadSpec.named_by_kind cfg mc) cfg mc
              labels api [] Hlab Hapi Hwh Hwv Hch Hcv Hsx Hsy)
    as (ws & E & _ & _ & _ & _ & HP).
  - intros k _. apply wall_panels_named.
  - apply slab_panels_named.
  - exists ws. split; [exact E |].
    rewrite slab_loads_run by assumption.
    rewrite (prefix_selects_slab_panels cfg mc) by
      (try assumption; apply HP; constructor).
    unfold LoadSpec.slab_loads. rewrite flat_map_concat_map, map_map.
    rewrite <- flat_map_concat_map. reflexivity.
Qed.

Lemma slab_loads_reach_slab_panels_witness :
  exists ws,
    ShearWallStructure.create_shear_wall_structural_geometry
      Config.config_frame MoreConfig.more_config_shear_wall true
      AreaSpec.labels_answering_1 AreaSpec.api_answering_1 [] = Py.Done ws
    /\ DeadLiveLoads.assign_dead_and_live_loads_to_slabs true true
         (LoadSpec.listing (Helpers.PInt 1)
            (map AreaObjects.area_user_name
               (AreaSpec.added (ShearWallStructure.final_model ws)))
            (fun _ _ _ => Helpers.PInt 1))
         1.5 2.0
       = Py.Done
           (LoadSpec.slab_loads 1.5 2.0
              (LoadSpec.slab_panels MoreConfig.more_config_shear_wall
                 (AreaSpec.added (ShearWallStructure.final_model ws)))).
Proof.
  apply (slab_loads_reach_slab_panels Config.config_frame
           MoreConfig.more_config_shear_wall AreaSpec.labels_answering_1
           AreaSpec.api_answering_1 (Helpers.PInt 1)
           (fun _ _ _ => Helpers.PInt 1) 1.5 2.0).
  - apply labels_answering_1_answers.
  - apply api_answering_1_answers.
  - cbn. lia.
  - cbn. lia.
  - cbn. lia.
  - cbn. lia.
  - cbn. lia.
  - cbn. lia.
  - cbn. discriminate.
  - cbn. discriminate.
  - right. reflexivity.
  - intros n p v. right. reflexivity.
Defined.
